(** * The master side of the MaxScale binlog router

    A shallow embedding of [server/modules/routing/binlog/blr_master.c]:
    the packet codec, the builders of the three outbound commands, the
    master state machine with its serialisation gate, the ingestion of
    binlog records with rotate handling, and the distribution of events
    to the registered slaves.

    Integers are [Z] with the wrap-around of their C type written out,
    bytes are [Z] in [0, 256), a [GWBUF] is the chain of its segments. *)

From Stdlib Require Import ZArith String Ascii List Bool Lia.
Import ListNotations.
Local Open Scope Z_scope.

(** ** Machine integers *)

Definition wrap8 (z : Z) : Z := z mod 2 ^ 8.
Definition wrap32 (z : Z) : Z := z mod 2 ^ 32.

Definition is_byte (b : Z) : Prop := 0 <= b < 256.

(** [x << n] on a [uint32_t]: for [n] below 32 the bits shifted out of
    the 32-bit type are lost.  A shift by the full width, as in
    [blr_rotate_event], is undefined in C: a target may yield 0, as this
    definition does, or [x] itself when the shift count is taken modulo
    32.  Whatever it yields is a 32-bit value, so that a sum of
    [uint32_t] operands built with it is below [2^32] in every build;
    only that bound, and not the value 0, holds of the C code as
    such. *)
Definition uint32_shl (x n : Z) : Z := wrap32 (Z.shiftl x n).

(** ** Packet codec *)

(** [encode_value(data, value, len)]: the bytes stored at [data[0]],
    [data[1]], ... while [len > 0]; [value] is an [unsigned int]. *)
Fixpoint encode_loop (fuel : nat) (value len : Z) : list Z :=
  match fuel with
  | O => []
  | S fuel' =>
      if len >? 0
      then Z.land value 255 :: encode_loop fuel' (Z.shiftr value 8) (len - 8)
      else []
  end.

Definition encode_value (value len : Z) : list Z :=
  encode_loop (Z.to_nat len) (wrap32 value) len.

(** [extract_field(src, bits)]: [src] is the memory from the pointer on; a
    read past the end of the list stands for a read past the packet and
    yields 0 here. *)
Fixpoint extract_loop (fuel : nat) (src : list Z) (bits rval shift : Z) : Z :=
  match fuel with
  | O => rval
  | S fuel' =>
      if bits >? 0
      then extract_loop fuel' (tl src) (bits - 8)
             (Z.lor rval (wrap32 (Z.shiftl (hd 0 src) shift))) (shift + 8)
      else rval
  end.

Definition extract_field (src : list Z) (bits : Z) : Z :=
  extract_loop (Z.to_nat bits) src bits 0 0.

(** Reference little-endian codec, the yardstick for the two loops. *)
Fixpoint le_bytes (n : nat) (v : Z) : list Z :=
  match n with
  | O => []
  | S n' => v mod 256 :: le_bytes n' (v / 256)
  end.

Fixpoint le_value (bs : list Z) : Z :=
  match bs with
  | [] => 0
  | b :: bs' => b + 256 * le_value bs'
  end.

(** ** C strings and memory *)

(** The characters of a C string: everything before the first NUL. *)
Fixpoint cstr (s : list Z) : list Z :=
  match s with
  | [] => []
  | c :: s' => if c =? 0 then [] else c :: cstr s'
  end.

(** [strncpy(dst, src, n)] stores exactly [n] bytes: the string, then NULs. *)
Definition strncpy (src : list Z) (n : nat) : list Z :=
  firstn n (cstr src ++ repeat 0 n).

Fixpoint bytes_eqb (a b : list Z) : bool :=
  match a, b with
  | [], [] => true
  | x :: a', y :: b' => (x =? y) && bytes_eqb a' b'
  | _, _ => false
  end.

(** [strncmp(a, b, n) != 0] *)
Definition strncmp_differs (a b : list Z) (n : nat) : bool :=
  negb (bytes_eqb (firstn n (cstr a)) (firstn n (cstr b))).

(** [memcpy(dst, src, n)]: the [n] bytes read at [src]. *)
Definition memcpy (src : list Z) (n : Z) : list Z := firstn (Z.to_nat n) src.

Definition bytes_of_string (s : string) : list Z :=
  map (fun c => Z.of_N (N_of_ascii c)) (list_ascii_of_string s).

Definition strlen (s : string) : Z := Z.of_nat (String.length s).

(** [char query[size]; sprintf(query, ...)]: the text and its terminator
    are stored in [query].  A text of [size] characters or more does not
    fit and the C code writes past the array; as for the stores of [fill]
    below, what falls outside is dropped here, so that the string read
    back is the characters that are in the array, and [sprintf_fits]
    tells the two apart. *)
Definition sprintf (size : nat) (text : string) : string :=
  substring 0 size text.

Definition sprintf_fits (size : nat) (text : string) : Prop :=
  (String.length text < size)%nat.

(** A data area is filled by stores at offsets.  A store that does not fit
    the area is an overflow in C; here the bytes that fall outside are
    dropped and [in_bounds] tells the two apart. *)
Fixpoint poke (data : list Z) (off : nat) (b : Z) : list Z :=
  match data, off with
  | [], _ => []
  | _ :: t, O => b :: t
  | h :: t, S off' => h :: poke t off' b
  end.

Fixpoint store (data : list Z) (off : nat) (bs : list Z) : list Z :=
  match bs with
  | [] => data
  | b :: bs' => store (poke data off b) (S off) bs'
  end.

Definition write : Type := nat * list Z.

Definition in_bounds (size : nat) (w : write) : Prop :=
  (fst w + length (snd w) <= size)%nat.

(** ** Buffers *)

(** Modelled from the spec: the buffer primitives of the absent buffer
    component.  Inbound bytes arrive as a chained buffer sequence, each
    segment of arbitrary length: a [GWBUF *] is the chain of its segments'
    data, [NULL] is the empty chain.  [GWBUF_DATA] and [GWBUF_LENGTH] look
    at the head segment, [gwbuf_length] at the whole chain. *)
Definition GWBUF : Type := list (list Z).

Definition GWBUF_DATA (b : GWBUF) : list Z := hd [] b.
Definition GWBUF_LENGTH (b : GWBUF) : Z := Z.of_nat (length (GWBUF_DATA b)).
Definition gwbuf_length (b : GWBUF) : Z := Z.of_nat (length (concat b)).
Definition gwbuf_append (head tail : GWBUF) : GWBUF := head ++ tail.

(** Modelled from the spec: advancing the chain by [n] bytes, the way the
    ingest code calls it, on the head segment, which is unlinked once it
    is used up. *)
Definition gwbuf_consume (head : GWBUF) (n : Z) : GWBUF :=
  match head with
  | [] => []
  | seg :: rest =>
      if n >=? Z.of_nat (length seg) then rest
      else skipn (Z.to_nat n) seg :: rest
  end.

(** [gwbuf_alloc(size)] gives a data area of [size] bytes; [fill] is the
    allocation followed by the stores of a builder. *)
Definition gwbuf_alloc (size : nat) : list Z := repeat 0 size.

Definition fill (size : nat) (ws : list write) : GWBUF :=
  [fold_left (fun d w => store d (fst w) (snd w)) ws (gwbuf_alloc size)].

(** Modelled from the spec: [conn.write(buffer)] of the absent connection
    handle; a [DCB] is seen through the buffers handed to its
    [func.write]. *)
Definition DCB : Type := list GWBUF.
Definition dcb_write (d : DCB) (b : GWBUF) : DCB := d ++ [b].

Definition is_null (b : GWBUF) : bool :=
  match b with [] => true | _ => false end.

(** ** Protocol constants *)

(** Modelled from the spec: the command bytes of the MySQL protocol. *)
Definition COM_QUERY : Z := 0x03.
Definition COM_BINLOG_DUMP : Z := 0x12.
Definition COM_REGISTER_SLAVE : Z := 0x15.

(** Modelled from the spec: event types and the artificial flag as MySQL
    5.6 defines them. *)
Definition ROTATE_EVENT : Z := 0x04.
Definition FORMAT_DESCRIPTION_EVENT : Z := 0x0f.
Definition HEARTBEAT_EVENT : Z := 0x1b.
Definition LOG_EVENT_ARTIFICIAL_F : Z := 0x20.

(** Modelled from the spec: the [BLRM_] constants of the absent [blr.h],
    numbered in the execution order of the state machine, after the
    unconnected state. *)
Definition BLRM_UNCONNECTED : Z := 0.
Definition BLRM_AUTHENTICATED : Z := 1.
Definition BLRM_TIMESTAMP : Z := 2.
Definition BLRM_SERVERID : Z := 3.
Definition BLRM_HBPERIOD : Z := 4.
Definition BLRM_CHKSUM1 : Z := 5.
Definition BLRM_CHKSUM2 : Z := 6.
Definition BLRM_GTIDMODE : Z := 7.
Definition BLRM_MUUID : Z := 8.
Definition BLRM_SUUID : Z := 9.
Definition BLRM_LATIN1 : Z := 10.
Definition BLRM_REGISTER : Z := 11.
Definition BLRM_BINLOGDUMP : Z := 12.
Definition BLRM_MAXSTATE : Z := 12.

(** Modelled from the spec: the MySQL error-packet marker of the absent
    protocol header, the first payload byte being [0xff]. *)
Definition MYSQL_RESPONSE_ERR (buf : GWBUF) : bool :=
  nth 4 (GWBUF_DATA buf) 0 =? 0xff.

(** Modelled from the spec: the width the specification's constants give
    the binlog name field. *)
Definition spec_BINLOG_FNAMELEN : nat := 40.

(** ** Data model *)

(** The structures are declared in the absent [blr.h]; they are given the
    fields this file reads and writes, with the widths the specification
    lists. *)

(** The header of a replication event, as [blr_extract_header] fills it. *)
Record REP_HEADER : Type := {
  payload_len : Z;
  hdr_seqno : Z;
  ok : Z;
  timestamp : Z;
  event_type : Z;
  hdr_serverid : Z;
  event_size : Z;
  next_pos : Z;
  flags : Z
}.

(** A slave: its connection, the next offset it expects (compared with
    and assigned from 32-bit header fields), its one-byte sequence id.
    Modelled from the spec: the slave-side rotate hook lives outside this
    file and moves the slave's file tracking, kept here as the payloads
    it was called with. *)
Record ROUTER_SLAVE : Type := {
  dcb : DCB;
  binlog_pos : Z;
  seqno : Z;
  rotations : list (list Z)
}.

(** The responses of the handshake kept for the slaves that attach later,
    and the copy of the fake format description event. *)
Record MASTER_RESPONSES : Type := {
  server_id : GWBUF;
  heartbeat : GWBUF;
  chksum1 : GWBUF;
  chksum2 : GWBUF;
  gtid_mode : GWBUF;
  uuid : GWBUF;
  setslaveuuid : GWBUF;
  setnames : GWBUF;
  fde_event : option (list Z);
  fde_len : Z
}.

(** The counters, with the histogram of the 0x24 event types. *)
Record ROUTER_STATS : Type := {
  n_binlogs : Z;
  n_rotates : Z;
  n_fakeevents : Z;
  n_binlog_errors : Z;
  events : list Z
}.

(** Calls into the local binlog file component. *)
Inductive file_call : Type :=
| FileWrite (hdr : REP_HEADER) (payload : list Z)
| FileRotate (name : list Z) (pos : Z)
| FileFlush.

(** The router instance.  [master] is the connection to the master,
    [blfile] the calls made to the file component, [released] the
    response buffers given up through [gwbuf_consume] (each with the byte
    count passed). *)
Record ROUTER_INSTANCE : Type := {
  serverid : Z;
  masterid : Z;
  port : Z;
  router_uuid : string;
  master_state : Z;
  active_logs : Z;
  queue : GWBUF;
  residual : GWBUF;
  saved_master : MASTER_RESPONSES;
  stats : ROUTER_STATS;
  slaves : list ROUTER_SLAVE;
  binlog_name : list Z;
  binlog_position : Z;
  master : DCB;
  blfile : list file_call;
  released : list (GWBUF * Z)
}.

Definition set_master_state (v : Z) (r : ROUTER_INSTANCE) : ROUTER_INSTANCE :=
  {| serverid := serverid r; masterid := masterid r; port := port r;
     router_uuid := router_uuid r; master_state := v;
     active_logs := active_logs r; queue := queue r; residual := residual r;
     saved_master := saved_master r; stats := stats r; slaves := slaves r;
     binlog_name := binlog_name r; binlog_position := binlog_position r;
     master := master r; blfile := blfile r; released := released r |}.

Definition set_active_logs (v : Z) (r : ROUTER_INSTANCE) : ROUTER_INSTANCE :=
  {| serverid := serverid r; masterid := masterid r; port := port r;
     router_uuid := router_uuid r; master_state := master_state r;
     active_logs := v; queue := queue r; residual := residual r;
     saved_master := saved_master r; stats := stats r; slaves := slaves r;
     binlog_name := binlog_name r; binlog_position := binlog_position r;
     master := master r; blfile := blfile r; released := released r |}.

Definition set_queue (v : GWBUF) (r : ROUTER_INSTANCE) : ROUTER_INSTANCE :=
  {| serverid := serverid r; masterid := masterid r; port := port r;
     router_uuid := router_uuid r; master_state := master_state r;
     active_logs := active_logs r; queue := v; residual := residual r;
     saved_master := saved_master r; stats := stats r; slaves := slaves r;
     binlog_name := binlog_name r; binlog_position := binlog_position r;
     master := master r; blfile := blfile r; released := released r |}.

Definition set_residual (v : GWBUF) (r : ROUTER_INSTANCE) : ROUTER_INSTANCE :=
  {| serverid := serverid r; masterid := masterid r; port := port r;
     router_uuid := router_uuid r; master_state := master_state r;
     active_logs := active_logs r; queue := queue r; residual := v;
     saved_master := saved_master r; stats := stats r; slaves := slaves r;
     binlog_name := binlog_name r; binlog_position := binlog_position r;
     master := master r; blfile := blfile r; released := released r |}.

Definition set_saved_master (v : MASTER_RESPONSES) (r : ROUTER_INSTANCE)
  : ROUTER_INSTANCE :=
  {| serverid := serverid r; masterid := masterid r; port := port r;
     router_uuid := router_uuid r; master_state := master_state r;
     active_logs := active_logs r; queue := queue r; residual := residual r;
     saved_master := v; stats := stats r; slaves := slaves r;
     binlog_name := binlog_name r; binlog_position := binlog_position r;
     master := master r; blfile := blfile r; released := released r |}.

Definition set_stats (v : ROUTER_STATS) (r : ROUTER_INSTANCE) : ROUTER_INSTANCE :=
  {| serverid := serverid r; masterid := masterid r; port := port r;
     router_uuid := router_uuid r; master_state := master_state r;
     active_logs := active_logs r; queue := queue r; residual := residual r;
     saved_master := saved_master r; stats := v; slaves := slaves r;
     binlog_name := binlog_name r; binlog_position := binlog_position r;
     master := master r; blfile := blfile r; released := released r |}.

Definition set_slaves (v : list ROUTER_SLAVE) (r : ROUTER_INSTANCE)
  : ROUTER_INSTANCE :=
  {| serverid := serverid r; masterid := masterid r; port := port r;
     router_uuid := router_uuid r; master_state := master_state r;
     active_logs := active_logs r; queue := queue r; residual := residual r;
     saved_master := saved_master r; stats := stats r; slaves := v;
     binlog_name := binlog_name r; binlog_position := binlog_position r;
     master := master r; blfile := blfile r; released := released r |}.

Definition set_binlog (name : list Z) (pos : Z) (r : ROUTER_INSTANCE)
  : ROUTER_INSTANCE :=
  {| serverid := serverid r; masterid := masterid r; port := port r;
     router_uuid := router_uuid r; master_state := master_state r;
     active_logs := active_logs r; queue := queue r; residual := residual r;
     saved_master := saved_master r; stats := stats r; slaves := slaves r;
     binlog_name := name; binlog_position := pos;
     master := master r; blfile := blfile r; released := released r |}.

Definition set_master (v : DCB) (r : ROUTER_INSTANCE) : ROUTER_INSTANCE :=
  {| serverid := serverid r; masterid := masterid r; port := port r;
     router_uuid := router_uuid r; master_state := master_state r;
     active_logs := active_logs r; queue := queue r; residual := residual r;
     saved_master := saved_master r; stats := stats r; slaves := slaves r;
     binlog_name := binlog_name r; binlog_position := binlog_position r;
     master := v; blfile := blfile r; released := released r |}.

Definition set_blfile (v : list file_call) (r : ROUTER_INSTANCE)
  : ROUTER_INSTANCE :=
  {| serverid := serverid r; masterid := masterid r; port := port r;
     router_uuid := router_uuid r; master_state := master_state r;
     active_logs := active_logs r; queue := queue r; residual := residual r;
     saved_master := saved_master r; stats := stats r; slaves := slaves r;
     binlog_name := binlog_name r; binlog_position := binlog_position r;
     master := master r; blfile := v; released := released r |}.

Definition set_released (v : list (GWBUF * Z)) (r : ROUTER_INSTANCE)
  : ROUTER_INSTANCE :=
  {| serverid := serverid r; masterid := masterid r; port := port r;
     router_uuid := router_uuid r; master_state := master_state r;
     active_logs := active_logs r; queue := queue r; residual := residual r;
     saved_master := saved_master r; stats := stats r; slaves := slaves r;
     binlog_name := binlog_name r; binlog_position := binlog_position r;
     master := master r; blfile := blfile r; released := v |}.

Definition set_server_id (v : GWBUF) (m : MASTER_RESPONSES) : MASTER_RESPONSES :=
  {| server_id := v; heartbeat := heartbeat m; chksum1 := chksum1 m;
     chksum2 := chksum2 m; gtid_mode := gtid_mode m; uuid := uuid m;
     setslaveuuid := setslaveuuid m; setnames := setnames m;
     fde_event := fde_event m; fde_len := fde_len m |}.

Definition set_heartbeat (v : GWBUF) (m : MASTER_RESPONSES) : MASTER_RESPONSES :=
  {| server_id := server_id m; heartbeat := v; chksum1 := chksum1 m;
     chksum2 := chksum2 m; gtid_mode := gtid_mode m; uuid := uuid m;
     setslaveuuid := setslaveuuid m; setnames := setnames m;
     fde_event := fde_event m; fde_len := fde_len m |}.

Definition set_chksum1 (v : GWBUF) (m : MASTER_RESPONSES) : MASTER_RESPONSES :=
  {| server_id := server_id m; heartbeat := heartbeat m; chksum1 := v;
     chksum2 := chksum2 m; gtid_mode := gtid_mode m; uuid := uuid m;
     setslaveuuid := setslaveuuid m; setnames := setnames m;
     fde_event := fde_event m; fde_len := fde_len m |}.

Definition set_chksum2 (v : GWBUF) (m : MASTER_RESPONSES) : MASTER_RESPONSES :=
  {| server_id := server_id m; heartbeat := heartbeat m; chksum1 := chksum1 m;
     chksum2 := v; gtid_mode := gtid_mode m; uuid := uuid m;
     setslaveuuid := setslaveuuid m; setnames := setnames m;
     fde_event := fde_event m; fde_len := fde_len m |}.

Definition set_gtid_mode (v : GWBUF) (m : MASTER_RESPONSES) : MASTER_RESPONSES :=
  {| server_id := server_id m; heartbeat := heartbeat m; chksum1 := chksum1 m;
     chksum2 := chksum2 m; gtid_mode := v; uuid := uuid m;
     setslaveuuid := setslaveuuid m; setnames := setnames m;
     fde_event := fde_event m; fde_len := fde_len m |}.

Definition set_uuid (v : GWBUF) (m : MASTER_RESPONSES) : MASTER_RESPONSES :=
  {| server_id := server_id m; heartbeat := heartbeat m; chksum1 := chksum1 m;
     chksum2 := chksum2 m; gtid_mode := gtid_mode m; uuid := v;
     setslaveuuid := setslaveuuid m; setnames := setnames m;
     fde_event := fde_event m; fde_len := fde_len m |}.

Definition set_setslaveuuid (v : GWBUF) (m : MASTER_RESPONSES)
  : MASTER_RESPONSES :=
  {| server_id := server_id m; heartbeat := heartbeat m; chksum1 := chksum1 m;
     chksum2 := chksum2 m; gtid_mode := gtid_mode m; uuid := uuid m;
     setslaveuuid := v; setnames := setnames m;
     fde_event := fde_event m; fde_len := fde_len m |}.

Definition set_setnames (v : GWBUF) (m : MASTER_RESPONSES) : MASTER_RESPONSES :=
  {| server_id := server_id m; heartbeat := heartbeat m; chksum1 := chksum1 m;
     chksum2 := chksum2 m; gtid_mode := gtid_mode m; uuid := uuid m;
     setslaveuuid := setslaveuuid m; setnames := v;
     fde_event := fde_event m; fde_len := fde_len m |}.

Definition set_fde (len : Z) (ev : option (list Z)) (m : MASTER_RESPONSES)
  : MASTER_RESPONSES :=
  {| server_id := server_id m; heartbeat := heartbeat m; chksum1 := chksum1 m;
     chksum2 := chksum2 m; gtid_mode := gtid_mode m; uuid := uuid m;
     setslaveuuid := setslaveuuid m; setnames := setnames m;
     fde_event := ev; fde_len := len |}.

(** The handshake slots of [saved_master], in the order they are filled. *)
Definition saved_slots (m : MASTER_RESPONSES) : list GWBUF :=
  [server_id m; heartbeat m; chksum1 m; chksum2 m; gtid_mode m; uuid m;
   setslaveuuid m; setnames m].

(** Statistics updates: [stats.x++]. *)
Definition count_binlog (s : ROUTER_STATS) : ROUTER_STATS :=
  {| n_binlogs := n_binlogs s + 1; n_rotates := n_rotates s;
     n_fakeevents := n_fakeevents s; n_binlog_errors := n_binlog_errors s;
     events := events s |}.

Definition count_rotate (s : ROUTER_STATS) : ROUTER_STATS :=
  {| n_binlogs := n_binlogs s; n_rotates := n_rotates s + 1;
     n_fakeevents := n_fakeevents s; n_binlog_errors := n_binlog_errors s;
     events := events s |}.

Definition count_fakeevent (s : ROUTER_STATS) : ROUTER_STATS :=
  {| n_binlogs := n_binlogs s; n_rotates := n_rotates s;
     n_fakeevents := n_fakeevents s + 1; n_binlog_errors := n_binlog_errors s;
     events := events s |}.

Definition count_binlog_error (s : ROUTER_STATS) : ROUTER_STATS :=
  {| n_binlogs := n_binlogs s; n_rotates := n_rotates s;
     n_fakeevents := n_fakeevents s; n_binlog_errors := n_binlog_errors s + 1;
     events := events s |}.

Fixpoint bump (l : list Z) (i : nat) : list Z :=
  match l, i with
  | [], _ => []
  | x :: t, O => (x + 1) :: t
  | x :: t, S i' => x :: bump t i'
  end.

Definition count_event_type (ty : Z) (s : ROUTER_STATS) : ROUTER_STATS :=
  {| n_binlogs := n_binlogs s; n_rotates := n_rotates s;
     n_fakeevents := n_fakeevents s; n_binlog_errors := n_binlog_errors s;
     events := bump (events s) (Z.to_nat ty) |}.

(** ** Builders of the outbound packets *)

Definition blr_make_query_writes (query : string) : list write :=
  [ (0%nat, encode_value (strlen query + 1) 24);
    (3%nat, [0]);
    (4%nat, [COM_QUERY]);
    (5%nat, memcpy (bytes_of_string query) (strlen query)) ].

Definition blr_make_query (query : string) : GWBUF :=
  fill (Z.to_nat (strlen query + 5)) (blr_make_query_writes query).

Definition blr_make_registration_writes (router : ROUTER_INSTANCE)
  : list write :=
  [ (0%nat, encode_value 18 24);
    (3%nat, [0]);
    (4%nat, [COM_REGISTER_SLAVE]);
    (5%nat, encode_value (serverid router) 32);
    (9%nat, [0]);
    (10%nat, [0]);
    (11%nat, [0]);
    (12%nat, encode_value (port router) 16);
    (14%nat, encode_value 0 32);
    (18%nat, encode_value (masterid router) 32) ].

Definition blr_make_registration (router : ROUTER_INSTANCE) : GWBUF :=
  fill (Z.to_nat (18 + 4)) (blr_make_registration_writes router).

(** ** Distribution to the slaves *)

Definition slave_packet_writes (hdr : REP_HEADER) (ptr : list Z)
    (slave : ROUTER_SLAVE) : list write :=
  [ (0%nat, encode_value (event_size hdr + 1) 24);
    (3%nat, [seqno slave]);
    (4%nat, [0]);
    (5%nat, memcpy ptr (event_size hdr)) ].

Definition slave_packet (hdr : REP_HEADER) (ptr : list Z)
    (slave : ROUTER_SLAVE) : GWBUF :=
  fill (Z.to_nat (wrap32 (event_size hdr + 5)))
       (slave_packet_writes hdr ptr slave).

(** The body of the loop over the slave list. *)
Definition blr_distribute_to_slave (hdr : REP_HEADER) (ptr : list Z)
    (slave : ROUTER_SLAVE) : ROUTER_SLAVE :=
  if binlog_pos slave =? wrap32 (next_pos hdr - event_size hdr)
  then {| dcb := dcb_write (dcb slave) (slave_packet hdr ptr slave);
          binlog_pos := next_pos hdr;
          seqno := wrap8 (seqno slave + 1);
          rotations := if event_type hdr =? ROTATE_EVENT
                       then rotations slave ++ [ptr]
                       else rotations slave |}
  else slave.

Definition blr_distribute_binlog_record (router : ROUTER_INSTANCE)
    (hdr : REP_HEADER) (ptr : list Z) : ROUTER_INSTANCE :=
  set_slaves (map (blr_distribute_to_slave hdr ptr) (slaves router)) router.

(** An event stream handed to the distributor, one event after the other. *)
Definition distribute_stream (router : ROUTER_INSTANCE)
    (evs : list (REP_HEADER * list Z)) : ROUTER_INSTANCE :=
  fold_left (fun r ev => blr_distribute_binlog_record r (fst ev) (snd ev))
            evs router.

(** The sequence id a slave reads in a packet sent to it. *)
Definition packet_seqid (pkt : GWBUF) : Z := nth 3 (GWBUF_DATA pkt) 0.

(** ** The file component *)

(** Modelled from the spec: [file.append] of the absent file component
    persists the raw event payload. *)
Definition blr_write_binlog_record (router : ROUTER_INSTANCE)
    (hdr : REP_HEADER) (ptr : list Z) : ROUTER_INSTANCE :=
  set_blfile (blfile router ++ [FileWrite hdr ptr]) router.

(** Modelled from the spec: [file.rotate(name, pos)] of the absent file
    component switches the active file; afterwards [binlog_name] and
    [binlog_position] are the new name and the position given. *)
Definition blr_file_rotate (router : ROUTER_INSTANCE) (file : list Z)
    (pos : Z) : ROUTER_INSTANCE :=
  set_binlog file pos
    (set_blfile (blfile router ++ [FileRotate file pos]) router).

(** Modelled from the spec: [file.flush] of the absent file component. *)
Definition blr_file_flush (router : ROUTER_INSTANCE) : ROUTER_INSTANCE :=
  set_blfile (blfile router ++ [FileFlush]) router.

(** ** Event header *)

Definition blr_extract_header (ptr : list Z) : REP_HEADER :=
  {| payload_len := extract_field ptr 24;
     hdr_seqno := nth 3 ptr 0;
     ok := nth 4 ptr 0;
     timestamp := extract_field (skipn 5 ptr) 32;
     event_type := nth 9 ptr 0;
     hdr_serverid := extract_field (skipn 10 ptr) 32;
     event_size := extract_field (skipn 14 ptr) 32;
     next_pos := extract_field (skipn 18 ptr) 32;
     flags := extract_field (skipn 22 ptr) 16 |}.

Section Router.

(** The width of a binlog file name field, [BINLOG_FNAMELEN] of the absent
    [blr.h]. *)
Variable BINLOG_FNAMELEN : nat.

(** ** The binlog dump command *)

Definition blr_make_binlog_dump_writes (router : ROUTER_INSTANCE)
  : list write :=
  [ (0%nat, encode_value 0x1b 24);
    (3%nat, [0]);
    (4%nat, [COM_BINLOG_DUMP]);
    (5%nat, encode_value (binlog_position router) 32);
    (9%nat, encode_value 0 16);
    (11%nat, encode_value (serverid router) 32);
    (15%nat, strncpy (binlog_name router) BINLOG_FNAMELEN) ].

Definition blr_make_binlog_dump (router : ROUTER_INSTANCE) : GWBUF :=
  fill (Z.to_nat (0x1b + 4)) (blr_make_binlog_dump_writes router).

(** ** Rotate events *)

(** [pos = extract_field(ptr, 32) + (extract_field(ptr+4, 32) << 32)]:
    both operands are [uint32_t], so is the sum.  The shift is by the
    full width (see [uint32_shl]): the value below is that of a build in
    which it yields 0; in every build the sum is below [2^32], so that a
    position with a non-zero high half is never the one computed. *)
Definition rotate_position (ptr : list Z) : Z :=
  wrap32 (extract_field ptr 32 + uint32_shl (extract_field (skipn 4 ptr) 32) 32).

(** [memcpy(file, ptr + 8, BINLOG_FNAMELEN); file[BINLOG_FNAMELEN] = 0] *)
Definition rotate_file (ptr : list Z) : list Z :=
  cstr (memcpy (skipn 8 ptr) (Z.of_nat BINLOG_FNAMELEN)).

Definition blr_rotate_event (router : ROUTER_INSTANCE) (ptr : list Z)
    (hdr : REP_HEADER) : ROUTER_INSTANCE :=
  let ptr := skipn 19 ptr in
  let pos := rotate_position ptr in
  let file := rotate_file ptr in
  if strncmp_differs (binlog_name router) file BINLOG_FNAMELEN
  then blr_file_rotate (set_stats (count_rotate (stats router)) router) file pos
  else router.

(** ** Ingestion of one reassembled packet *)

(** The statistics kept for every packet whose OK byte is 0. *)
Definition count_received (hdr : REP_HEADER) (router : ROUTER_INSTANCE)
  : ROUTER_INSTANCE :=
  let router := set_stats (count_binlog (stats router)) router in
  if (event_type hdr >=? 0) && (event_type hdr <? 0x24)
  then set_stats (count_event_type (event_type hdr) (stats router)) router
  else router.

(** Lines 458 to 522 of [blr_handle_binlog_record]: [ptr] points at the
    start of the MySQL packet. *)
Definition blr_handle_event (router : ROUTER_INSTANCE) (ptr : list Z)
  : ROUTER_INSTANCE :=
  let hdr := blr_extract_header ptr in
  if ok hdr =? 0 then
    let router := count_received hdr router in
    if (event_type hdr =? FORMAT_DESCRIPTION_EVENT) && (next_pos hdr =? 0)
    then
      let router := set_stats (count_fakeevent (stats router)) router in
      if event_type hdr =? FORMAT_DESCRIPTION_EVENT
      then set_saved_master
             (set_fde (event_size hdr)
                      (Some (memcpy (skipn 5 ptr) (event_size hdr)))
                      (saved_master router)) router
      else router
    else if event_type hdr =? HEARTBEAT_EVENT then router
    else if negb (flags hdr =? LOG_EVENT_ARTIFICIAL_F) then
      let ptr := skipn 5 ptr in
      let router := blr_write_binlog_record router hdr ptr in
      let router := if event_type hdr =? ROTATE_EVENT
                    then blr_rotate_event router ptr hdr else router in
      blr_distribute_binlog_record router hdr ptr
    else
      let ptr := skipn 5 ptr in
      if event_type hdr =? ROTATE_EVENT
      then blr_rotate_event router ptr hdr else router
  else set_stats (count_binlog_error (stats router)) router.

(** ** Reassembly *)

(** Lines 396 to 420: the length of the packet at the head of the chain,
    header included.  The C code reads the length bytes in the head
    segment and, when it holds fewer than three, the rest of them at the
    data of [pkt->next], without looking at the length of that segment;
    with an empty head segment it leaves [len] unset before adding 4.
    The value is what the C code computes when the head segment is not
    empty and the bytes read are there, which is what [turn_defined]
    below says; otherwise it is a convention of this definition (0 for
    the unset [len], 0 for a byte that is not there) on which no
    statement about the result of the loop relies. *)
Definition packet_length (pkt : GWBUF) : Z :=
  let reslen := GWBUF_LENGTH pkt in
  let pdata := GWBUF_DATA pkt in
  if reslen <? 3 then
    (if reslen >=? 3 then extract_field pdata 24
     else if reslen =? 2 then
       Z.lor (extract_field pdata 16)
             (uint32_shl (extract_field (GWBUF_DATA (tl pkt)) 8) 16)
     else if reslen =? 1 then
       Z.lor (extract_field pdata 8)
             (uint32_shl (extract_field (GWBUF_DATA (tl pkt)) 16) 8)
     else 0) + 4
  else extract_field pdata 24 + 4.

(** Lines 432 to 438: the contiguous copy made when the packet reaches
    beyond the head segment, [reslen] bytes from the head segment and
    [len - reslen] bytes read at the data of [pkt->next].  When
    [pkt->next] holds fewer bytes the C code reads past it, which it
    notes with a [printf]; the copy here then holds the bytes that are
    there, and [turn_defined] tells the two apart. *)
Definition spanning_message (pkt : GWBUF) (len : Z) : list Z :=
  memcpy (GWBUF_DATA pkt) (GWBUF_LENGTH pkt)
  ++ memcpy (GWBUF_DATA (tl pkt)) (len - GWBUF_LENGTH pkt).

(** What one turn of the loop reads to find its packet and to copy it
    is there: the head segment is not empty, so that [len] is set;
    length bytes that are not in the head segment are in [pkt->next];
    and when the packet is copied, [pkt->next] holds the [len - reslen]
    bytes copied from it, the test of line 434. *)
Definition turn_defined (pkt : GWBUF) : bool :=
  let reslen := GWBUF_LENGTH pkt in
  let next := GWBUF_LENGTH (tl pkt) in
  let len := packet_length pkt in
  (reslen >? 0)
  && ((reslen >=? 3) || (3 - reslen <=? next))
  && (negb ((reslen <? len) && (gwbuf_length pkt >=? len))
      || (len - reslen <=? next)).

(** The [while] loop of [blr_handle_binlog_record]; every turn that does
    not leave the loop unlinks a segment or consumes bytes, so the fuel
    given by [ingest_fuel] is never used up. *)
Fixpoint blr_ingest_loop (fuel : nat) (router : ROUTER_INSTANCE) (pkt : GWBUF)
  : ROUTER_INSTANCE * GWBUF :=
  match fuel with
  | O => (router, pkt)
  | S fuel' =>
      if negb (is_null pkt) && (gwbuf_length pkt >? 24) then
        let reslen := GWBUF_LENGTH pkt in
        let pdata := GWBUF_DATA pkt in
        let len := packet_length pkt in
        if (reslen <? len) && (gwbuf_length pkt >=? len) then
          let msg := spanning_message pkt len in
          let router := blr_handle_event router msg in
          blr_ingest_loop fuel' router
            (gwbuf_consume (gwbuf_consume pkt reslen) (len - reslen))
        else if reslen <? len then (router, pkt)
        else
          let router := blr_handle_event router pdata in
          blr_ingest_loop fuel' router (gwbuf_consume pkt len)
      else (router, pkt)
  end.

Definition ingest_fuel (pkt : GWBUF) : nat :=
  S (length (concat pkt) + length pkt).

(** The turns the loop takes on a chain all find and copy their packet
    within what is there. *)
Fixpoint ingest_defined (fuel : nat) (pkt : GWBUF) : bool :=
  match fuel with
  | O => true
  | S fuel' =>
      if negb (is_null pkt) && (gwbuf_length pkt >? 24) then
        let reslen := GWBUF_LENGTH pkt in
        let len := packet_length pkt in
        turn_defined pkt
        && (if (reslen <? len) && (gwbuf_length pkt >=? len) then
              ingest_defined fuel'
                (gwbuf_consume (gwbuf_consume pkt reslen) (len - reslen))
            else if reslen <? len then true
            else ingest_defined fuel' (gwbuf_consume pkt len))
      else true
  end.

Definition blr_handle_binlog_record (router : ROUTER_INSTANCE) (pkt : GWBUF)
  : ROUTER_INSTANCE :=
  let pkt0 := if is_null (residual router) then pkt
              else gwbuf_append (residual router) pkt in
  let router := if is_null (residual router) then router
                else set_residual [] router in
  let res := blr_ingest_loop (ingest_fuel pkt0) router pkt0 in
  let router := fst res in
  let pkt1 := snd res in
  let router := if is_null pkt1 then router else set_residual pkt1 router in
  blr_file_flush router.

(** ** The master state machine *)

Definition send_to_master (buf : GWBUF) (router : ROUTER_INSTANCE)
  : ROUTER_INSTANCE :=
  set_master (dcb_write (master router) buf) router.

Definition save_response (f : GWBUF -> MASTER_RESPONSES -> MASTER_RESPONSES)
    (buf : GWBUF) (router : ROUTER_INSTANCE) : ROUTER_INSTANCE :=
  set_saved_master (f buf (saved_master router)) router.

Definition blr_start_master (router : ROUTER_INSTANCE) : ROUTER_INSTANCE :=
  let router := set_master [] router in
  let router := set_master_state BLRM_AUTHENTICATED router in
  let buf := blr_make_query "SELECT UNIX_TIMESTAMP()" in
  let router := send_to_master buf router in
  set_master_state BLRM_TIMESTAMP router.

(** The [switch] on [master_state], lines 170 to 247. *)
Definition blr_master_step (router : ROUTER_INSTANCE) (buf : GWBUF)
  : ROUTER_INSTANCE :=
  let st := master_state router in
  if st =? BLRM_TIMESTAMP then
    let router :=
      set_released (released router ++ [(buf, GWBUF_LENGTH buf)]) router in
    send_to_master (blr_make_query "SHOW VARIABLES LIKE 'SERVER_ID'")
      (set_master_state BLRM_SERVERID router)
  else if st =? BLRM_SERVERID then
    let router := save_response set_server_id buf router in
    send_to_master
      (blr_make_query "SET @master_heartbeat_period = 1799999979520")
      (set_master_state BLRM_HBPERIOD router)
  else if st =? BLRM_HBPERIOD then
    let router := save_response set_heartbeat buf router in
    send_to_master
      (blr_make_query "SET @master_binlog_checksum = @@global.binlog_checksum")
      (set_master_state BLRM_CHKSUM1 router)
  else if st =? BLRM_CHKSUM1 then
    let router := save_response set_chksum1 buf router in
    send_to_master (blr_make_query "SELECT @master_binlog_checksum")
      (set_master_state BLRM_CHKSUM2 router)
  else if st =? BLRM_CHKSUM2 then
    let router := save_response set_chksum2 buf router in
    send_to_master (blr_make_query "SELECT @@GLOBAL.GTID_MODE")
      (set_master_state BLRM_GTIDMODE router)
  else if st =? BLRM_GTIDMODE then
    let router := save_response set_gtid_mode buf router in
    send_to_master (blr_make_query "SHOW VARIABLES LIKE 'SERVER_UUID'")
      (set_master_state BLRM_MUUID router)
  else if st =? BLRM_MUUID then
    let router := save_response set_uuid buf router in
    let query :=
      sprintf 128 (String.append "SET @slave_uuid='"
                                 (String.append (router_uuid router) "'")) in
    send_to_master (blr_make_query query)
      (set_master_state BLRM_SUUID router)
  else if st =? BLRM_SUUID then
    let router := save_response set_setslaveuuid buf router in
    send_to_master (blr_make_query "SET NAMES latin1")
      (set_master_state BLRM_LATIN1 router)
  else if st =? BLRM_LATIN1 then
    let router := save_response set_setnames buf router in
    send_to_master (blr_make_registration router)
      (set_master_state BLRM_REGISTER router)
  else if st =? BLRM_REGISTER then
    send_to_master (blr_make_binlog_dump router)
      (set_master_state BLRM_BINLOGDUMP router)
  else if st =? BLRM_BINLOGDUMP then
    blr_handle_binlog_record router buf
  else router.

(** The [do ... while (buf != NULL)] loop, lines 169 to 263: one step, then
    the head of the queue is unlinked, or the gate is released. *)
Fixpoint blr_master_loop (fuel : nat) (router : ROUTER_INSTANCE) (buf : GWBUF)
  : ROUTER_INSTANCE :=
  match fuel with
  | O => router
  | S fuel' =>
      let router := blr_master_step router buf in
      match queue router with
      | [] => set_active_logs 0 router
      | seg :: rest => blr_master_loop fuel' (set_queue rest router) [seg]
      end
  end.

(** [gwbuf_consume(buf, gwbuf_length(buf))] and the release of the gate, the
    way both error paths leave. *)
Definition drop_response (router : ROUTER_INSTANCE) (buf : GWBUF)
  : ROUTER_INSTANCE :=
  set_active_logs 0
    (set_released (released router ++ [(buf, gwbuf_length buf)]) router).

Definition blr_master_response (router : ROUTER_INSTANCE) (buf : GWBUF)
  : ROUTER_INSTANCE :=
  if negb (active_logs router =? 0)
  then set_queue (gwbuf_append (queue router) buf) router
  else
    let router := set_active_logs 1 router in
    if (master_state router <? 0) || (master_state router >? BLRM_MAXSTATE)
    then drop_response router buf
    else if MYSQL_RESPONSE_ERR buf
    then drop_response router buf
    else blr_master_loop (S (length (queue router))) router buf.

(** ** Vocabulary of the statements *)

(** What the ingest path leaves alone: identity, state machine, gate,
    master connection and the released buffers. *)
Definition control (r : ROUTER_INSTANCE) :=
  (serverid r, masterid r, port r, router_uuid r, master_state r,
   active_logs r, queue r, master r, released r).

(** The states of the handshake in execution order, from [BLRM_TIMESTAMP]. *)
Definition handshake_states : list Z :=
  [BLRM_TIMESTAMP; BLRM_SERVERID; BLRM_HBPERIOD; BLRM_CHKSUM1; BLRM_CHKSUM2;
   BLRM_GTIDMODE; BLRM_MUUID; BLRM_SUUID; BLRM_LATIN1; BLRM_REGISTER;
   BLRM_BINLOGDUMP].

(** The probes in the order the specification lists them: nine queries,
    the registration, the binlog dump.  The probe at index [k] is sent on
    entering the state at index [k] of [handshake_states]. *)
Definition handshake_probes (router : ROUTER_INSTANCE) : list GWBUF :=
  [blr_make_query "SELECT UNIX_TIMESTAMP()";
   blr_make_query "SHOW VARIABLES LIKE 'SERVER_ID'";
   blr_make_query "SET @master_heartbeat_period = 1799999979520";
   blr_make_query "SET @master_binlog_checksum = @@global.binlog_checksum";
   blr_make_query "SELECT @master_binlog_checksum";
   blr_make_query "SELECT @@GLOBAL.GTID_MODE";
   blr_make_query "SHOW VARIABLES LIKE 'SERVER_UUID'";
   blr_make_query
     (String.append "SET @slave_uuid='"
                    (String.append (router_uuid router) "'"));
   blr_make_query "SET NAMES latin1";
   blr_make_registration router;
   blr_make_binlog_dump router].

(** The [SET @slave_uuid] query as [sprintf] formats it, and the routers
    whose uuid lets it fit the 128 bytes of [query]: a uuid of at most 109
    characters. *)
Definition slave_uuid_query (router : ROUTER_INSTANCE) : string :=
  String.append "SET @slave_uuid='"
                (String.append (router_uuid router) "'").

Definition uuid_fits (router : ROUTER_INSTANCE) : Prop :=
  sprintf_fits 128 (slave_uuid_query router).

(** Where the response received in the state at index [k] is kept: the
    replies to probes 2 to 9 have a slot, the timestamp reply and the
    reply to the registration have none. *)
Definition retain (k : nat) (buf : GWBUF) (m : MASTER_RESPONSES)
  : MASTER_RESPONSES :=
  match k with
  | 1%nat => set_server_id buf m
  | 2%nat => set_heartbeat buf m
  | 3%nat => set_chksum1 buf m
  | 4%nat => set_chksum2 buf m
  | 5%nat => set_gtid_mode buf m
  | 6%nat => set_uuid buf m
  | 7%nat => set_setslaveuuid buf m
  | 8%nat => set_setnames buf m
  | _ => m
  end.

(** What [gwbuf_consume] is called with in the state at index [k]. *)
Definition handed_back (k : nat) (buf : GWBUF) : list (GWBUF * Z) :=
  match k with
  | O => [(buf, GWBUF_LENGTH buf)]
  | _ => []
  end.

(** The step applied to a buffer unlinked from the head of the queue. *)
Definition step_dequeued (r : ROUTER_INSTANCE) (seg : list Z)
  : ROUTER_INSTANCE :=
  blr_master_step (set_queue (tl (queue r)) r) [seg].

Definition not_error (buf : GWBUF) : Prop := MYSQL_RESPONSE_ERR buf = false.

(** Stores that follow one another from offset [off] on. *)
Fixpoint contiguous (off : nat) (ws : list write) : Prop :=
  match ws with
  | [] => True
  | w :: ws' => fst w = off /\ contiguous (off + length (snd w)) ws'
  end.

(** An event that sits in one MySQL packet: its size plus the OK byte fits
    the 24-bit length field, and the raw event holds that many bytes. *)
Definition event_fits (hdr : REP_HEADER) (ptr : list Z) : Prop :=
  0 <= event_size hdr /\ event_size hdr + 1 < 2 ^ 24
  /\ event_size hdr <= Z.of_nat (length ptr).

(** The events whose allocation [gwbuf_alloc(event_size + 5)] is the size
    asked for: the sum does not wrap around 32 bits. *)
Definition event_allocated (hdr : REP_HEADER) : Prop :=
  0 <= event_size hdr /\ event_size hdr + 5 < 2 ^ 32.

(** The slave at index [i] of the router's list. *)
Definition slave_at (router : ROUTER_INSTANCE) (i : nat)
  : option ROUTER_SLAVE :=
  nth_error (slaves router) i.

(** The run of sequence ids that starts at [first]: step 1, modulo 256. *)
Definition seqid_run (first : Z) (n : nat) : list Z :=
  map (fun k => wrap8 (first + Z.of_nat k)) (seq 0 n).

(** The 64-bit value the eight position bytes of a rotate event spell. *)
Definition rotate_position_64 (ptr : list Z) : Z :=
  le_value (firstn 8 ptr).

(** No call that writes an event to the binlog file was added. *)
Definition no_new_write (before after : list file_call) : Prop :=
  forall (h : REP_HEADER) (p : list Z),
    In (FileWrite h p) after -> In (FileWrite h p) before.

(** What bounds the turns of the ingest loop on a chain. *)
Definition ingest_measure (pkt : GWBUF) : nat :=
  (length (concat pkt) + length pkt)%nat.

(** A whole MySQL packet: three length bytes, and as many bytes as they
    announce plus the four of the header. *)
Definition mysql_packet (p : list Z) : Prop :=
  Forall is_byte (firstn 3 p)
  /\ Z.of_nat (length p) = le_value (firstn 3 p) + 4.

Definition long_packet (p : list Z) : Prop :=
  mysql_packet p /\ 24 < Z.of_nat (length p).

(** A strict prefix of a MySQL packet, possibly empty. *)
Definition incomplete (t : list Z) : Prop :=
  exists u : list Z, u <> [] /\ mysql_packet (t ++ u).

(** The MySQL packet that starts at a pointer. *)
Definition packet_at (ptr : list Z) : list Z :=
  firstn (Z.to_nat (extract_field ptr 24 + 4)) ptr.

(** The chain that holds the bytes [s] in one segment. *)
Definition single (s : list Z) : GWBUF :=
  match s with
  | [] => []
  | _ => [s]
  end.

(** The pointers at which the packets [qs], followed by [t] in one
    segment, start. *)
Fixpoint suffix_ptrs (qs : list (list Z)) (t : list Z) : list (list Z) :=
  match qs with
  | [] => []
  | q :: qs' => (concat (q :: qs') ++ t) :: suffix_ptrs qs' t
  end.

(** The messages the ingest loop hands to the event handling, in order,
    and the chain it leaves: the loop of [blr_handle_binlog_record] with
    the handling taken out. *)
Fixpoint ingest_trace (fuel : nat) (pkt : GWBUF) : list (list Z) * GWBUF :=
  match fuel with
  | O => ([], pkt)
  | S fuel' =>
      if negb (is_null pkt) && (gwbuf_length pkt >? 24) then
        let reslen := GWBUF_LENGTH pkt in
        let len := packet_length pkt in
        if (reslen <? len) && (gwbuf_length pkt >=? len) then
          let tr := ingest_trace fuel'
                      (gwbuf_consume (gwbuf_consume pkt reslen)
                                     (len - reslen)) in
          (spanning_message pkt len :: fst tr, snd tr)
        else if reslen <? len then ([], pkt)
        else
          let tr := ingest_trace fuel' (gwbuf_consume pkt len) in
          (GWBUF_DATA pkt :: fst tr, snd tr)
      else ([], pkt)
  end.

(** A delivery segment seen through the packets it carries: the bytes
    that complete the packet left open by the segment before, whole
    packets, and the opening bytes of a packet that the next segment
    completes. *)
Record delivery : Type := {
  completion : list Z;
  whole : list (list Z);
  opening : list Z
}.

Definition chunk_of (d : delivery) : list Z :=
  completion d ++ concat (whole d) ++ opening d.

(** A segment after a segment that left [prev] open: it is not empty, it
    completes [prev] to a packet, and every packet is longer than 24
    bytes. *)
Definition delivery_ok (prev : list Z) (d : delivery) : Prop :=
  chunk_of d <> []
  /\ (prev = [] -> completion d = [])
  /\ (prev <> [] -> completion d <> [] /\ long_packet (prev ++ completion d))
  /\ Forall long_packet (whole d)
  /\ incomplete (opening d).

Fixpoint deliveries_ok (prev : list Z) (ds : list delivery) : Prop :=
  match ds with
  | [] => True
  | d :: ds' => delivery_ok prev d /\ deliveries_ok (opening d) ds'
  end.

(** The whole packets of the stream, in order. *)
Definition completed (prev : list Z) (d : delivery) : list (list Z) :=
  match prev with
  | [] => []
  | _ => [prev ++ completion d]
  end.

Fixpoint packets_of (prev : list Z) (ds : list delivery)
  : list (list Z) :=
  match ds with
  | [] => []
  | d :: ds' => completed prev d ++ whole d ++ packets_of (opening d) ds'
  end.

(** The fragment left open at the end. *)
Fixpoint last_opening (prev : list Z) (ds : list delivery) : list Z :=
  match ds with
  | [] => prev
  | d :: ds' => last_opening (opening d) ds'
  end.

(** The pointers handed to the event handling for one segment. *)
Definition delivery_ptrs (prev : list Z) (d : delivery) : list (list Z) :=
  completed prev d ++ suffix_ptrs (whole d) (opening d).

(** What [blr_handle_binlog_record] does around the loop: it takes the
    residual, and afterwards stores what is left and flushes the file. *)
Definition clear_residual (r : ROUTER_INSTANCE) : ROUTER_INSTANCE :=
  if is_null (residual r) then r else set_residual [] r.

Definition store_residual (rest : GWBUF) (r : ROUTER_INSTANCE)
  : ROUTER_INSTANCE :=
  if is_null rest then r else set_residual rest r.

(** One delivery in which the event handling is called on [ptrs] and
    [rest] is left over. *)
Definition deliver_as (handle : ROUTER_INSTANCE -> list Z -> ROUTER_INSTANCE)
    (r : ROUTER_INSTANCE) (ptrs : list (list Z)) (rest : GWBUF)
  : ROUTER_INSTANCE :=
  blr_file_flush
    (store_residual rest (fold_left handle ptrs (clear_residual r))).

(** The segments delivered one after the other, each as a buffer of its
    own. *)
Definition feed_segments (r : ROUTER_INSTANCE) (chunks : list (list Z))
  : ROUTER_INSTANCE :=
  fold_left (fun r c => blr_handle_binlog_record r [c]) chunks r.

(** All the pointers handed to the event handling over the deliveries. *)
Fixpoint all_ptrs (prev : list Z) (ds : list delivery) : list (list Z) :=
  match ds with
  | [] => []
  | d :: ds' => delivery_ptrs prev d ++ all_ptrs (opening d) ds'
  end.

(** The deliveries replayed with the reassembly done: per delivery, the
    event handling at each of its packets, the fragment left open stored
    as residual, the flush. *)
Fixpoint replay (prev : list Z) (ds : list delivery) (r : ROUTER_INSTANCE)
  : ROUTER_INSTANCE :=
  match ds with
  | [] => r
  | d :: ds' =>
      replay (opening d) ds'
        (deliver_as blr_handle_event r (delivery_ptrs prev d)
                    (single (opening d)))
  end.

(** ** Reassembly seen on the byte stream *)

(** The reassembly of section 4.2 of the specification on the bytes of a
    stream: read the 24-bit length at the front, add the 4 bytes of the
    header, and if the stream holds that many bytes take them as a packet
    and go on behind it, otherwise stop and keep what is left.  [keep] is
    the number of bytes at or below which nothing more is extracted: 0
    for the words of the specification, 24 for the guard of the loop of
    [blr_handle_binlog_record]. *)
Fixpoint spec_reassemble (keep : Z) (fuel : nat) (s : list Z)
  : list (list Z) * list Z :=
  match fuel with
  | O => ([], s)
  | S fuel' =>
      if Z.of_nat (length s) >? keep then
        let len := le_value (firstn 3 s) + 4 in
        if Z.of_nat (length s) >=? len then
          let r := spec_reassemble keep fuel' (skipn (Z.to_nat len) s) in
          (firstn (Z.to_nat len) s :: fst r, snd r)
        else ([], s)
      else ([], s)
  end.

Definition stream_packets (keep : Z) (s : list Z) : list (list Z) :=
  fst (spec_reassemble keep (length s) s).

Definition stream_rest (keep : Z) (s : list Z) : list Z :=
  snd (spec_reassemble keep (length s) s).

(** The chain the loop runs on when the segment [c] is delivered while
    [res] is the residual. *)
Definition delivery_chain (res : GWBUF) (c : list Z) : GWBUF :=
  if is_null res then [c] else gwbuf_append res [c].

(** What the loop does delivery after delivery, starting with the
    residual [res]: for each delivery the pointers it hands to the event
    handling and the chain it leaves. *)
Fixpoint feed_trace (res : GWBUF) (segs : list (list Z))
  : list (list (list Z) * GWBUF) :=
  match segs with
  | [] => []
  | c :: segs' =>
      let chain := delivery_chain res c in
      let tr := ingest_trace (ingest_fuel chain) chain in
      tr :: feed_trace (snd tr) segs'
  end.

(** Over these deliveries every turn of the loop reads what is there. *)
Fixpoint feed_defined (res : GWBUF) (segs : list (list Z)) : bool :=
  match segs with
  | [] => true
  | c :: segs' =>
      let chain := delivery_chain res c in
      ingest_defined (ingest_fuel chain) chain
      && feed_defined (snd (ingest_trace (ingest_fuel chain) chain)) segs'
  end.

(** The chain left as residual after these deliveries. *)
Fixpoint feed_rest (res : GWBUF) (segs : list (list Z)) : GWBUF :=
  match segs with
  | [] => res
  | c :: segs' =>
      let chain := delivery_chain res c in
      feed_rest (snd (ingest_trace (ingest_fuel chain) chain)) segs'
  end.

(** All the pointers handed to the event handling, in order. *)
Definition handed (steps : list (list (list Z) * GWBUF)) : list (list Z) :=
  concat (map fst steps).

(** The deliveries replayed with the reassembly done. *)
Definition replay_trace (r : ROUTER_INSTANCE)
    (steps : list (list (list Z) * GWBUF)) : ROUTER_INSTANCE :=
  fold_left (fun r st => deliver_as blr_handle_event r (fst st) (snd st))
            steps r.

(** ** Sample data *)

Definition sample_name : list Z := bytes_of_string "mysql-bin.000001".

Definition no_responses : MASTER_RESPONSES :=
  {| server_id := []; heartbeat := []; chksum1 := []; chksum2 := [];
     gtid_mode := []; uuid := []; setslaveuuid := []; setnames := [];
     fde_event := None; fde_len := 0 |}.

Definition no_stats : ROUTER_STATS :=
  {| n_binlogs := 0; n_rotates := 0; n_fakeevents := 0;
     n_binlog_errors := 0; events := repeat 0 36 |}.

(** A router that has just been created: nothing saved, no slave, at the
    start of the first binlog file. *)
Definition sample_router : ROUTER_INSTANCE :=
  {| serverid := 1234; masterid := 1; port := 3306;
     router_uuid := "f12fcb7f-b97b-11e3-bc5e-0401152c4c22";
     master_state := BLRM_UNCONNECTED; active_logs := 0; queue := [];
     residual := []; saved_master := no_responses; stats := no_stats;
     slaves := []; binlog_name := sample_name; binlog_position := 4;
     master := []; blfile := []; released := [] |}.

(** An OK packet and an error packet (code 1193) as the master sends them. *)
Definition ok_reply : GWBUF := [[7; 0; 0; 1; 0; 0; 0; 2; 0; 0; 0]].
Definition err_reply : GWBUF :=
  [[9; 0; 0; 1; 0xff; 0xa9; 0x04; 0x23; 0x48; 0x59; 0x30; 0x30; 0x30]].

(** The name width that the payload length [0x1b] of the dump command
    leaves once command, position, flags and server id are counted. *)
Definition dump_name_width : nat := 0x1b - 11.

Definition chksum1_router : ROUTER_INSTANCE :=
  set_master_state BLRM_CHKSUM1 sample_router.

Definition register_router : ROUTER_INSTANCE :=
  set_master_state BLRM_REGISTER sample_router.

(** In [BLRM_SERVERID], with an error packet already waiting in the queue. *)
Definition queued_error_router : ROUTER_INSTANCE :=
  set_queue err_reply (set_master_state BLRM_SERVERID sample_router).

(** Two slaves, one at offset 1000 and one at offset 999, and an event of
    50 bytes that ends at offset 1050. *)
Definition slave_1000 : ROUTER_SLAVE :=
  {| dcb := []; binlog_pos := 1000; seqno := 255; rotations := [] |}.
Definition slave_999 : ROUTER_SLAVE :=
  {| dcb := []; binlog_pos := 999; seqno := 7; rotations := [] |}.

Definition two_slave_router : ROUTER_INSTANCE :=
  set_slaves [slave_1000; slave_999]
             (set_master_state BLRM_BINLOGDUMP sample_router).

Definition query_event_hdr : REP_HEADER :=
  {| payload_len := 51; hdr_seqno := 1; ok := 0; timestamp := 0;
     event_type := 2; hdr_serverid := 1; event_size := 50;
     next_pos := 1050; flags := 0 |}.

(** The header of an event of [2^24 - 1] bytes that starts at offset
    1000. *)
Definition large_event_hdr : REP_HEADER :=
  {| payload_len := 0; hdr_seqno := 1; ok := 0; timestamp := 0;
     event_type := 2; hdr_serverid := 1; event_size := 16777215;
     next_pos := 16778215; flags := 0 |}.

Definition query_event_raw : list Z :=
  [0; 0; 0; 0; 2; 1; 0; 0; 0; 50; 0; 0; 0; 26; 4; 0; 0; 0; 0]
  ++ repeat 0x61 31.

(** A rotate event as [blr_rotate_event] receives it: the 19-byte event
    header, the position 0x1_0000_0004 as two little-endian halves, and
    the name of the next file. *)
Definition rotate_event_raw : list Z :=
  [0; 0; 0; 0; 4; 1; 0; 0; 0; 43; 0; 0; 0; 0; 0; 0; 0; 0; 0]
  ++ [4; 0; 0; 0; 1; 0; 0; 0]
  ++ bytes_of_string "mysql-bin.000002".

Definition rotate_event_hdr : REP_HEADER :=
  {| payload_len := 44; hdr_seqno := 1; ok := 0; timestamp := 0;
     event_type := ROTATE_EVENT; hdr_serverid := 1; event_size := 43;
     next_pos := 0; flags := 0 |}.

(** A query event of 50 bytes ending at offset 1050 whose flags are
    [LOG_EVENT_ARTIFICIAL_F | 0x08], in its MySQL packet. *)
Definition flagged_packet : list Z :=
  [51; 0; 0; 1; 0]
  ++ [0; 0; 0; 0; 2; 1; 0; 0; 0; 50; 0; 0; 0; 26; 4; 0; 0; 0x28; 0]
  ++ repeat 0x61 31.

(** A format description event with [next_pos = 0] and flags
    [LOG_EVENT_ARTIFICIAL_F], in its MySQL packet. *)
Definition fake_fde_packet : list Z :=
  [28; 0; 0; 1; 0]
  ++ [0; 0; 0; 0; 0x0f; 1; 0; 0; 0; 27; 0; 0; 0; 0; 0; 0; 0; 0x20; 0]
  ++ repeat 0x35 8.

(** An artificial rotate event naming the file the router is already on. *)
Definition fake_rotate_packet : list Z :=
  [44; 0; 0; 1; 0]
  ++ [0; 0; 0; 0; 4; 1; 0; 0; 0; 43; 0; 0; 0; 0; 0; 0; 0; 0x20; 0]
  ++ [4; 0; 0; 0; 0; 0; 0; 0]
  ++ bytes_of_string "mysql-bin.000002".

(** A stop event without checksum, a whole MySQL packet of 24 bytes:
    4 bytes of framing, the OK byte and the 19-byte event header. *)
Definition stop_event_packet : list Z :=
  [20; 0; 0; 1; 0]
  ++ [0; 0; 0; 0; 3; 1; 0; 0; 0; 19; 0; 0; 0; 0x2d; 4; 0; 0; 0; 0].

Definition dumping_router : ROUTER_INSTANCE :=
  set_master_state BLRM_BINLOGDUMP sample_router.

(** A query event of 99 bytes in its MySQL packet of 104 bytes, and the
    four segments in which it is delivered: 1, 2, 90 and 11 bytes. *)
Definition split_packet : list Z :=
  [100; 0; 0; 1; 0]
  ++ [0; 0; 0; 0; 2; 1; 0; 0; 0; 99; 0; 0; 0; 0x4b; 4; 0; 0; 0; 0]
  ++ repeat 0x62 80.

Definition split_1 : list Z := firstn 1 split_packet.
Definition split_2 : list Z := firstn 2 (skipn 1 split_packet).
Definition split_3 : list Z := firstn 90 (skipn 3 split_packet).
Definition split_4 : list Z := skipn 93 split_packet.

(** A long packet of 55 bytes delivered in two segments with another one:
    the first segment ends 10 bytes into the second packet. *)
Definition long_packet_1 : list Z := flagged_packet.
Definition long_packet_2 : list Z :=
  [51; 0; 0; 2; 0]
  ++ [0; 0; 0; 0; 2; 1; 0; 0; 0; 50; 0; 0; 0; 76; 4; 0; 0; 0; 0]
  ++ repeat 0x63 31.

Definition two_deliveries : list delivery :=
  [ {| completion := []; whole := [long_packet_1];
       opening := firstn 10 long_packet_2 |};
    {| completion := skipn 10 long_packet_2; whole := [];
       opening := [] |} ].

(** ** Vocabulary of the further properties *)

(** The router with the two fields of the serialisation gate set. *)
Definition with_gate (a : Z) (q : GWBUF) (r : ROUTER_INSTANCE)
  : ROUTER_INSTANCE :=
  set_active_logs a (set_queue q r).

(** The responses of [segs] handed to [blr_master_response] one call after
    the other. *)
Definition one_by_one (r : ROUTER_INSTANCE) (segs : list (list Z))
  : ROUTER_INSTANCE :=
  fold_left (fun r seg => blr_master_response r [seg]) segs r.

(** A router in state [BLRM_SERVERID] with two answers waiting in the
    queue. *)
Definition queued_ok_router : ROUTER_INSTANCE :=
  set_queue (ok_reply ++ ok_reply)
            (set_master_state BLRM_SERVERID sample_router).

(** A packet whose OK byte, at offset 4, is 0. *)
Definition ok_packet (p : list Z) : bool := nth 4 p 0 =? 0.

(** The events that go on to the binlog file and to the slaves: OK byte
    0, not a fake format description event, not a heartbeat, flags other
    than [LOG_EVENT_ARTIFICIAL_F]. *)
Definition forwarded (hdr : REP_HEADER) : bool :=
  (ok hdr =? 0)
  && negb ((event_type hdr =? FORMAT_DESCRIPTION_EVENT) && (next_pos hdr =? 0))
  && negb (event_type hdr =? HEARTBEAT_EVENT)
  && negb (flags hdr =? LOG_EVENT_ARTIFICIAL_F).

(** The event types the per-type statistics have an entry for. *)
Definition counted_type (hdr : REP_HEADER) : bool :=
  (ok hdr =? 0) && (event_type hdr >=? 0) && (event_type hdr <? 0x24).

(** A run of events in which each one starts where the one before ends,
    the first at [pos]. *)
Fixpoint chained (pos : Z) (evs : list (REP_HEADER * list Z)) : Prop :=
  match evs with
  | [] => True
  | ev :: evs' =>
      pos = wrap32 (next_pos (fst ev) - event_size (fst ev))
      /\ chained (next_pos (fst ev)) evs'
  end.

(** The test that ends the [while] loop of [blr_handle_binlog_record]: the
    chain is empty or holds at most 24 bytes, or the packet at its head
    reaches beyond the head segment and is not all there. *)
Definition loop_rejects (pkt : GWBUF) : bool :=
  negb (negb (is_null pkt) && (gwbuf_length pkt >? 24))
  || ((GWBUF_LENGTH pkt <? packet_length pkt)
      && negb (gwbuf_length pkt >=? packet_length pkt)).

(** * Properties *)

(** ** The codec *)

Lemma wrap32_small (v : Z) : 0 <= v < 2 ^ 32 -> wrap32 v = v.
Proof. intros H. unfold wrap32. now apply Z.mod_small. Qed.

Lemma wrap32_range (v : Z) : 0 <= wrap32 v < 2 ^ 32.
Proof. unfold wrap32. apply Z.mod_pos_bound. lia. Qed.

Lemma testbit_above (v w n : Z) :
  0 <= v < 2 ^ w -> 0 <= w <= n -> Z.testbit v n = false.
Proof.
  intros Hv Hw. rewrite <- (Z.mod_small v (2 ^ w)) by lia.
  now rewrite Z.mod_pow2_bits_high by lia.
Qed.

(** A value below [2^k] and a multiple of [2^k] share no bit. *)
Lemma lor_shiftl_add (lo hi k : Z) :
  0 <= k -> 0 <= lo < 2 ^ k -> Z.lor lo (Z.shiftl hi k) = lo + hi * 2 ^ k.
Proof.
  intros Hk Hlo. rewrite Z.shiftl_mul_pow2 by lia.
  assert (Hd : Z.land lo (hi * 2 ^ k) = 0).
  { apply Z.bits_inj'; intros n Hn. rewrite Z.land_spec, Z.bits_0.
    destruct (Z.ltb_spec n k).
    - rewrite Z.mul_pow2_bits_low by lia. apply andb_false_r.
    - rewrite (testbit_above lo k n) by lia. reflexivity. }
  rewrite <- Z.lxor_lor by exact Hd. symmetry. now apply Z.add_nocarry_lxor.
Qed.

Lemma land_255 (v : Z) : Z.land v 255 = v mod 256.
Proof. change 255 with (Z.ones 8). now rewrite Z.land_ones by lia. Qed.

Lemma encode_loop_le (n : nat) :
  forall (fuel : nat) (v : Z), (n <= fuel)%nat ->
    encode_loop fuel v (8 * Z.of_nat n) = le_bytes n v.
Proof.
  induction n as [|n IH]; intros fuel v Hf.
  - destruct fuel; reflexivity.
  - destruct fuel as [|fuel]; [lia|].
    cbn [encode_loop le_bytes].
    replace (8 * Z.of_nat (S n) >? 0) with true
      by (symmetry; apply Z.gtb_lt; lia).
    rewrite land_255, Z.shiftr_div_pow2 by lia.
    replace (8 * Z.of_nat (S n) - 8) with (8 * Z.of_nat n) by lia.
    change (2 ^ 8) with 256. f_equal. apply IH. lia.
Qed.

Lemma le_value_bound (bs : list Z) :
  Forall is_byte bs -> 0 <= le_value bs < 2 ^ (8 * Z.of_nat (length bs)).
Proof.
  induction 1 as [|b bs Hb _ IH]; cbn [le_value length].
  - change (2 ^ (8 * Z.of_nat 0)) with 1. lia.
  - replace (8 * Z.of_nat (S (length bs)))
      with (8 + 8 * Z.of_nat (length bs)) by lia.
    rewrite Z.pow_add_r by lia. change (2 ^ 8) with 256.
    unfold is_byte in Hb. nia.
Qed.

Lemma extract_loop_le (n : nat) :
  forall (fuel : nat) (src : list Z) (rval shift : Z),
    (n <= fuel)%nat -> (n <= length src)%nat ->
    Forall is_byte (firstn n src) ->
    0 <= shift -> shift + 8 * Z.of_nat n <= 32 -> 0 <= rval < 2 ^ shift ->
    extract_loop fuel src (8 * Z.of_nat n) rval shift
    = rval + 2 ^ shift * le_value (firstn n src).
Proof.
  induction n as [|n IH]; intros fuel src rval shift Hf Hl Hb Hs Hw Hr.
  - destruct fuel; cbn; lia.
  - destruct fuel as [|fuel]; [lia|].
    destruct src as [|b src]; [cbn in Hl; lia|].
    cbn [firstn] in Hb. inversion Hb as [|? ? Hb0 Hb1]; subst.
    cbn [extract_loop firstn le_value hd tl].
    replace (8 * Z.of_nat (S n) >? 0) with true
      by (symmetry; apply Z.gtb_lt; lia).
    replace (8 * Z.of_nat (S n) - 8) with (8 * Z.of_nat n) by lia.
    unfold is_byte in Hb0.
    assert (Hp : 0 < 2 ^ shift) by (apply Z.pow_pos_nonneg; lia).
    assert (Hsh : 0 <= b * 2 ^ shift < 2 ^ 32).
    { split; [nia|].
      apply Z.lt_le_trans with (2 ^ 8 * 2 ^ shift).
      - change (2 ^ 8) with 256. nia.
      - rewrite <- Z.pow_add_r by lia. apply Z.pow_le_mono_r; lia. }
    rewrite (Z.shiftl_mul_pow2 b shift) by lia.
    rewrite (wrap32_small _ Hsh).
    rewrite <- (Z.shiftl_mul_pow2 b shift) by lia.
    rewrite lor_shiftl_add by lia.
    rewrite IH; cbn in Hl; try lia; try assumption.
    + rewrite Z.pow_add_r by lia. change (2 ^ 8) with 256. ring.
    + rewrite Z.pow_add_r by lia. change (2 ^ 8) with 256. nia.
Qed.

Lemma le_value_le_bytes (n : nat) :
  forall v : Z, 0 <= v -> le_value (le_bytes n v) = v mod 2 ^ (8 * Z.of_nat n).
Proof.
  induction n as [|n IH]; intros v Hv; cbn [le_bytes le_value].
  - change (2 ^ (8 * Z.of_nat 0)) with 1. now rewrite Z.mod_1_r.
  - replace (8 * Z.of_nat (S n)) with (8 + 8 * Z.of_nat n) by lia.
    rewrite Z.pow_add_r by lia. change (2 ^ 8) with 256.
    rewrite IH by (apply Z.div_pos; lia).
    rewrite Z.rem_mul_r; [reflexivity | lia |].
    apply Z.pow_pos_nonneg; lia.
Qed.

Lemma le_bytes_length (n : nat) : forall v, length (le_bytes n v) = n.
Proof. induction n; intros v; cbn; [reflexivity | now rewrite IHn]. Qed.

Lemma le_bytes_is_byte (n : nat) : forall v, Forall is_byte (le_bytes n v).
Proof.
  induction n; intros v; cbn; constructor; [|apply IHn].
  unfold is_byte. apply Z.mod_pos_bound. lia.
Qed.

Lemma le_bytes_le_value (bs : list Z) :
  Forall is_byte bs -> le_bytes (length bs) (le_value bs) = bs.
Proof.
  induction 1 as [|b bs Hb _ IH]; cbn [le_bytes le_value length].
  - reflexivity.
  - unfold is_byte in Hb. f_equal.
    + rewrite (Z.mul_comm 256), Z.mod_add by lia.
      now apply Z.mod_small.
    + rewrite (Z.mul_comm 256), Z.div_add by lia.
      rewrite (Z.div_small b 256) by lia. rewrite Z.add_0_l. exact IH.
Qed.

(** [encode_value] writes [n] little-endian bytes when asked for [8n] bits. *)
Lemma encode_value_le (n : nat) (v : Z) :
  encode_value v (8 * Z.of_nat n) = le_bytes n (wrap32 v).
Proof. unfold encode_value. apply encode_loop_le. lia. Qed.

(** [extract_field] reads [n] little-endian bytes, for up to four bytes. *)
Lemma extract_field_le (n : nat) (src : list Z) :
  (n <= 4)%nat -> (n <= length src)%nat -> Forall is_byte (firstn n src) ->
  extract_field src (8 * Z.of_nat n) = le_value (firstn n src).
Proof.
  intros Hn Hl Hb. unfold extract_field.
  rewrite extract_loop_le; try assumption; lia.
Qed.

Lemma extract_field_le_bytes (n : nat) (x : Z) (rest : list Z) :
  (n <= 4)%nat -> 0 <= x ->
  extract_field (le_bytes n x ++ rest) (8 * Z.of_nat n)
  = x mod 2 ^ (8 * Z.of_nat n).
Proof.
  intros Hn Hx.
  assert (Hf : firstn n (le_bytes n x ++ rest) = le_bytes n x).
  { rewrite firstn_app, le_bytes_length, Nat.sub_diag.
    rewrite <- (le_bytes_length n x) at 1.
    rewrite firstn_all. cbn [firstn]. now rewrite app_nil_r. }
  rewrite extract_field_le.
  - rewrite Hf. now apply le_value_le_bytes.
  - exact Hn.
  - rewrite length_app, le_bytes_length. lia.
  - rewrite Hf. apply le_bytes_is_byte.
Qed.

Lemma wrap32_mod_pow2 (v : Z) (n : nat) :
  (n <= 4)%nat -> wrap32 v mod 2 ^ (8 * Z.of_nat n) = v mod 2 ^ (8 * Z.of_nat n).
Proof.
  intros Hn. unfold wrap32.
  apply Z.mod_mod_divide.
  exists (2 ^ (32 - 8 * Z.of_nat n)).
  rewrite <- Z.pow_add_r by lia. f_equal. lia.
Qed.

(** C7.  For every width [w] among 8, 16, 24 and 32 and every unsigned
    value [v < 2^w], extracting [w] bits from the bytes that encoding [v]
    into [w] bits produces yields [v] again; and encoding what is
    extracted from [w/8] bytes gives these bytes back: [encode_value] and
    [extract_field] are mutually inverse little-endian codecs at those
    widths. *)
Theorem encode_extract_inverse (w : Z) :
  In w [8; 16; 24; 32] ->
  (forall v : Z, 0 <= v < 2 ^ w ->
     extract_field (encode_value v w) w = v) /\
  (forall bs : list Z, 8 * Z.of_nat (length bs) = w -> Forall is_byte bs ->
     encode_value (extract_field bs w) w = bs).
Proof.
  intros Hw.
  assert (Hn : exists n : nat, (n <= 4)%nat /\ w = 8 * Z.of_nat n).
  { cbn in Hw. destruct Hw as [H|[H|[H|[H|[]]]]]; subst w;
      [exists 1%nat | exists 2%nat | exists 3%nat | exists 4%nat];
      split; reflexivity || lia. }
  destruct Hn as (n & Hn & ->).
  assert (Hpow : 2 ^ (8 * Z.of_nat n) <= 2 ^ 32)
    by (apply Z.pow_le_mono_r; lia).
  split.
  - intros v Hv.
    rewrite encode_value_le, wrap32_small by lia.
    rewrite extract_field_le.
    + rewrite <- (le_bytes_length n v) at 1. rewrite firstn_all.
      rewrite le_value_le_bytes by lia. now apply Z.mod_small.
    + exact Hn.
    + now rewrite le_bytes_length.
    + rewrite <- (le_bytes_length n v) at 1. rewrite firstn_all.
      apply le_bytes_is_byte.
  - intros bs Hl Hb.
    assert (Hlen : length bs = n) by lia. subst n.
    rewrite extract_field_le, firstn_all; try assumption; try lia.
    + rewrite encode_value_le, wrap32_small.
      * now apply le_bytes_le_value.
      * pose proof (le_value_bound bs Hb). lia.
    + now rewrite firstn_all.
Qed.

(** ** Frame of the ingest path *)

Ltac split_ifs :=
  repeat match goal with
         | |- context [if ?c then _ else _] => destruct c
         end.

Lemma control_set_stats v r : control (set_stats v r) = control r.
Proof. reflexivity. Qed.
Lemma control_set_saved_master v r : control (set_saved_master v r) = control r.
Proof. reflexivity. Qed.
Lemma control_set_slaves v r : control (set_slaves v r) = control r.
Proof. reflexivity. Qed.
Lemma control_set_blfile v r : control (set_blfile v r) = control r.
Proof. reflexivity. Qed.
Lemma control_set_binlog n p r : control (set_binlog n p r) = control r.
Proof. reflexivity. Qed.
Lemma control_set_residual v r : control (set_residual v r) = control r.
Proof. reflexivity. Qed.

Create Rewrite HintDb control.

#[local] Hint Rewrite control_set_stats control_set_saved_master control_set_slaves
  control_set_blfile control_set_binlog control_set_residual : control.

Lemma rotate_event_control (r : ROUTER_INSTANCE) (ptr : list Z)
    (hdr : REP_HEADER) :
  control (blr_rotate_event r ptr hdr) = control r.
Proof.
  unfold blr_rotate_event, blr_file_rotate.
  split_ifs; autorewrite with control; reflexivity.
Qed.

#[local] Hint Rewrite rotate_event_control : control.

Lemma handle_event_control (r : ROUTER_INSTANCE) (ptr : list Z) :
  control (blr_handle_event r ptr) = control r.
Proof.
  unfold blr_handle_event, count_received, blr_distribute_binlog_record,
    blr_write_binlog_record.
  split_ifs; autorewrite with control; reflexivity.
Qed.

Lemma ingest_loop_control (fuel : nat) :
  forall (r : ROUTER_INSTANCE) (pkt : GWBUF),
    control (fst (blr_ingest_loop fuel r pkt)) = control r.
Proof.
  induction fuel as [|fuel IH]; intros r pkt; cbn [blr_ingest_loop].
  - reflexivity.
  - split_ifs; cbn [fst]; try reflexivity;
      rewrite IH; apply handle_event_control.
Qed.

Lemma handle_binlog_record_control (r : ROUTER_INSTANCE) (pkt : GWBUF) :
  control (blr_handle_binlog_record r pkt) = control r.
Proof.
  unfold blr_handle_binlog_record, blr_file_flush.
  match goal with
  | |- context [blr_ingest_loop ?f ?x ?p] =>
      pose proof (ingest_loop_control f x p) as Hc;
      destruct (blr_ingest_loop f x p) as [r1 pkt1]
  end.
  cbn [fst snd] in *.
  destruct (is_null pkt1), (is_null (residual r)); cbn [control] in *;
    exact Hc.
Qed.

Lemma handle_binlog_record_frame (r : ROUTER_INSTANCE) (pkt : GWBUF) :
  let r' := blr_handle_binlog_record r pkt in
  master_state r' = master_state r /\ master r' = master r
  /\ queue r' = queue r /\ active_logs r' = active_logs r.
Proof.
  pose proof (handle_binlog_record_control r pkt) as Hc.
  unfold control in Hc. injection Hc as _ _ _ _ Hs Ha Hq Hm _.
  cbv zeta. auto.
Qed.

(** ** The serialisation gate and the error paths *)

Lemma master_step_gate (r : ROUTER_INSTANCE) (buf : GWBUF) :
  queue (blr_master_step r buf) = queue r
  /\ active_logs (blr_master_step r buf) = active_logs r.
Proof.
  unfold blr_master_step. split_ifs; try (split; reflexivity).
  pose proof (handle_binlog_record_control r buf) as Hc.
  unfold control in Hc. injection Hc as _ _ _ _ _ Ha Hq _ _.
  now split.
Qed.

Lemma master_loop_fold (q : list (list Z)) :
  forall (fuel : nat) (r : ROUTER_INSTANCE) (buf : GWBUF),
    queue r = q -> (length q < fuel)%nat ->
    blr_master_loop fuel r buf
    = set_active_logs 0 (fold_left step_dequeued q (blr_master_step r buf)).
Proof.
  induction q as [|seg rest IH]; intros fuel r buf Hq Hf;
    (destruct fuel as [|fuel]; [cbn in Hf; lia|]);
    cbn [blr_master_loop fold_left]; cbv zeta;
    destruct (master_step_gate r buf) as [Hq1 _]; rewrite Hq in Hq1;
    rewrite Hq1.
  - reflexivity.
  - rewrite (IH fuel); [| reflexivity | cbn in Hf; lia].
    unfold step_dequeued at 3. now rewrite Hq1.
Qed.

Lemma drop_response_gate_free (r : ROUTER_INSTANCE) (buf : GWBUF) :
  active_logs r = 0 ->
  drop_response (set_active_logs 1 r) buf
  = set_released (released r ++ [(buf, gwbuf_length buf)]) r.
Proof. destruct r; cbn; intros ->; reflexivity. Qed.

(** C6.  A response that carries the MySQL error-packet marker, delivered
    while the gate is free, is consumed in its full length; the gate is
    free again afterwards, [master_state] is unchanged, nothing is written
    to the master and no other field of the router changes.  The same drop
    happens when [master_state] is outside its valid range. *)
Theorem error_response_dropped (router : ROUTER_INSTANCE) (buf : GWBUF) :
  active_logs router = 0 ->
  MYSQL_RESPONSE_ERR buf = true
  \/ master_state router < 0 \/ BLRM_MAXSTATE < master_state router ->
  let r' := blr_master_response router buf in
  r' = set_released (released router ++ [(buf, gwbuf_length buf)]) router
  /\ active_logs r' = 0
  /\ master_state r' = master_state router
  /\ master r' = master router
  /\ saved_master r' = saved_master router
  /\ queue r' = queue router.
Proof.
  intros Hgate Hbad r'.
  assert (Hr : r' = set_released
                      (released router ++ [(buf, gwbuf_length buf)]) router).
  { subst r'. unfold blr_master_response. rewrite Hgate.
    cbn [Z.eqb negb set_active_logs master_state].
    destruct (master_state router <? 0) eqn:Hlo;
      [apply drop_response_gate_free; exact Hgate|].
    destruct (master_state router >? BLRM_MAXSTATE) eqn:Hhi;
      [apply drop_response_gate_free; exact Hgate|].
    cbn [orb].
    destruct Hbad as [Herr | Hrange].
    - rewrite Herr. apply drop_response_gate_free; exact Hgate.
    - apply Z.ltb_ge in Hlo. rewrite Z.gtb_ltb in Hhi.
      apply Z.ltb_ge in Hhi. lia. }
  rewrite Hr. cbn. repeat split; try reflexivity. exact Hgate.
Qed.

(** A response that passes the two checks made on entry goes into the loop. *)
Lemma master_response_enters_loop (router : ROUTER_INSTANCE) (buf : GWBUF) :
  active_logs router = 0 ->
  0 <= master_state router <= BLRM_MAXSTATE ->
  MYSQL_RESPONSE_ERR buf = false ->
  blr_master_response router buf
  = blr_master_loop (S (length (queue router)))
                    (set_active_logs 1 router) buf.
Proof.
  intros Hgate Hrange Herr. unfold blr_master_response. rewrite Hgate.
  cbn [Z.eqb negb set_active_logs master_state queue].
  replace (master_state router <? 0) with false
    by (symmetry; apply Z.ltb_ge; lia).
  replace (master_state router >? BLRM_MAXSTATE) with false
    by (symmetry; rewrite Z.gtb_ltb; apply Z.ltb_ge; lia).
  cbn [orb]. now rewrite Herr.
Qed.

(** C10.  When a response passes the two checks made on entry, it and
    every buffer then unlinked from the queue go through the state-machine
    step and nothing else: no range check and no error-marker check is
    made on a dequeued buffer, whatever it holds. *)
Theorem dequeued_buffers_unchecked (router : ROUTER_INSTANCE) (buf : GWBUF) :
  active_logs router = 0 ->
  0 <= master_state router <= BLRM_MAXSTATE ->
  MYSQL_RESPONSE_ERR buf = false ->
  blr_master_response router buf
  = set_active_logs 0
      (fold_left step_dequeued (queue router)
                 (blr_master_step (set_active_logs 1 router) buf)).
Proof.
  intros Hgate Hrange Herr.
  rewrite master_response_enters_loop by assumption.
  remember (queue router) as q eqn:Hq.
  assert (Hq1 : queue (set_active_logs 1 router) = q)
    by (rewrite Hq; reflexivity).
  apply master_loop_fold.
  - exact Hq1.
  - lia.
Qed.

(** ** The handshake *)

Lemma master_response_single (router : ROUTER_INSTANCE) (buf : GWBUF) :
  active_logs router = 0 -> queue router = [] ->
  0 <= master_state router <= BLRM_MAXSTATE ->
  MYSQL_RESPONSE_ERR buf = false ->
  blr_master_response router buf
  = set_active_logs 0 (blr_master_step (set_active_logs 1 router) buf).
Proof.
  intros Hgate Hq Hrange Herr.
  rewrite master_response_enters_loop by assumption.
  rewrite (master_loop_fold []); [reflexivity | exact Hq | rewrite Hq; cbn; lia].
Qed.

Lemma sprintf_fits_same (text : string) :
  forall size : nat, sprintf_fits size text -> sprintf size text = text.
Proof.
  unfold sprintf, sprintf_fits.
  induction text as [|c text IH]; intros [|size] H; cbn in *;
    try reflexivity; try lia.
  f_equal. apply IH. lia.
Qed.

(** One turn of the [switch] in one of the ten states before
    [BLRM_BINLOGDUMP], on any buffer and whatever the gate and the queue
    are. *)
Lemma handshake_switch (router : ROUTER_INSTANCE) (buf : GWBUF) (k : nat) :
  (k < 10)%nat -> master_state router = nth k handshake_states 0 ->
  (k = 6%nat -> uuid_fits router) ->
  let r' := blr_master_step router buf in
  master_state r' = nth (S k) handshake_states 0
  /\ master r' = master router ++ [nth (S k) (handshake_probes router) []]
  /\ saved_master r' = retain k buf (saved_master router)
  /\ released r' = released router ++ handed_back k buf
  /\ active_logs r' = active_logs router /\ queue r' = queue router
  /\ handshake_probes r' = handshake_probes router
  /\ router_uuid r' = router_uuid router.
Proof.
  intros Hk Hst Hfit r'. subst r'.
  destruct k as [|[|[|[|[|[|[|[|[|[|k]]]]]]]]]]; try lia; cbn in Hst;
    unfold blr_master_step; rewrite Hst;
    cbn -[blr_make_query blr_make_registration blr_make_binlog_dump
          String.append sprintf];
    rewrite ?app_nil_r; try (repeat split; reflexivity).
  fold (slave_uuid_query router).
  rewrite (sprintf_fits_same _ _ (Hfit eq_refl)).
  repeat split; reflexivity.
Qed.

(** One response in one of these states, with nothing in the queue. *)
Lemma handshake_step (router : ROUTER_INSTANCE) (buf : GWBUF) (k : nat) :
  active_logs router = 0 -> queue router = [] ->
  MYSQL_RESPONSE_ERR buf = false ->
  (k < 10)%nat -> master_state router = nth k handshake_states 0 ->
  (k = 6%nat -> uuid_fits router) ->
  let r' := blr_master_response router buf in
  master_state r' = nth (S k) handshake_states 0
  /\ master r' = master router ++ [nth (S k) (handshake_probes router) []]
  /\ saved_master r' = retain k buf (saved_master router)
  /\ released r' = released router ++ handed_back k buf
  /\ active_logs r' = 0 /\ queue r' = []
  /\ handshake_probes r' = handshake_probes router
  /\ router_uuid r' = router_uuid router.
Proof.
  intros Hgate Hq Herr Hk Hst Hfit r'. subst r'.
  assert (Hrange : 0 <= master_state router <= BLRM_MAXSTATE).
  { rewrite Hst.
    destruct k as [|[|[|[|[|[|[|[|[|[|k]]]]]]]]]]; try lia;
      cbv; split; discriminate. }
  rewrite master_response_single by assumption.
  destruct (handshake_switch (set_active_logs 1 router) buf k Hk Hst Hfit)
    as (H1 & H2 & H3 & H4 & _ & H6 & H7 & H8).
  cbn [master_state master saved_master released queue active_logs
       set_active_logs] in *.
  rewrite Hq in H6. auto 10.
Qed.

(** A response in state [BLRM_BINLOGDUMP]. *)
Lemma binlogdump_response (router : ROUTER_INSTANCE) (buf : GWBUF) :
  active_logs router = 0 -> queue router = [] ->
  MYSQL_RESPONSE_ERR buf = false ->
  master_state router = BLRM_BINLOGDUMP ->
  let r' := blr_master_response router buf in
  r' = set_active_logs 0
         (blr_handle_binlog_record (set_active_logs 1 router) buf)
  /\ master_state r' = BLRM_BINLOGDUMP
  /\ master r' = master router
  /\ active_logs r' = 0 /\ queue r' = [].
Proof.
  intros Hgate Hq Herr Hst r'. subst r'.
  rewrite master_response_single;
    [| assumption | assumption | rewrite Hst; cbv; split; discriminate
     | assumption].
  unfold blr_master_step. cbn [master_state set_active_logs].
  rewrite Hst. cbn [Z.eqb BLRM_BINLOGDUMP BLRM_TIMESTAMP BLRM_SERVERID
    BLRM_HBPERIOD BLRM_CHKSUM1 BLRM_CHKSUM2 BLRM_GTIDMODE BLRM_MUUID
    BLRM_SUUID BLRM_LATIN1 BLRM_REGISTER Pos.eqb].
  destruct (handle_binlog_record_frame (set_active_logs 1 router) buf)
    as (Hs & Hm & Hqq & _).
  repeat split.
  - change (master_state (blr_handle_binlog_record
                            (set_active_logs 1 router) buf) = BLRM_BINLOGDUMP).
    rewrite Hs. exact Hst.
  - change (master (blr_handle_binlog_record
                      (set_active_logs 1 router) buf) = master router).
    rewrite Hm. reflexivity.
  - change (queue (blr_handle_binlog_record
                     (set_active_logs 1 router) buf) = []).
    rewrite Hqq. exact Hq.
Qed.

Lemma firstn_snoc_nth {A : Type} (l : list A) (d : A) :
  forall k : nat, (k < length l)%nat ->
    firstn k l ++ [nth k l d] = firstn (S k) l.
Proof.
  induction l as [|x l IH]; intros k Hk; cbn in Hk; [lia|].
  destruct k as [|k]; [reflexivity|].
  cbn [firstn nth app]. f_equal. apply IH. lia.
Qed.

Lemma handshake_run_from (bufs : list GWBUF) :
  forall (r : ROUTER_INSTANCE) (k : nat) (probes : list GWBUF),
    (k + length bufs = 10)%nat ->
    master_state r = nth k handshake_states 0 ->
    active_logs r = 0 -> queue r = [] -> uuid_fits r ->
    Forall not_error bufs ->
    handshake_probes r = probes ->
    master r = firstn (S k) probes ->
    let r' := fold_left blr_master_response bufs r in
    master r' = probes /\ master_state r' = BLRM_BINLOGDUMP.
Proof.
  induction bufs as [|buf bufs IH];
    intros r k probes Hk Hst Hgate Hq Hfit Herr Hp Hm; cbn [fold_left].
  - cbn in Hk. assert (k = 10%nat) by lia. subst k. split.
    + rewrite Hm, <- Hp. reflexivity.
    + exact Hst.
  - inversion Herr as [|? ? Hb Hbs]; subst.
    cbn in Hk.
    destruct (handshake_step r buf k Hgate Hq Hb ltac:(lia) Hst
                (fun _ => Hfit))
      as (Hst1 & Hm1 & _ & _ & Hg1 & Hq1 & Hp1 & Hu1).
    apply (IH _ (S k)); try assumption; try lia.
    + unfold uuid_fits, slave_uuid_query in *. now rewrite Hu1.
    + rewrite Hm1, Hm.
      apply firstn_snoc_nth. cbn. lia.
Qed.

(** C1, as the code has it.  A response that is not an error packet and
    finds the gate free is processed, and after it, in order, every
    buffer that waits in the queue.  Every buffer processed in one of the
    ten states from [BLRM_TIMESTAMP] to [BLRM_REGISTER] moves
    [master_state] one step along the order of [handshake_states] and
    writes exactly the next probe of [handshake_probes] to the master;
    for the probe that carries the router's uuid this is so when the
    uuid has at most 109 characters, so that the query fits the 128 bytes
    it is formatted into.  The buffers processed in [BLRM_SERVERID] to
    [BLRM_LATIN1] are kept in their [saved_master] slot; the one
    processed in [BLRM_TIMESTAMP] is consumed instead, and the one
    processed in [BLRM_REGISTER] is neither kept nor consumed.  A buffer
    processed in [BLRM_BINLOGDUMP] goes to the binlog ingestion and
    nothing more is written to the master.  So with nothing in the
    queue one response is one step, and from [blr_start_master] on ten
    responses give the eleven probes: nine queries, the registration and
    the binlog dump. *)
Theorem master_handshake :
  (forall (router : ROUTER_INSTANCE) (buf : GWBUF) (k : nat),
     (k < 10)%nat -> master_state router = nth k handshake_states 0 ->
     (k = 6%nat -> uuid_fits router) ->
     let r' := blr_master_step router buf in
     master_state r' = nth (S k) handshake_states 0
     /\ master r' = master router ++ [nth (S k) (handshake_probes router) []]
     /\ saved_master r' = retain k buf (saved_master router)
     /\ released r' = released router ++ handed_back k buf
     /\ active_logs r' = active_logs router /\ queue r' = queue router)
  /\ (forall (router : ROUTER_INSTANCE) (buf : GWBUF),
        master_state router = BLRM_BINLOGDUMP ->
        let r' := blr_master_step router buf in
        r' = blr_handle_binlog_record router buf
        /\ master_state r' = BLRM_BINLOGDUMP
        /\ master r' = master router)
  /\ (forall (router : ROUTER_INSTANCE) (buf : GWBUF) (k : nat),
        active_logs router = 0 -> not_error buf ->
        (k <= 10)%nat -> master_state router = nth k handshake_states 0 ->
        blr_master_response router buf
        = set_active_logs 0
            (fold_left step_dequeued (queue router)
                       (blr_master_step (set_active_logs 1 router) buf)))
  /\ (forall (router : ROUTER_INSTANCE) (buf : GWBUF) (k : nat),
        active_logs router = 0 -> queue router = [] -> not_error buf ->
        (k < 10)%nat -> master_state router = nth k handshake_states 0 ->
        (k = 6%nat -> uuid_fits router) ->
        let r' := blr_master_response router buf in
        master_state r' = nth (S k) handshake_states 0
        /\ master r'
           = master router ++ [nth (S k) (handshake_probes router) []]
        /\ saved_master r' = retain k buf (saved_master router)
        /\ released r' = released router ++ handed_back k buf
        /\ active_logs r' = 0 /\ queue r' = [])
  /\ (forall (router : ROUTER_INSTANCE) (bufs : list GWBUF),
        active_logs router = 0 -> queue router = [] -> uuid_fits router ->
        length bufs = 10%nat -> Forall not_error bufs ->
        let r' := fold_left blr_master_response bufs
                            (blr_start_master router) in
        master r' = handshake_probes router
        /\ master_state r' = BLRM_BINLOGDUMP).
Proof.
  split; [|split; [|split; [|split]]].
  - intros router buf k Hk Hst Hfit.
    destruct (handshake_switch router buf k Hk Hst Hfit)
      as (H1 & H2 & H3 & H4 & H5 & H6 & _).
    cbv zeta. auto 10.
  - intros router buf Hst. cbv zeta.
    assert (Hstep : blr_master_step router buf
                    = blr_handle_binlog_record router buf).
    { unfold blr_master_step. rewrite Hst. reflexivity. }
    rewrite Hstep.
    destruct (handle_binlog_record_frame router buf) as (Hs & Hm & _).
    split; [reflexivity|]. split; [congruence | exact Hm].
  - intros router buf k Hgate Herr Hk Hst.
    assert (Hrange : 0 <= master_state router <= BLRM_MAXSTATE).
    { rewrite Hst.
      destruct k as [|[|[|[|[|[|[|[|[|[|[|k]]]]]]]]]]]; try lia;
        cbv; split; discriminate. }
    rewrite master_response_enters_loop by assumption.
    apply master_loop_fold; [reflexivity | cbn; lia].
  - intros router buf k Hgate Hq Herr Hk Hst Hfit.
    destruct (handshake_step router buf k Hgate Hq Herr Hk Hst Hfit)
      as (H1 & H2 & H3 & H4 & H5 & H6 & _).
    cbv zeta. auto 10.
  - intros router bufs Hgate Hq Hfit Hlen Herr.
    apply (handshake_run_from bufs (blr_start_master router) 0);
      try assumption; reflexivity.
Qed.

(** ** Filling a buffer *)

Lemma poke_app (pre : list Z) :
  forall (x b : Z) (rest : list Z),
    poke (pre ++ x :: rest) (length pre) b = pre ++ b :: rest.
Proof.
  induction pre as [|p pre IH]; intros x b rest; cbn.
  - reflexivity.
  - now rewrite IH.
Qed.

Lemma store_app (bs : list Z) :
  forall (pre old post : list Z), length old = length bs ->
    store (pre ++ old ++ post) (length pre) bs = pre ++ bs ++ post.
Proof.
  induction bs as [|b bs IH]; intros pre old post Hl.
  - destruct old; [reflexivity | discriminate].
  - destruct old as [|o old]; [discriminate|].
    cbn [store app]. rewrite poke_app.
    replace (pre ++ b :: old ++ post) with ((pre ++ [b]) ++ old ++ post)
      by (rewrite <- app_assoc; reflexivity).
    replace (S (length pre)) with (length (pre ++ [b]))
      by (rewrite length_app; cbn; lia).
    rewrite IH by (cbn in Hl; lia).
    rewrite <- app_assoc. reflexivity.
Qed.

Lemma fold_store_contiguous (ws : list write) :
  forall (done : list Z) (n : nat),
    contiguous (length done) ws ->
    (length (concat (map snd ws)) <= n)%nat ->
    fold_left (fun d w => store d (fst w) (snd w)) ws (done ++ repeat 0 n)
    = done ++ concat (map snd ws)
        ++ repeat 0 (n - length (concat (map snd ws))).
Proof.
  induction ws as [|[off bs] ws IH]; intros done n Hc Hn;
    cbn [fold_left map concat fst snd contiguous] in *.
  - now rewrite Nat.sub_0_r.
  - destruct Hc as [-> Hc]. rewrite length_app in Hn.
    replace n with (length bs + (n - length bs))%nat at 1 by lia.
    rewrite repeat_app, store_app by apply repeat_length.
    rewrite app_assoc, IH.
    + rewrite length_app, <- !app_assoc. do 3 (apply f_equal).
      f_equal. lia.
    + now rewrite length_app.
    + lia.
Qed.

(** A buffer of the right size, filled front to back, holds the bytes
    stored in the order they were stored. *)
Lemma fill_contiguous (size : nat) (ws : list write) :
  contiguous 0 ws -> length (concat (map snd ws)) = size ->
  fill size ws = [concat (map snd ws)].
Proof.
  intros Hc Hs. unfold fill, gwbuf_alloc.
  pose proof (fold_store_contiguous ws [] size Hc) as Hf.
  cbn [app] in Hf. rewrite Hf by lia.
  rewrite Hs, Nat.sub_diag. cbn. now rewrite app_nil_r.
Qed.

Lemma encode_value_24 (v : Z) : encode_value v 24 = le_bytes 3 (wrap32 v).
Proof. exact (encode_value_le 3 v). Qed.

Lemma encode_value_32 (v : Z) : encode_value v 32 = le_bytes 4 (wrap32 v).
Proof. exact (encode_value_le 4 v). Qed.

Lemma encode_value_16 (v : Z) : encode_value v 16 = le_bytes 2 (wrap32 v).
Proof. exact (encode_value_le 2 v). Qed.

(** ** Distribution *)

Lemma slave_packet_layout (hdr : REP_HEADER) (ptr : list Z)
    (s : ROUTER_SLAVE) :
  event_fits hdr ptr ->
  slave_packet hdr ptr s
  = [le_bytes 3 (event_size hdr + 1) ++ [seqno s] ++ [0]
       ++ firstn (Z.to_nat (event_size hdr)) ptr].
Proof.
  intros (H0 & H24 & Hlen). unfold slave_packet, slave_packet_writes.
  assert (Hl : length (memcpy ptr (event_size hdr))
               = Z.to_nat (event_size hdr))
    by (unfold memcpy; rewrite length_firstn; lia).
  rewrite fill_contiguous.
  - cbn [map snd concat]. rewrite encode_value_24, wrap32_small by lia.
    rewrite app_nil_r. reflexivity.
  - cbn [contiguous fst snd].
    rewrite encode_value_24, le_bytes_length. cbn [length Nat.add].
    repeat split; reflexivity.
  - cbn [map snd concat]. rewrite !length_app, encode_value_24,
      le_bytes_length, Hl, wrap32_small by lia. cbn [length]. lia.
Qed.

Lemma slave_at_distribute (router : ROUTER_INSTANCE) (hdr : REP_HEADER)
    (ptr : list Z) (i : nat) (s : ROUTER_SLAVE) :
  slave_at router i = Some s ->
  slave_at (blr_distribute_binlog_record router hdr ptr) i
  = Some (blr_distribute_to_slave hdr ptr s).
Proof.
  unfold slave_at, blr_distribute_binlog_record. cbn [slaves set_slaves].
  intros H. now apply map_nth_error.
Qed.

Lemma wrap8_byte (b : Z) : is_byte b -> wrap8 b = b.
Proof. unfold is_byte, wrap8. intros H. now apply Z.mod_small. Qed.

Lemma wrap8_is_byte (z : Z) : is_byte (wrap8 z).
Proof. unfold is_byte, wrap8. apply Z.mod_pos_bound. lia. Qed.

Lemma seqid_run_cons (first : Z) (n : nat) :
  is_byte first ->
  seqid_run first (S n) = first :: seqid_run (wrap8 (first + 1)) n.
Proof.
  intros Hb. unfold seqid_run. cbn [seq map].
  rewrite Z.add_0_r, (wrap8_byte first Hb). f_equal.
  rewrite <- seq_shift, map_map. apply map_ext. intros k.
  unfold wrap8. rewrite Zplus_mod_idemp_l. f_equal. lia.
Qed.

(** The packet built for a slave, for any event whose allocation does
    not wrap: where the raw event holds fewer than [event_size] bytes the
    copy reads past it, and the bytes missing are those of the fresh
    allocation here. *)
Lemma slave_packet_bytes (hdr : REP_HEADER) (ptr : list Z)
    (s : ROUTER_SLAVE) :
  event_allocated hdr ->
  slave_packet hdr ptr s
  = [le_bytes 3 (wrap32 (event_size hdr + 1)) ++ [seqno s] ++ [0]
       ++ memcpy ptr (event_size hdr)
       ++ repeat 0 (Z.to_nat (event_size hdr)
                    - length (memcpy ptr (event_size hdr)))].
Proof.
  intros [H0 H32]. unfold slave_packet, slave_packet_writes, fill, gwbuf_alloc.
  assert (Hl : (length (memcpy ptr (event_size hdr))
                <= Z.to_nat (event_size hdr))%nat)
    by (unfold memcpy; rewrite length_firstn; lia).
  rewrite wrap32_small by lia.
  match goal with
  | |- [fold_left _ ?ws (repeat 0 ?n)] = _ =>
      pose proof (fold_store_contiguous ws [] n) as Hf
  end.
  cbn [app] in Hf. rewrite Hf; clear Hf.
  - cbn [map snd concat]. rewrite encode_value_24, app_nil_r.
    rewrite <- !app_assoc. do 5 f_equal.
    rewrite !length_app, le_bytes_length. cbn [length]. f_equal. lia.
  - cbn [contiguous fst snd length].
    rewrite encode_value_24, le_bytes_length. cbn [length Nat.add].
    repeat split; reflexivity.
  - cbn [map snd concat]. rewrite encode_value_24, app_nil_r.
    rewrite !length_app, le_bytes_length. cbn [length]. lia.
Qed.

Lemma packet_seqid_slave_packet (hdr : REP_HEADER) (ptr : list Z)
    (s : ROUTER_SLAVE) :
  event_allocated hdr -> packet_seqid (slave_packet hdr ptr s) = seqno s.
Proof.
  intros Ha. rewrite slave_packet_bytes by exact Ha. reflexivity.
Qed.

(** The sequence ids one slave reads over a stream of events. *)
Lemma distribute_stream_seqids (evs : list (REP_HEADER * list Z)) :
  forall (router : ROUTER_INSTANCE) (i : nat) (s : ROUTER_SLAVE),
    slave_at router i = Some s -> is_byte (seqno s) ->
    Forall (fun ev => event_allocated (fst ev)) evs ->
    exists (s' : ROUTER_SLAVE) (sent : list GWBUF),
      slave_at (distribute_stream router evs) i = Some s'
      /\ dcb s' = dcb s ++ sent
      /\ map packet_seqid sent = seqid_run (seqno s) (length sent)
      /\ seqno s' = wrap8 (seqno s + Z.of_nat (length sent)).
Proof.
  induction evs as [|[hdr ptr] evs IH]; intros router i s Hs Hb Hfit.
  - exists s, []. cbn. rewrite app_nil_r, Z.add_0_r, wrap8_byte by exact Hb.
    auto.
  - inversion Hfit as [|? ? Hf Hfs]; subst. cbn [fst snd] in Hf.
    unfold distribute_stream. cbn [fold_left fst snd].
    pose proof (slave_at_distribute router hdr ptr i s Hs) as Hs1.
    unfold blr_distribute_to_slave in Hs1.
    destruct (binlog_pos s =? wrap32 (next_pos hdr - event_size hdr)).
    + destruct (IH _ i _ Hs1 (wrap8_is_byte _) Hfs)
        as (s' & sent & H1 & H2 & H3 & H4).
      cbn [dcb seqno] in H2, H3, H4.
      exists s', (slave_packet hdr ptr s :: sent). split; [exact H1|].
      split; [rewrite H2; unfold dcb_write; now rewrite <- app_assoc|].
      split.
      * cbn [map length]. rewrite seqid_run_cons by exact Hb.
        rewrite packet_seqid_slave_packet by exact Hf. now rewrite H3.
      * rewrite H4. unfold wrap8. rewrite Zplus_mod_idemp_l. f_equal.
        cbn [length]. lia.
    + exact (IH _ i s Hs1 Hb Hfs).
Qed.

(** C2.  When an event with header [hdr] is distributed, every slave of
    the router's list is sent the event if and only if its [binlog_pos]
    equals [hdr.next_pos - hdr.event_size] (the subtraction of the two
    32-bit fields, which is the plain difference whenever the event ends
    where [next_pos] says); a slave that is sent the event has
    [binlog_pos = hdr.next_pos] afterwards; a slave whose position does not
    match is left exactly as it was. *)
Theorem distribute_gating (router : ROUTER_INSTANCE) (hdr : REP_HEADER)
    (ptr : list Z) (i : nat) (s : ROUTER_SLAVE) :
  slave_at router i = Some s ->
  let r' := blr_distribute_binlog_record router hdr ptr in
  let start := wrap32 (next_pos hdr - event_size hdr) in
  exists s' : ROUTER_SLAVE,
    slave_at r' i = Some s'
    /\ length (slaves r') = length (slaves router)
    /\ ((exists pkt, dcb s' = dcb s ++ [pkt]) <-> binlog_pos s = start)
    /\ (binlog_pos s = start ->
        dcb s' = dcb s ++ [slave_packet hdr ptr s]
        /\ binlog_pos s' = next_pos hdr)
    /\ (binlog_pos s <> start -> s' = s)
    /\ (0 <= event_size hdr <= next_pos hdr -> next_pos hdr < 2 ^ 32 ->
        start = next_pos hdr - event_size hdr).
Proof.
  intros Hs r' start.
  exists (blr_distribute_to_slave hdr ptr s).
  split; [exact (slave_at_distribute router hdr ptr i s Hs)|].
  split; [subst r'; unfold blr_distribute_binlog_record;
          cbn [slaves set_slaves]; apply length_map|].
  unfold blr_distribute_to_slave. fold start.
  destruct (Z.eqb_spec (binlog_pos s) start) as [Heq|Hne];
    cbn [dcb binlog_pos].
  - split; [split; [auto | intros _; now eexists]|].
    split; [auto|]. split; [intros Hc; contradiction|].
    intros H1 H2. subst start. apply wrap32_small. lia.
  - split.
    { split; [|intros Hc; contradiction].
      intros [pkt Hp]. apply (f_equal (@length GWBUF)) in Hp.
      rewrite length_app in Hp. cbn in Hp. lia. }
    split; [intros Hc; contradiction|]. split; [auto|].
    intros H1 H2. subst start. apply wrap32_small. lia.
Qed.

(** C3, as the code has it.  For an event whose size, a [uint32_t], plus
    5 does not wrap around 32 bits, the packet synthesised for a slave
    that is sent the event (its offset is the start of the event) has
    [event_size + 5] bytes: a 24-bit little-endian length field that
    holds [event_size + 1] modulo [2^24], which is the payload length
    [event_size + 1] when that is below [2^24]; then the slave's current
    [seqno], which goes up by one modulo 256; then an OK byte 0; then
    [event_size] bytes, which are the bytes of the raw event when the raw
    event holds that many.  Over any stream of such events the sequence
    ids a slave reads are its last value, a [uint8_t], and then steps of
    1 modulo 256. *)
Theorem slave_packet_framing :
  (forall (router : ROUTER_INSTANCE) (hdr : REP_HEADER) (ptr : list Z)
          (i : nat) (s : ROUTER_SLAVE),
     slave_at router i = Some s -> event_allocated hdr ->
     binlog_pos s = wrap32 (next_pos hdr - event_size hdr) ->
     exists (s' : ROUTER_SLAVE) (data : list Z),
       slave_at (blr_distribute_binlog_record router hdr ptr) i = Some s'
       /\ dcb s' = dcb s ++ [[data]]
       /\ Z.of_nat (length data) = event_size hdr + 5
       /\ extract_field data 24 = (event_size hdr + 1) mod 2 ^ 24
       /\ nth 3 data 0 = seqno s
       /\ nth 4 data 0 = 0
       /\ seqno s' = wrap8 (seqno s + 1)
       /\ (event_size hdr + 1 < 2 ^ 24 ->
           extract_field data 24 = event_size hdr + 1
           /\ firstn 3 data = le_bytes 3 (event_size hdr + 1))
       /\ (event_size hdr <= Z.of_nat (length ptr) ->
           skipn 5 data = firstn (Z.to_nat (event_size hdr)) ptr))
  /\ (forall (evs : list (REP_HEADER * list Z)) (router : ROUTER_INSTANCE)
             (i : nat) (s : ROUTER_SLAVE),
        slave_at router i = Some s -> is_byte (seqno s) ->
        Forall (fun ev => event_allocated (fst ev)) evs ->
        exists (s' : ROUTER_SLAVE) (sent : list GWBUF),
          slave_at (distribute_stream router evs) i = Some s'
          /\ dcb s' = dcb s ++ sent
          /\ map packet_seqid sent = seqid_run (seqno s) (length sent)
          /\ seqno s' = wrap8 (seqno s + Z.of_nat (length sent))).
Proof.
  split.
  - intros router hdr ptr i s Hs Halloc Hpos.
    pose proof (slave_at_distribute router hdr ptr i s Hs) as Hs1.
    unfold blr_distribute_to_slave in Hs1.
    rewrite Hpos, Z.eqb_refl in Hs1.
    rewrite (slave_packet_bytes hdr ptr s Halloc) in Hs1.
    destruct Halloc as (H0 & H32).
    eexists; eexists. split; [exact Hs1|].
    cbn [dcb seqno]. split; [reflexivity|].
    set (body := memcpy ptr (event_size hdr)).
    assert (Hb : (length body <= Z.to_nat (event_size hdr))%nat)
      by (subst body; unfold memcpy; rewrite length_firstn; lia).
    assert (Hfield :
              extract_field
                (le_bytes 3 (wrap32 (event_size hdr + 1)) ++ [seqno s] ++ [0]
                   ++ body
                   ++ repeat 0 (Z.to_nat (event_size hdr) - length body)) 24
              = (event_size hdr + 1) mod 2 ^ 24).
    { change 24 with (8 * Z.of_nat 3).
      rewrite extract_field_le_bytes by (lia || apply wrap32_range).
      apply wrap32_mod_pow2. lia. }
    split.
    { rewrite !length_app, le_bytes_length, repeat_length.
      cbn [length]. lia. }
    split; [exact Hfield|].
    split; [reflexivity|]. split; [reflexivity|]. split; [reflexivity|].
    split.
    + intros H24. split.
      * rewrite Hfield. apply Z.mod_small. lia.
      * rewrite wrap32_small by lia. reflexivity.
    + intros Hlen.
      cbn [le_bytes app skipn].
      assert (Hfull : length body = Z.to_nat (event_size hdr))
        by (subst body; unfold memcpy; rewrite length_firstn; lia).
      rewrite Hfull, Nat.sub_diag. cbn [repeat]. now rewrite app_nil_r.
  - exact distribute_stream_seqids.
Qed.

(** ** The binlog dump command *)

Lemma strncpy_length (src : list Z) (n : nat) : length (strncpy src n) = n.
Proof.
  unfold strncpy. rewrite length_firstn, length_app, repeat_length. lia.
Qed.

Lemma strncpy_padded (src : list Z) (n : nat) :
  (length (cstr src) <= n)%nat ->
  strncpy src n = cstr src ++ repeat 0 (n - length (cstr src)).
Proof.
  intros Hl. unfold strncpy.
  rewrite firstn_app, firstn_all2 by exact Hl.
  f_equal.
  set (k := (n - length (cstr src))%nat).
  replace (repeat 0 n) with (repeat 0 k ++ repeat 0 (n - k))
    by (rewrite <- repeat_app; f_equal; lia).
  rewrite firstn_app, repeat_length, Nat.sub_diag.
  rewrite firstn_all2 by (rewrite repeat_length; lia).
  cbn [firstn]. now rewrite app_nil_r.
Qed.

(** The stores of the builder stay inside the [0x1b + 4] bytes allocated
    exactly when the name field is at most 16 bytes wide. *)
Lemma binlog_dump_in_bounds (router : ROUTER_INSTANCE) :
  Forall (in_bounds (Z.to_nat (0x1b + 4))) (blr_make_binlog_dump_writes router)
  <-> (BINLOG_FNAMELEN <= 16)%nat.
Proof.
  unfold blr_make_binlog_dump_writes. split.
  - intros H. rewrite Forall_forall in H.
    specialize (H (15%nat, strncpy (binlog_name router) BINLOG_FNAMELEN)).
    unfold in_bounds in H. cbn [fst snd] in H.
    rewrite strncpy_length in H.
    assert (Hi : (15 + BINLOG_FNAMELEN <= Z.to_nat (0x1b + 4))%nat).
    { apply H. cbn. auto 10. }
    change (Z.to_nat (0x1b + 4)) with 31%nat in Hi. lia.
  - intros Hn.
    repeat (apply Forall_cons || apply Forall_nil);
      unfold in_bounds; cbn [fst snd];
      rewrite ?encode_value_24, ?encode_value_32, ?encode_value_16,
        ?le_bytes_length, ?strncpy_length;
      change (Z.to_nat (0x1b + 4)) with 31%nat; cbn [length]; lia.
Qed.

(** C9.  [BINLOG_FNAMELEN] is a macro of [blr.h]; the builder itself
    fixes the payload length at [0x1b], which is one command byte, a
    position of 4 bytes, flags of 2, a server id of 4 and a name field of
    16.  With a name field of that width [blr_make_binlog_dump] produces
    a packet of [0x1b + 4] bytes: the length field [0x1b], sequence id 0,
    the [COM_BINLOG_DUMP] byte, the position in 32 bits, 16-bit flags 0,
    the server id in 32 bits and the binlog name in a field of
    [BINLOG_FNAMELEN] bytes padded with NULs; and every store of the
    builder lies within the buffer of [0x1b + 4] bytes.  Whatever the
    width, the stores stay within the buffer exactly when it is at most
    16. *)
Theorem binlog_dump_layout (router : ROUTER_INSTANCE) :
  (Forall (in_bounds (Z.to_nat (0x1b + 4)))
          (blr_make_binlog_dump_writes router)
   <-> (BINLOG_FNAMELEN <= 16)%nat)
  /\ (BINLOG_FNAMELEN = dump_name_width ->
      let name := strncpy (binlog_name router) BINLOG_FNAMELEN in
      blr_make_binlog_dump router
      = [le_bytes 3 0x1b ++ [0] ++ [COM_BINLOG_DUMP]
           ++ le_bytes 4 (wrap32 (binlog_position router))
           ++ le_bytes 2 0
           ++ le_bytes 4 (wrap32 (serverid router))
           ++ name]
      /\ length name = BINLOG_FNAMELEN
      /\ ((length (cstr (binlog_name router)) <= BINLOG_FNAMELEN)%nat ->
          name = cstr (binlog_name router)
                 ++ repeat 0 (BINLOG_FNAMELEN
                              - length (cstr (binlog_name router))))
      /\ extract_field (GWBUF_DATA (blr_make_binlog_dump router)) 24 = 0x1b
      /\ gwbuf_length (blr_make_binlog_dump router) = 0x1b + 4).
Proof.
  split; [exact (binlog_dump_in_bounds router)|].
  intros Hw name.
  assert (Hpkt : blr_make_binlog_dump router
      = [le_bytes 3 0x1b ++ [0] ++ [COM_BINLOG_DUMP]
           ++ le_bytes 4 (wrap32 (binlog_position router))
           ++ le_bytes 2 0
           ++ le_bytes 4 (wrap32 (serverid router))
           ++ name]).
  { unfold blr_make_binlog_dump, blr_make_binlog_dump_writes.
    rewrite fill_contiguous.
    - cbn [map snd concat].
      rewrite encode_value_24, !encode_value_32, encode_value_16.
      rewrite app_nil_r. reflexivity.
    - cbn [contiguous fst snd].
      rewrite encode_value_24, !encode_value_32, encode_value_16,
        !le_bytes_length. cbn [length Nat.add]. repeat split; reflexivity.
    - cbn [map snd concat].
      rewrite !length_app, encode_value_24, !encode_value_32,
        encode_value_16, !le_bytes_length, strncpy_length, Hw.
      reflexivity. }
  split; [exact Hpkt|].
  split; [apply strncpy_length|].
  split; [apply strncpy_padded|].
  rewrite Hpkt. split.
  - reflexivity.
  - unfold gwbuf_length. cbn [concat]. rewrite app_nil_r.
    rewrite !length_app, !le_bytes_length. subst name.
    rewrite strncpy_length, Hw. reflexivity.
Qed.

(** ** Rotate events *)

Lemma rotate_position_32 (ptr : list Z) : 0 <= rotate_position ptr < 2 ^ 32.
Proof. unfold rotate_position. apply wrap32_range. Qed.

(** Whenever the high half of the position is not zero, the position
    computed is not the 64-bit value the eight bytes spell. *)
Lemma rotate_position_loses_high_half (ptr : list Z) :
  (8 <= length ptr)%nat -> Forall is_byte (firstn 8 ptr) ->
  le_value (firstn 4 (skipn 4 ptr)) <> 0 ->
  rotate_position ptr < 2 ^ 32 <= rotate_position_64 ptr.
Proof.
  intros Hl Hb Hhi. split; [apply rotate_position_32|].
  unfold rotate_position_64.
  destruct ptr as [|b0 [|b1 [|b2 [|b3 [|b4 [|b5 [|b6 [|b7 ptr]]]]]]]];
    cbn in Hl; try lia.
  cbn [firstn skipn le_value] in *.
  repeat match goal with
         | H : Forall _ (_ :: _) |- _ =>
             let Hx := fresh "Hx" in
             inversion H as [|? ? Hx ?]; clear H; subst; unfold is_byte in Hx
         end.
  lia.
Qed.

(** The two ways out of [blr_rotate_event]. *)
Lemma rotate_event_cases (r : ROUTER_INSTANCE) (ptr : list Z)
    (hdr : REP_HEADER) :
  let file := rotate_file (skipn 19 ptr) in
  (strncmp_differs (binlog_name r) file BINLOG_FNAMELEN = true
   /\ blr_rotate_event r ptr hdr
      = blr_file_rotate (set_stats (count_rotate (stats r)) r) file
                        (rotate_position (skipn 19 ptr)))
  \/ (strncmp_differs (binlog_name r) file BINLOG_FNAMELEN = false
      /\ blr_rotate_event r ptr hdr = r).
Proof.
  cbv zeta. unfold blr_rotate_event.
  destruct (strncmp_differs (binlog_name r) (rotate_file (skipn 19 ptr))
              BINLOG_FNAMELEN); auto.
Qed.

(** ** Artificial events *)

Lemma count_received_frame (hdr : REP_HEADER) (r : ROUTER_INSTANCE) :
  let r' := count_received hdr r in
  control r' = control r /\ residual r' = residual r
  /\ saved_master r' = saved_master r /\ slaves r' = slaves r
  /\ binlog_name r' = binlog_name r
  /\ binlog_position r' = binlog_position r /\ blfile r' = blfile r.
Proof. unfold count_received. split_ifs; cbn; auto 10. Qed.

Lemma rotate_event_frame (r : ROUTER_INSTANCE) (ptr : list Z)
    (hdr : REP_HEADER) :
  let r' := blr_rotate_event r ptr hdr in
  residual r' = residual r /\ saved_master r' = saved_master r
  /\ slaves r' = slaves r /\ no_new_write (blfile r) (blfile r').
Proof.
  unfold blr_rotate_event, blr_file_rotate, no_new_write.
  split_ifs; cbn; repeat split; auto.
  intros h p Hin. apply in_app_or in Hin. destruct Hin as [Hin|Hin]; auto.
  cbn in Hin. destruct Hin as [Hin|[]]. discriminate Hin.
Qed.

(** C4, as the code has it.  An event whose flags field equals
    [LOG_EVENT_ARTIFICIAL_F] is neither written to the local binlog file
    nor fanned out; if its type is [ROTATE_EVENT] the rotate handling is
    still invoked; apart from the statistics, from [binlog_name] and
    [binlog_position] (through the rotate handling) and from the saved
    format description event (when the event is a fake one), no router
    state changes. *)
Theorem artificial_event_frame (router : ROUTER_INSTANCE) (ptr : list Z) :
  let hdr := blr_extract_header ptr in
  let r' := blr_handle_event router ptr in
  ok hdr = 0 -> flags hdr = LOG_EVENT_ARTIFICIAL_F ->
  no_new_write (blfile router) (blfile r')
  /\ slaves r' = slaves router
  /\ (event_type hdr = ROTATE_EVENT ->
      r' = blr_rotate_event (count_received hdr router) (skipn 5 ptr) hdr)
  /\ (event_type hdr <> ROTATE_EVENT ->
      binlog_name r' = binlog_name router
      /\ binlog_position r' = binlog_position router
      /\ blfile r' = blfile router)
  /\ control r' = control router
  /\ residual r' = residual router
  /\ saved_slots (saved_master r') = saved_slots (saved_master router)
  /\ (~ (event_type hdr = FORMAT_DESCRIPTION_EVENT /\ next_pos hdr = 0) ->
      saved_master r' = saved_master router).
Proof.
  intros hdr r' Hok Hflags.
  assert (Hc : control r' = control router)
    by apply handle_event_control.
  subst r'. unfold blr_handle_event in *. fold hdr in Hc |- *.
  rewrite Hok, Hflags in *. cbn [Z.eqb negb] in *.
  rewrite Z.eqb_refl in *. cbn [negb] in *.
  destruct (count_received_frame hdr router)
    as (_ & Hr & Hs & Hsl & Hn & Hp & Hf).
  assert (Hnw : no_new_write (blfile router) (blfile router))
    by (unfold no_new_write; auto).
  destruct (Z.eqb_spec (event_type hdr) FORMAT_DESCRIPTION_EVENT)
    as [Hfde|Hfde]; cbn [andb] in *.
  - destruct (Z.eqb_spec (next_pos hdr) 0) as [Hnp|Hnp].
    + cbn [blfile slaves set_saved_master set_stats residual saved_master
             binlog_name binlog_position].
      rewrite Hf, Hsl, Hr, Hn, Hp, Hs.
      repeat split; auto.
      * intros Hrot. rewrite Hfde in Hrot. discriminate Hrot.
      * intros Hnot. exfalso. apply Hnot. auto.
    + rewrite Hfde in *. cbn [Z.eqb FORMAT_DESCRIPTION_EVENT HEARTBEAT_EVENT
                              ROTATE_EVENT Pos.eqb] in *.
      rewrite Hf, Hsl, Hr, Hn, Hp, Hs.
      repeat split; auto. intros Hrot. discriminate Hrot.
  - destruct (Z.eqb_spec (event_type hdr) HEARTBEAT_EVENT) as [Hhb|Hhb].
    + rewrite Hf, Hsl, Hr, Hn, Hp, Hs.
      repeat split; auto.
      intros Hrot. rewrite Hhb in Hrot. discriminate Hrot.
    + destruct (Z.eqb_spec (event_type hdr) ROTATE_EVENT) as [Hrot|Hrot].
      * destruct (rotate_event_frame (count_received hdr router)
                    (skipn 5 ptr) hdr) as (Hr1 & Hs1 & Hsl1 & Hw1).
        rewrite Hf in Hw1. rewrite Hr1, Hs1, Hsl1, Hr, Hs, Hsl.
        repeat split; auto; contradiction.
      * rewrite Hf, Hsl, Hr, Hn, Hp, Hs.
        repeat split; auto. intros Hx. contradiction.
Qed.

(** ** Termination of the ingest loop *)

Lemma extract_loop_nonneg (fuel : nat) :
  forall (src : list Z) (bits rval shift : Z),
    0 <= rval -> 0 <= extract_loop fuel src bits rval shift.
Proof.
  induction fuel as [|fuel IH]; intros src bits rval shift Hr;
    cbn [extract_loop]; [exact Hr|].
  destruct (bits >? 0); [|exact Hr].
  apply IH. apply Z.lor_nonneg. split; [exact Hr|].
  apply wrap32_range.
Qed.

Lemma extract_field_nonneg (src : list Z) (bits : Z) :
  0 <= extract_field src bits.
Proof. unfold extract_field. apply extract_loop_nonneg. lia. Qed.

Lemma packet_length_min (pkt : GWBUF) : 4 <= packet_length pkt.
Proof.
  unfold packet_length, uint32_shl.
  pose proof (extract_field_nonneg (GWBUF_DATA pkt) 24).
  pose proof (extract_field_nonneg (GWBUF_DATA pkt) 16).
  pose proof (extract_field_nonneg (GWBUF_DATA pkt) 8).
  assert (Hl : forall a b, 0 <= a -> 0 <= Z.lor a (wrap32 b)).
  { intros a b Ha. apply Z.lor_nonneg. split; [exact Ha|].
    apply wrap32_range. }
  split_ifs; try lia.
  - specialize (Hl (extract_field (GWBUF_DATA pkt) 16)
                   (Z.shiftl (extract_field (GWBUF_DATA (tl pkt)) 8) 16)).
    lia.
  - specialize (Hl (extract_field (GWBUF_DATA pkt) 8)
                   (Z.shiftl (extract_field (GWBUF_DATA (tl pkt)) 16) 8)).
    lia.
Qed.

Lemma consume_measure_le (pkt : GWBUF) (n : Z) :
  (ingest_measure (gwbuf_consume pkt n) <= ingest_measure pkt)%nat.
Proof.
  unfold ingest_measure, gwbuf_consume.
  destruct pkt as [|seg rest]; [lia|].
  destruct (n >=? Z.of_nat (length seg)); cbn [concat length];
    rewrite ?length_app, ?length_skipn; lia.
Qed.

Lemma consume_measure_lt (pkt : GWBUF) (n : Z) :
  is_null pkt = false -> (0 < n \/ Z.of_nat (length (GWBUF_DATA pkt)) <= n) ->
  (ingest_measure (gwbuf_consume pkt n) < ingest_measure pkt)%nat.
Proof.
  unfold ingest_measure, gwbuf_consume, GWBUF_DATA.
  destruct pkt as [|seg rest]; [discriminate|]. intros _ Hn.
  cbn [hd] in Hn.
  destruct (Z.geb_spec n (Z.of_nat (length seg))); cbn [concat length];
    rewrite ?length_app, ?length_skipn; lia.
Qed.

(** Every turn of the loop that goes on lowers [ingest_measure], so any
    fuel above it gives the same result. *)
Lemma ingest_loop_fuel (n : nat) :
  forall (fuel1 fuel2 : nat) (r : ROUTER_INSTANCE) (pkt : GWBUF),
    (ingest_measure pkt < n)%nat -> (n <= fuel1)%nat -> (n <= fuel2)%nat ->
    blr_ingest_loop fuel1 r pkt = blr_ingest_loop fuel2 r pkt.
Proof.
  induction n as [|n IH]; intros fuel1 fuel2 r pkt Hm H1 H2; [lia|].
  destruct fuel1 as [|fuel1]; [lia|]. destruct fuel2 as [|fuel2]; [lia|].
  cbn [blr_ingest_loop].
  destruct (is_null pkt) eqn:Hnull; cbn [negb andb]; [reflexivity|].
  destruct (gwbuf_length pkt >? 24); [|reflexivity].
  pose proof (packet_length_min pkt) as Hlen.
  destruct (Z.ltb_spec (GWBUF_LENGTH pkt) (packet_length pkt)) as [Hlt|Hge];
    cbn [andb].
  - destruct (gwbuf_length pkt >=? packet_length pkt); [|reflexivity].
    apply IH; try lia.
    pose proof (consume_measure_le (gwbuf_consume pkt (GWBUF_LENGTH pkt))
                  (packet_length pkt - GWBUF_LENGTH pkt)).
    pose proof (consume_measure_lt pkt (GWBUF_LENGTH pkt) Hnull
                  (or_intror (Z.le_refl _))).
    lia.
  - apply IH; try lia.
    pose proof (consume_measure_lt pkt (packet_length pkt) Hnull).
    lia.
Qed.

Lemma ingest_fuel_enough (fuel : nat) (r : ROUTER_INSTANCE) (pkt : GWBUF) :
  (ingest_fuel pkt <= fuel)%nat ->
  blr_ingest_loop fuel r pkt = blr_ingest_loop (ingest_fuel pkt) r pkt.
Proof.
  intros Hf. apply (ingest_loop_fuel (ingest_fuel pkt)).
  - unfold ingest_fuel, ingest_measure. lia.
  - exact Hf.
  - lia.
Qed.

(** ** Reassembly *)

Lemma le_value_nonneg (bs : list Z) : Forall is_byte bs -> 0 <= le_value bs.
Proof. intros H. pose proof (le_value_bound bs H). lia. Qed.

Lemma mysql_packet_length (p : list Z) :
  mysql_packet p -> (4 <= length p)%nat.
Proof.
  intros [Hb Hl]. pose proof (le_value_nonneg _ Hb). lia.
Qed.

Lemma firstn_3_app (s x : list Z) :
  (3 <= length s)%nat -> firstn 3 (s ++ x) = firstn 3 s.
Proof.
  intros Hl. rewrite firstn_app.
  replace (3 - length s)%nat with 0%nat by lia.
  cbn [firstn]. now rewrite app_nil_r.
Qed.

Lemma extract_field_24 (s : list Z) :
  (3 <= length s)%nat -> Forall is_byte (firstn 3 s) ->
  extract_field s 24 = le_value (firstn 3 s).
Proof.
  intros Hl Hb. change 24 with (8 * Z.of_nat 3).
  apply extract_field_le; [lia | exact Hl | exact Hb].
Qed.

Lemma extract_length (p x : list Z) :
  mysql_packet p -> extract_field (p ++ x) 24 + 4 = Z.of_nat (length p).
Proof.
  intros Hp. pose proof (mysql_packet_length p Hp) as Hl.
  destruct Hp as [Hb Hlen].
  rewrite extract_field_24.
  - rewrite firstn_3_app by lia. lia.
  - rewrite length_app. lia.
  - rewrite firstn_3_app by lia. exact Hb.
Qed.

Lemma packet_at_whole (p x : list Z) :
  mysql_packet p -> packet_at (p ++ x) = p.
Proof.
  intros Hp. unfold packet_at. rewrite (extract_length p x Hp), Nat2Z.id.
  rewrite firstn_app, firstn_all, Nat.sub_diag. cbn [firstn].
  now rewrite app_nil_r.
Qed.

Lemma incomplete_length (t : list Z) :
  incomplete t -> (3 <= length t)%nat ->
  Z.of_nat (length t) < extract_field t 24 + 4.
Proof.
  intros (u & Hu & Hp) Hl.
  pose proof (extract_length (t ++ u) [] Hp) as He.
  rewrite app_nil_r in He. destruct Hp as [Hb _].
  rewrite firstn_3_app in Hb by exact Hl.
  rewrite extract_field_24 in He.
  - rewrite firstn_3_app in He by exact Hl.
    rewrite extract_field_24 by assumption.
    rewrite He, length_app. destruct u; [contradiction | cbn; lia].
  - rewrite length_app. lia.
  - rewrite firstn_3_app by exact Hl. exact Hb.
Qed.

Lemma packet_length_head (s : list Z) (rest : GWBUF) :
  (3 <= length s)%nat -> packet_length (s :: rest) = extract_field s 24 + 4.
Proof.
  intros Hl. unfold packet_length, GWBUF_LENGTH, GWBUF_DATA. cbn [hd].
  destruct (Z.ltb_spec (Z.of_nat (length s)) 3); [lia | reflexivity].
Qed.

Lemma single_cons (x : Z) (s : list Z) : single (x :: s) = [x :: s].
Proof. reflexivity. Qed.

Lemma consume_single (q rest : list Z) (x : GWBUF) :
  q <> [] ->
  gwbuf_consume ((q ++ rest) :: x) (Z.of_nat (length q))
  = single rest ++ x.
Proof.
  intros Hq. unfold gwbuf_consume. rewrite length_app.
  destruct rest as [|b rest].
  - rewrite Nat.add_0_r.
    destruct (Z.geb_spec (Z.of_nat (length q)) (Z.of_nat (length q)));
      [reflexivity | lia].
  - destruct (Z.geb_spec (Z.of_nat (length q))
                (Z.of_nat (length q + length (b :: rest)))) as [H|H];
      [cbn in H; lia|].
    rewrite Nat2Z.id, skipn_app, skipn_all, Nat.sub_diag. reflexivity.
Qed.

Lemma measure_single_app (q rest : list Z) :
  q <> [] ->
  (ingest_measure (single rest) < ingest_measure [q ++ rest])%nat.
Proof.
  intros Hq. unfold ingest_measure.
  destruct q as [|a q]; [contradiction|].
  destruct rest; cbn [single concat length app];
    rewrite ?app_nil_r, ?length_app; cbn [length]; lia.
Qed.

(** The packets that lie whole in one segment are handed over one after
    the other, each at its place in the segment; the fragment that follows
    them is left. *)
Lemma trace_in_place (qs : list (list Z)) :
  forall (t : list Z) (fuel : nat),
    Forall long_packet qs -> incomplete t ->
    (ingest_measure (single (concat qs ++ t)) < fuel)%nat ->
    ingest_trace fuel (single (concat qs ++ t))
    = (suffix_ptrs qs t, single t).
Proof.
  induction qs as [|q qs IH]; intros t fuel Hqs Ht Hf;
    (destruct fuel as [|fuel]; [lia|]).
  - cbn [concat app suffix_ptrs] in *.
    destruct t as [|b t]; [reflexivity|].
    rewrite single_cons in *. cbn [ingest_trace is_null negb andb].
    unfold gwbuf_length. cbn [concat]. rewrite app_nil_r.
    destruct (Z.gtb_spec (Z.of_nat (length (b :: t))) 24) as [Hlong|Hshort];
      [|reflexivity].
    rewrite packet_length_head by lia.
    pose proof (incomplete_length (b :: t) Ht ltac:(lia)) as Hinc.
    unfold GWBUF_LENGTH, GWBUF_DATA. cbn [hd].
    destruct (Z.ltb_spec (Z.of_nat (length (b :: t)))
                (extract_field (b :: t) 24 + 4)); [|lia].
    destruct (Z.geb_spec (Z.of_nat (length (b :: t)))
                (extract_field (b :: t) 24 + 4)); [lia|].
    reflexivity.
  - inversion Hqs as [|? ? Hq Hqs']; subst.
    destruct Hq as [Hp Hlong].
    pose proof (mysql_packet_length q Hp) as H4.
    assert (Hne : q <> []) by (destruct q; [cbn in H4; lia | discriminate]).
    cbn [concat suffix_ptrs] in *. rewrite <- app_assoc in *.
    set (rest := concat qs ++ t) in *.
    assert (Hs : single (q ++ rest) = [q ++ rest])
      by (destruct q; [contradiction | reflexivity]).
    rewrite Hs in *. cbn [ingest_trace is_null negb andb].
    unfold gwbuf_length. cbn [concat]. rewrite app_nil_r.
    destruct (Z.gtb_spec (Z.of_nat (length (q ++ rest))) 24) as [_|Hshort];
      [|rewrite length_app in Hshort; lia].
    rewrite packet_length_head by (rewrite length_app; lia).
    rewrite (extract_length q rest Hp).
    unfold GWBUF_LENGTH, GWBUF_DATA. cbn [hd].
    destruct (Z.ltb_spec (Z.of_nat (length (q ++ rest)))
                (Z.of_nat (length q))) as [Hlt|_];
      [rewrite length_app in Hlt; lia|].
    cbn [andb]. rewrite (consume_single q rest [] Hne), app_nil_r.
    pose proof (measure_single_app q rest Hne) as Hm. subst rest.
    rewrite IH; try assumption; [reflexivity | lia].
Qed.

(** The packet length read when the three length bytes lie in the head
    segment or straddle it and the next one. *)
Lemma packet_length_two (prev c : list Z) (x : GWBUF) :
  prev <> [] -> (3 <= length prev + length c)%nat ->
  Forall is_byte (firstn 3 (prev ++ c)) ->
  packet_length (prev :: c :: x) = le_value (firstn 3 (prev ++ c)) + 4.
Proof.
  intros Hne Hl Hb.
  destruct prev as [|b0 [|b1 [|b2 prev]]]; [contradiction| | |].
  - destruct c as [|b1 [|b2 c]]; cbn in Hl; try lia.
    cbn [app firstn] in *.
    inversion Hb as [|? ? H0 Hb1]; subst.
    inversion Hb1 as [|? ? H1 Hb2]; subst.
    inversion Hb2 as [|? ? H2 _]; subst.
    unfold packet_length, GWBUF_LENGTH, GWBUF_DATA. cbn [hd tl length].
    change (Z.of_nat 1 <? 3) with true. change (Z.of_nat 1 >=? 3) with false.
    change (Z.of_nat 1 =? 2) with false. change (Z.of_nat 1 =? 1) with true.
    cbv iota.
    change 8 with (8 * Z.of_nat 1) at 1.
    rewrite extract_field_le by (cbn; auto; lia).
    change 16 with (8 * Z.of_nat 2) at 1.
    rewrite extract_field_le by (cbn; auto; lia).
    cbn [firstn le_value]. unfold uint32_shl, is_byte in *.
    rewrite Z.shiftl_mul_pow2 by lia.
    rewrite wrap32_small by lia.
    rewrite <- Z.shiftl_mul_pow2 by lia.
    rewrite lor_shiftl_add by lia. lia.
  - destruct c as [|b2 c]; cbn in Hl; try lia.
    cbn [app firstn] in *.
    inversion Hb as [|? ? H0 Hb1]; subst.
    inversion Hb1 as [|? ? H1 Hb2]; subst.
    inversion Hb2 as [|? ? H2 _]; subst.
    unfold packet_length, GWBUF_LENGTH, GWBUF_DATA. cbn [hd tl length].
    change (Z.of_nat 2 <? 3) with true. change (Z.of_nat 2 >=? 3) with false.
    change (Z.of_nat 2 =? 2) with true.
    cbv iota.
    change 16 with (8 * Z.of_nat 2) at 1.
    rewrite extract_field_le by (cbn; auto; lia).
    change 8 with (8 * Z.of_nat 1) at 1.
    rewrite extract_field_le by (cbn; auto; lia).
    cbn [firstn le_value]. unfold uint32_shl, is_byte in *.
    rewrite Z.shiftl_mul_pow2 by lia.
    rewrite wrap32_small by lia.
    rewrite <- Z.shiftl_mul_pow2 by lia.
    rewrite lor_shiftl_add by lia. lia.
  - rewrite packet_length_head by (cbn; lia).
    rewrite firstn_3_app in * by (cbn; lia).
    rewrite extract_field_24; [reflexivity | cbn; lia | exact Hb].
Qed.

(** A packet that begins in the head segment and ends in the next one is
    copied whole, and the loop goes on behind it. *)
Lemma trace_spanning (prev compl rest : list Z) (fuel : nat) :
  prev <> [] -> compl <> [] -> long_packet (prev ++ compl) ->
  ingest_trace (S fuel) [prev; compl ++ rest]
  = ((prev ++ compl) :: fst (ingest_trace fuel (single rest)),
     snd (ingest_trace fuel (single rest))).
Proof.
  intros Hprev Hcompl [Hp Hlong].
  pose proof (mysql_packet_length _ Hp) as H4.
  assert (Hlc : (0 < length compl)%nat)
    by (destruct compl; [contradiction | cbn; lia]).
  assert (Hlp : (0 < length prev)%nat)
    by (destruct prev; [contradiction | cbn; lia]).
  rewrite length_app in *.
  assert (Hlen : packet_length [prev; compl ++ rest]
                 = Z.of_nat (length prev + length compl)).
  { rewrite packet_length_two.
    - rewrite app_assoc, firstn_3_app by (rewrite length_app; lia).
      destruct Hp as [_ Hl]. rewrite length_app in Hl. lia.
    - exact Hprev.
    - rewrite length_app. lia.
    - rewrite app_assoc, firstn_3_app by (rewrite length_app; lia).
      apply Hp. }
  cbn [ingest_trace is_null negb andb]. rewrite Hlen.
  unfold spanning_message, memcpy, gwbuf_length, GWBUF_LENGTH, GWBUF_DATA.
  cbn [concat hd tl]. rewrite app_nil_r, !length_app.
  destruct (Z.gtb_spec
              (Z.of_nat (length prev + (length compl + length rest))) 24);
    [|lia].
  destruct (Z.ltb_spec (Z.of_nat (length prev))
              (Z.of_nat (length prev + length compl))); [|lia].
  destruct (Z.geb_spec
              (Z.of_nat (length prev + (length compl + length rest)))
              (Z.of_nat (length prev + length compl))); [|lia].
  cbn [andb fst snd].
  replace (Z.of_nat (length prev + length compl) - Z.of_nat (length prev))
    with (Z.of_nat (length compl)) by lia.
  rewrite !Nat2Z.id, firstn_all.
  rewrite firstn_app, firstn_all, Nat.sub_diag. cbn [firstn].
  rewrite app_nil_r.
  assert (Hc1 : gwbuf_consume [prev; compl ++ rest] (Z.of_nat (length prev))
                = [compl ++ rest]).
  { unfold gwbuf_consume.
    destruct (Z.geb_spec (Z.of_nat (length prev)) (Z.of_nat (length prev)));
      [reflexivity | lia]. }
  rewrite Hc1, (consume_single compl rest [] Hcompl), app_nil_r.
  reflexivity.
Qed.

Lemma measure_single (s : list Z) :
  (ingest_measure (single s) <= S (length s))%nat.
Proof.
  unfold ingest_measure. destruct s; cbn [single concat length app];
    rewrite ?app_nil_r; cbn [length]; lia.
Qed.

(** One delivery segment after a segment that left [prev] open. *)
Lemma trace_delivery (prev : list Z) (d : delivery) (fuel : nat) :
  delivery_ok prev d ->
  (ingest_measure (single prev ++ [chunk_of d]) < fuel)%nat ->
  ingest_trace fuel (single prev ++ [chunk_of d])
  = (delivery_ptrs prev d, single (opening d)).
Proof.
  intros (Hne & Hnil & Hcons & Hwhole & Hopen) Hf.
  unfold delivery_ptrs, completed, chunk_of in *.
  destruct prev as [|b prev].
  - rewrite (Hnil eq_refl) in *. cbn [app single] in *.
    replace [concat (whole d) ++ opening d]
      with (single (concat (whole d) ++ opening d)) in *
      by (destruct (concat (whole d) ++ opening d);
          [contradiction | reflexivity]).
    now apply trace_in_place.
  - destruct (Hcons ltac:(discriminate)) as [Hc Hlong].
    rewrite single_cons in *. cbn [app] in Hf |- *.
    destruct fuel as [|fuel]; [lia|].
    rewrite trace_spanning by (assumption || discriminate).
    rewrite trace_in_place; try assumption; [reflexivity|].
    pose proof (measure_single (concat (whole d) ++ opening d)).
    unfold ingest_measure in Hf. cbn [concat length] in Hf.
    rewrite !length_app in Hf. cbn [length] in Hf.
    rewrite !length_app in H. lia.
Qed.

(** ** Reassembly in the router *)

Lemma ingest_loop_trace (fuel : nat) :
  forall (r : ROUTER_INSTANCE) (pkt : GWBUF),
    blr_ingest_loop fuel r pkt
    = (fold_left blr_handle_event (fst (ingest_trace fuel pkt)) r,
       snd (ingest_trace fuel pkt)).
Proof.
  induction fuel as [|fuel IH]; intros r pkt;
    cbn [blr_ingest_loop ingest_trace]; [reflexivity|].
  split_ifs; cbn [fst snd fold_left]; try reflexivity; now rewrite IH.
Qed.

Lemma handle_binlog_record_trace (r : ROUTER_INSTANCE) (pkt : GWBUF) :
  let chain := if is_null (residual r) then pkt
               else gwbuf_append (residual r) pkt in
  blr_handle_binlog_record r pkt
  = deliver_as blr_handle_event r
      (fst (ingest_trace (ingest_fuel chain) chain))
      (snd (ingest_trace (ingest_fuel chain) chain)).
Proof.
  cbv zeta. unfold blr_handle_binlog_record, deliver_as, store_residual,
    clear_residual.
  rewrite ingest_loop_trace. reflexivity.
Qed.

Lemma handle_event_residual (r : ROUTER_INSTANCE) (ptr : list Z) :
  residual (blr_handle_event r ptr) = residual r.
Proof.
  unfold blr_handle_event, count_received, blr_distribute_binlog_record,
    blr_write_binlog_record, blr_rotate_event, blr_file_rotate.
  split_ifs; reflexivity.
Qed.

Lemma fold_handle_event_residual (ptrs : list (list Z)) :
  forall r : ROUTER_INSTANCE,
    residual (fold_left blr_handle_event ptrs r) = residual r.
Proof.
  induction ptrs as [|p ptrs IH]; intros r; cbn [fold_left];
    [reflexivity|]. now rewrite IH, handle_event_residual.
Qed.

Lemma deliver_as_residual (r : ROUTER_INSTANCE) (ptrs : list (list Z))
    (rest : GWBUF) :
  residual (deliver_as blr_handle_event r ptrs rest) = rest.
Proof.
  unfold deliver_as, blr_file_flush, store_residual, clear_residual.
  cbn [residual set_blfile].
  destruct rest as [|s rest]; cbn [is_null residual set_residual];
    [|reflexivity].
  rewrite fold_handle_event_residual.
  destruct (residual r) eqn:Hr; cbn [is_null]; [exact Hr | reflexivity].
Qed.

Lemma handle_delivery (r : ROUTER_INSTANCE) (prev : list Z) (d : delivery) :
  residual r = single prev -> delivery_ok prev d ->
  blr_handle_binlog_record r [chunk_of d]
  = deliver_as blr_handle_event r (delivery_ptrs prev d)
               (single (opening d)).
Proof.
  intros Hr Hd. rewrite handle_binlog_record_trace. cbv zeta. rewrite Hr.
  assert (Ht : ingest_trace (ingest_fuel (single prev ++ [chunk_of d]))
                            (single prev ++ [chunk_of d])
               = (delivery_ptrs prev d, single (opening d))).
  { apply trace_delivery; [exact Hd|].
    unfold ingest_fuel, ingest_measure. lia. }
  destruct prev as [|b prev];
    cbn [single is_null app] in *; unfold gwbuf_append; cbn [app];
    rewrite Ht; reflexivity.
Qed.

Lemma feed_replay (ds : list delivery) :
  forall (prev : list Z) (r : ROUTER_INSTANCE),
    residual r = single prev -> deliveries_ok prev ds ->
    feed_segments r (map chunk_of ds) = replay prev ds r
    /\ residual (feed_segments r (map chunk_of ds))
       = single (last_opening prev ds).
Proof.
  induction ds as [|d ds IH]; intros prev r Hr Hok.
  - cbn. auto.
  - destruct Hok as [Hd Hds].
    unfold feed_segments. cbn [map fold_left replay last_opening].
    rewrite (handle_delivery r prev d Hr Hd).
    apply IH; [apply deliver_as_residual | exact Hds].
Qed.

Lemma packet_at_suffix_ptrs (qs : list (list Z)) (t : list Z) :
  Forall long_packet qs -> map packet_at (suffix_ptrs qs t) = qs.
Proof.
  induction 1 as [|q qs [Hq _] _ IH]; cbn [suffix_ptrs map concat].
  - reflexivity.
  - rewrite <- app_assoc, (packet_at_whole q _ Hq). now rewrite IH.
Qed.

Lemma packet_at_all_ptrs (ds : list delivery) :
  forall prev : list Z, deliveries_ok prev ds ->
    map packet_at (all_ptrs prev ds) = packets_of prev ds
    /\ Forall long_packet (packets_of prev ds).
Proof.
  induction ds as [|d ds IH]; intros prev Hok; cbn [all_ptrs packets_of].
  - split; [reflexivity | constructor].
  - destruct Hok as [(_ & _ & Hcons & Hwhole & _) Hds].
    destruct (IH _ Hds) as [IH1 IH2].
    unfold delivery_ptrs. rewrite !map_app, IH1, packet_at_suffix_ptrs
      by exact Hwhole.
    assert (Hc : map packet_at (completed prev d) = completed prev d
                 /\ Forall long_packet (completed prev d)).
    { unfold completed. destruct prev as [|b prev].
      - split; [reflexivity | constructor].
      - destruct (Hcons ltac:(discriminate)) as [_ Hl]. cbn [map].
        pose proof (packet_at_whole _ [] (proj1 Hl)) as Hp.
        rewrite app_nil_r in Hp. rewrite Hp.
        split; [reflexivity | constructor; [exact Hl | constructor]]. }
    destruct Hc as [Hc1 Hc2]. rewrite Hc1.
    split; [now rewrite <- app_assoc|].
    apply Forall_app. split; [exact Hc2|].
    apply Forall_app. split; assumption.
Qed.

Lemma stream_of_deliveries (ds : list delivery) :
  forall prev : list Z, deliveries_ok prev ds ->
    prev ++ concat (map chunk_of ds)
    = concat (packets_of prev ds) ++ last_opening prev ds.
Proof.
  induction ds as [|d ds IH]; intros prev Hok;
    cbn [map concat packets_of last_opening].
  - now rewrite app_nil_r.
  - destruct Hok as [(_ & Hnil & _) Hds].
    rewrite !concat_app, <- !app_assoc, <- (IH _ Hds).
    unfold chunk_of, completed. destruct prev as [|b prev].
    + rewrite (Hnil eq_refl). cbn [concat app].
      now rewrite <- !app_assoc.
    + cbn [concat]. rewrite app_nil_r, <- !app_assoc. reflexivity.
Qed.

Lemma last_opening_incomplete (ds : list delivery) :
  forall prev : list Z, incomplete prev -> deliveries_ok prev ds ->
    incomplete (last_opening prev ds).
Proof.
  induction ds as [|d ds IH]; intros prev Hp Hok; cbn [last_opening].
  - exact Hp.
  - destruct Hok as [(_ & _ & _ & _ & Ho) Hds]. now apply IH.
Qed.

(** While no more than 24 bytes are buffered the loop does nothing. *)
Lemma trace_guard (fuel : nat) (chain : GWBUF) :
  gwbuf_length chain <= 24 -> ingest_trace fuel chain = ([], chain).
Proof.
  intros Hl. destruct fuel as [|fuel]; cbn [ingest_trace]; [reflexivity|].
  destruct (Z.gtb_spec (gwbuf_length chain) 24); [lia|].
  now rewrite andb_false_r.
Qed.

(** A fragment that lies in two segments stays where it is. *)
Lemma trace_incomplete_two (prev c : list Z) (fuel : nat) :
  prev <> [] -> c <> [] -> incomplete (prev ++ c) ->
  ingest_trace fuel [prev; c] = ([], [prev; c]).
Proof.
  intros Hprev Hc Hinc.
  destruct (Z.le_gt_cases (gwbuf_length [prev; c]) 24) as [Hs|Hlong];
    [now apply trace_guard|].
  destruct fuel as [|fuel]; [reflexivity|].
  unfold gwbuf_length in Hlong. cbn [concat] in Hlong.
  rewrite app_nil_r in Hlong.
  pose proof (incomplete_length (prev ++ c) Hinc ltac:(lia)) as Hlen.
  destruct Hinc as (u & Hu & [Hb _]).
  rewrite firstn_3_app in Hb by lia.
  rewrite extract_field_24 in Hlen by (assumption || lia).
  assert (Hpl : packet_length [prev; c]
                = le_value (firstn 3 (prev ++ c)) + 4).
  { apply packet_length_two; try assumption.
    rewrite length_app in Hlong. lia. }
  cbn [ingest_trace is_null negb andb]. rewrite Hpl.
  unfold gwbuf_length, GWBUF_LENGTH, GWBUF_DATA. cbn [concat hd].
  rewrite app_nil_r.
  destruct (Z.gtb_spec (Z.of_nat (length (prev ++ c))) 24); [|lia].
  rewrite length_app in *.
  destruct (Z.ltb_spec (Z.of_nat (length prev))
              (le_value (firstn 3 (prev ++ c)) + 4)); [|lia].
  destruct (Z.geb_spec (Z.of_nat (length prev + length c))
              (le_value (firstn 3 (prev ++ c)) + 4)); [lia|].
  reflexivity.
Qed.

Lemma incomplete_nil : incomplete [].
Proof.
  exists [0; 0; 0; 0]. split; [discriminate|].
  split; [repeat constructor; unfold is_byte; lia | reflexivity].
Qed.

(** ** The loop against the reassembly of the byte stream *)

Lemma spec_reassemble_fuel (keep : Z) (f1 : nat) :
  forall (f2 : nat) (s : list Z),
    Forall is_byte s -> (length s <= f1)%nat -> (length s <= f2)%nat ->
    spec_reassemble keep f1 s = spec_reassemble keep f2 s.
Proof.
  induction f1 as [|f1 IH]; intros f2 s Hb H1 H2.
  - destruct s; [|cbn in H1; lia].
    destruct f2; cbn; [reflexivity|]. now destruct (0 >? keep).
  - destruct f2 as [|f2].
    + destruct s; [|cbn in H2; lia]. cbn. now destruct (0 >? keep).
    + cbn [spec_reassemble].
      destruct (Z.of_nat (length s) >? keep); [|reflexivity].
      assert (H0 : 0 <= le_value (firstn 3 s)).
      { apply le_value_nonneg.
        rewrite <- (firstn_skipn 3 s) in Hb.
        now apply Forall_app in Hb. }
      destruct (Z.geb_spec (Z.of_nat (length s))
                  (le_value (firstn 3 s) + 4)) as [Hge|Hlt];
        [|reflexivity].
      rewrite (IH f2); [reflexivity | | |].
      * rewrite <- (firstn_skipn (Z.to_nat (le_value (firstn 3 s) + 4)) s)
          in Hb.
        now apply Forall_app in Hb.
      * rewrite length_skipn. lia.
      * rewrite length_skipn. lia.
Qed.

(** The length the loop computes is the length the stream spells. *)
Lemma packet_length_stream (seg : list Z) (rest : GWBUF) :
  seg <> [] ->
  (3 <= length seg)%nat
  \/ 3 - Z.of_nat (length seg) <= GWBUF_LENGTH rest ->
  Forall is_byte (firstn 3 (concat (seg :: rest))) ->
  packet_length (seg :: rest)
  = le_value (firstn 3 (concat (seg :: rest))) + 4.
Proof.
  intros Hne Hlen Hb. cbn [concat] in *.
  destruct (Nat.le_gt_cases 3 (length seg)) as [H3|H3].
  - rewrite firstn_3_app in * by exact H3.
    rewrite packet_length_head by exact H3.
    now rewrite extract_field_24.
  - destruct Hlen as [Hlen|Hlen]; [lia|].
    destruct rest as [|c x].
    { unfold GWBUF_LENGTH, GWBUF_DATA in Hlen. cbn [hd length] in Hlen.
      lia. }
    unfold GWBUF_LENGTH, GWBUF_DATA in Hlen. cbn [hd] in Hlen.
    cbn [concat] in *. rewrite app_assoc in *.
    rewrite firstn_3_app in * by (rewrite length_app; lia).
    apply packet_length_two; [exact Hne | lia | exact Hb].
Qed.

Lemma consume_stream (seg : list Z) (rest : GWBUF) (n : Z) :
  0 <= n <= Z.of_nat (length seg) ->
  concat (gwbuf_consume (seg :: rest) n)
  = skipn (Z.to_nat n) (concat (seg :: rest)).
Proof.
  intros Hn. unfold gwbuf_consume. cbn [concat].
  destruct (Z.geb_spec n (Z.of_nat (length seg))) as [Hge|Hlt].
  - assert (Hnn : Z.to_nat n = length seg) by lia.
    rewrite Hnn, skipn_app, skipn_all, Nat.sub_diag. reflexivity.
  - cbn [concat]. rewrite skipn_app.
    replace (Z.to_nat n - length seg)%nat with 0%nat by lia.
    reflexivity.
Qed.

(** The copy and the two calls of [gwbuf_consume] of the copy branch. *)
Lemma spanning_stream (seg : list Z) (rest : GWBUF) (len : Z) :
  Z.of_nat (length seg) < len ->
  len - Z.of_nat (length seg) <= GWBUF_LENGTH rest ->
  spanning_message (seg :: rest) len
  = firstn (Z.to_nat len) (concat (seg :: rest))
  /\ concat (gwbuf_consume (gwbuf_consume (seg :: rest)
                                          (GWBUF_LENGTH (seg :: rest)))
                           (len - GWBUF_LENGTH (seg :: rest)))
     = skipn (Z.to_nat len) (concat (seg :: rest)).
Proof.
  intros Hlt Hnext.
  destruct rest as [|c x].
  { unfold GWBUF_LENGTH, GWBUF_DATA in Hnext. cbn [hd length] in Hnext.
    lia. }
  unfold spanning_message, GWBUF_LENGTH, GWBUF_DATA, memcpy in *.
  cbn [hd tl concat] in *.
  set (k := Z.to_nat (len - Z.of_nat (length seg))).
  assert (Hk : Z.to_nat len = (length seg + k)%nat) by (subst k; lia).
  split.
  - rewrite Nat2Z.id, firstn_all, Hk.
    rewrite firstn_app_2. f_equal.
    rewrite firstn_app.
    replace (k - length c)%nat with 0%nat by (subst k; lia).
    now rewrite firstn_O, app_nil_r.
  - assert (Hfirst : gwbuf_consume (seg :: c :: x) (Z.of_nat (length seg))
                     = c :: x).
    { unfold gwbuf_consume.
      destruct (Z.geb_spec (Z.of_nat (length seg))
                  (Z.of_nat (length seg))); [reflexivity | lia]. }
    rewrite Hfirst, consume_stream by lia.
    fold k. rewrite Hk.
    rewrite skipn_app, Nat.add_comm.
    rewrite <- (skipn_skipn k (length seg) seg), skipn_all, skipn_nil.
    replace (k + length seg - length seg)%nat with k by lia.
    reflexivity.
Qed.

(** The packet a pointer stands for, when three bytes are there. *)
Lemma packet_at_firstn (ptr : list Z) :
  (3 <= length ptr)%nat -> Forall is_byte (firstn 3 ptr) ->
  packet_at ptr = firstn (Z.to_nat (le_value (firstn 3 ptr) + 4)) ptr.
Proof.
  intros H3 Hb. unfold packet_at. now rewrite extract_field_24.
Qed.

Lemma Forall_skipn_bytes (n : nat) (s : list Z) :
  Forall is_byte s -> Forall is_byte (skipn n s).
Proof.
  intros H. rewrite <- (firstn_skipn n s) in H.
  now apply Forall_app in H.
Qed.

Lemma Forall_firstn_bytes (n : nat) (s : list Z) :
  Forall is_byte s -> Forall is_byte (firstn n s).
Proof.
  intros H. rewrite <- (firstn_skipn n s) in H.
  now apply Forall_app in H.
Qed.

(** On a chain whose reads are defined the loop extracts what the
    reassembly of the stream, stopping at 24 bytes, extracts from the
    bytes of the chain, and leaves the bytes it leaves. *)
Lemma trace_refines (n : nat) :
  forall (fuel f2 : nat) (chain : GWBUF),
    (ingest_measure chain < n)%nat -> (n <= fuel)%nat ->
    (length (concat chain) <= f2)%nat ->
    Forall is_byte (concat chain) ->
    ingest_defined fuel chain = true ->
    map packet_at (fst (ingest_trace fuel chain))
    = fst (spec_reassemble 24 f2 (concat chain))
    /\ concat (snd (ingest_trace fuel chain))
       = snd (spec_reassemble 24 f2 (concat chain)).
Proof.
  induction n as [|n IH]; intros fuel f2 chain Hm Hf Hf2 Hb Hdef; [lia|].
  destruct fuel as [|fuel]; [lia|].
  cbn [ingest_trace ingest_defined] in *.
  destruct chain as [|seg rest].
  { cbn. destruct f2; split; reflexivity. }
  cbn [is_null negb andb] in *.
  unfold gwbuf_length in *.
  set (s := concat (seg :: rest)) in *.
  destruct (Z.gtb_spec (Z.of_nat (length s)) 24) as [Hlong|Hshort].
  2: { cbn [fst snd map]. fold s.
       destruct f2 as [|f2]; [split; reflexivity|].
       cbn [spec_reassemble].
       destruct (Z.gtb_spec (Z.of_nat (length s)) 24); [lia|].
       split; reflexivity. }
  destruct f2 as [|f2]; [lia|].
  cbn [spec_reassemble].
  destruct (Z.gtb_spec (Z.of_nat (length s)) 24) as [_|]; [|lia].
  apply andb_prop in Hdef. destruct Hdef as [Hturn Hdef].
  unfold turn_defined in Hturn. cbv zeta in Hturn.
  apply andb_prop in Hturn. destruct Hturn as [Hturn Hcopy].
  apply andb_prop in Hturn. destruct Hturn as [Hhead Hlenb].
  assert (Hseg : seg <> []).
  { intros ->. unfold GWBUF_LENGTH, GWBUF_DATA in Hhead. cbn in Hhead.
    discriminate. }
  assert (Hb3 : Forall is_byte (firstn 3 s))
    by (apply Forall_firstn_bytes; exact Hb).
  assert (Hlen : packet_length (seg :: rest)
                 = le_value (firstn 3 s) + 4).
  { apply packet_length_stream; [exact Hseg | | exact Hb3].
    apply Bool.orb_prop in Hlenb. destruct Hlenb as [H|H].
    - left. unfold GWBUF_LENGTH, GWBUF_DATA in H. cbn [hd] in H. lia.
    - right. unfold GWBUF_LENGTH, GWBUF_DATA in H. cbn [hd tl] in H.
      unfold GWBUF_LENGTH, GWBUF_DATA. lia. }
  pose proof (le_value_nonneg _ Hb3) as Hnn.
  rewrite Hlen in *.
  set (len := le_value (firstn 3 s) + 4) in *.
  assert (Hres : GWBUF_LENGTH (seg :: rest) = Z.of_nat (length seg))
    by reflexivity.
  assert (Hs : length s = (length seg + length (concat rest))%nat)
    by (subst s; cbn [concat]; now rewrite length_app).
  destruct (Z.ltb_spec (GWBUF_LENGTH (seg :: rest)) len) as [Hlt|Hge];
    cbn [andb] in *.
  - destruct (Z.geb_spec (Z.of_nat (length s)) len) as [Hall|Hpart].
    + (* the copy branch *)
      assert (Hnext : len - Z.of_nat (length seg) <= GWBUF_LENGTH rest).
      { unfold gwbuf_length in Hcopy. fold s in Hcopy.
        destruct (Z.geb_spec (Z.of_nat (length s)) len) in Hcopy; [|lia].
        cbn [negb orb tl] in Hcopy. rewrite Hres in Hcopy. lia. }
      rewrite Hres in Hlt.
      destruct (spanning_stream seg rest len Hlt Hnext) as [Hmsg Hcons].
      fold s in Hmsg, Hcons.
      cbn [fst snd map].
      destruct (IH fuel f2
                  (gwbuf_consume
                     (gwbuf_consume (seg :: rest) (GWBUF_LENGTH (seg :: rest)))
                     (len - GWBUF_LENGTH (seg :: rest))))
        as [IH1 IH2].
      * pose proof (consume_measure_le
                      (gwbuf_consume (seg :: rest)
                                     (GWBUF_LENGTH (seg :: rest)))
                      (len - GWBUF_LENGTH (seg :: rest))).
        pose proof (consume_measure_lt (seg :: rest)
                      (GWBUF_LENGTH (seg :: rest)) eq_refl
                      (or_intror (Z.le_refl _))).
        lia.
      * lia.
      * rewrite Hcons, length_skipn. lia.
      * rewrite Hcons. now apply Forall_skipn_bytes.
      * exact Hdef.
      * rewrite IH1, IH2, Hcons, Hmsg. split; [|reflexivity].
        f_equal.
        assert (Hl : length (firstn (Z.to_nat len) s) = Z.to_nat len)
          by (rewrite length_firstn; lia).
        assert (H3' : firstn 3 (firstn (Z.to_nat len) s) = firstn 3 s)
          by (rewrite firstn_firstn; f_equal; lia).
        rewrite packet_at_firstn; [| lia | rewrite H3'; exact Hb3].
        rewrite H3'. fold len.
        rewrite firstn_firstn, Nat.min_id. reflexivity.
    + (* the packet is not all there *)
      cbn [fst snd map]. fold s. split; reflexivity.
  - (* the packet is in the head segment *)
    rewrite Hres in Hge.
    destruct (Z.geb_spec (Z.of_nat (length s)) len) as [_|]; [|lia].
    cbn [fst snd map].
    assert (Hcons : concat (gwbuf_consume (seg :: rest) len)
                    = skipn (Z.to_nat len) s)
      by (apply consume_stream; lia).
    destruct (IH fuel f2 (gwbuf_consume (seg :: rest) len))
      as [IH1 IH2].
    * pose proof (consume_measure_lt (seg :: rest) len eq_refl).
      lia.
    * lia.
    * rewrite Hcons, length_skipn. lia.
    * rewrite Hcons. now apply Forall_skipn_bytes.
    * exact Hdef.
    * rewrite IH1, IH2, Hcons. split; [|reflexivity].
      f_equal. unfold GWBUF_DATA. cbn [hd].
      assert (H3 : firstn 3 seg = firstn 3 s)
        by (subst s; cbn [concat]; rewrite firstn_3_app; [reflexivity|lia]).
      rewrite packet_at_firstn; [| lia | rewrite H3; exact Hb3].
      rewrite H3. fold len. subst s. cbn [concat].
      rewrite firstn_app.
      replace (Z.to_nat len - length seg)%nat with 0%nat by lia.
      now rewrite firstn_O, app_nil_r.
Qed.

(** A chain of at most two segments, none of them empty, is read within
    what is there, whatever it holds. *)
Lemma two_segments_defined (n : nat) :
  forall (fuel : nat) (chain : GWBUF),
    (ingest_measure chain < n)%nat ->
    (length chain <= 2)%nat -> Forall (fun seg => seg <> []) chain ->
    ingest_defined fuel chain = true.
Proof.
  induction n as [|n IH]; intros fuel chain Hm H2 Hne; [lia|].
  destruct fuel as [|fuel]; [reflexivity|].
  cbn [ingest_defined].
  destruct chain as [|seg rest]; [reflexivity|].
  cbn [is_null negb andb].
  destruct (Z.gtb_spec (gwbuf_length (seg :: rest)) 24) as [Hlong|];
    [|reflexivity].
  inversion Hne as [|? ? Hseg Hrest]; subst.
  assert (Hres : GWBUF_LENGTH (seg :: rest) = Z.of_nat (length seg))
    by reflexivity.
  assert (Hpos : 0 < Z.of_nat (length seg))
    by (destruct seg; [contradiction | cbn; lia]).
  assert (Htot : gwbuf_length (seg :: rest)
                 = Z.of_nat (length seg) + GWBUF_LENGTH rest).
  { unfold gwbuf_length, GWBUF_LENGTH, GWBUF_DATA. cbn [concat].
    rewrite length_app.
    destruct rest as [|c [|d x]]; cbn [concat hd length] in *;
      rewrite ?app_nil_r; lia. }
  pose proof (packet_length_min (seg :: rest)) as Hmin.
  assert (Hturn : turn_defined (seg :: rest) = true).
  { unfold turn_defined. cbv zeta. cbn [tl]. rewrite Hres.
    apply andb_true_intro. split; [apply andb_true_intro; split|].
    - apply Z.gtb_lt. exact Hpos.
    - apply Bool.orb_true_iff.
      destruct (Z.geb_spec (Z.of_nat (length seg)) 3); [now left|].
      right. apply Z.leb_le. lia.
    - apply Bool.orb_true_iff.
      destruct (Z.ltb_spec (Z.of_nat (length seg))
                  (packet_length (seg :: rest))); cbn [andb negb];
        [|now left].
      destruct (Z.geb_spec (gwbuf_length (seg :: rest))
                  (packet_length (seg :: rest))); cbn [negb];
        [|now left].
      right. apply Z.leb_le. lia. }
  rewrite Hturn. cbn [andb].
  assert (Hkeep : forall k : Z,
             (length (gwbuf_consume (seg :: rest) k) <= 2)%nat
             /\ Forall (fun seg => seg <> [])
                       (gwbuf_consume (seg :: rest) k)).
  { intros k. unfold gwbuf_consume.
    destruct (Z.geb_spec k (Z.of_nat (length seg))).
    - split; [cbn in H2; lia | exact Hrest].
    - split; [exact H2|]. constructor; [|exact Hrest].
      intros Hk. apply (f_equal (@length Z)) in Hk.
      rewrite length_skipn in Hk. cbn in Hk. lia. }
  destruct (Z.ltb_spec (GWBUF_LENGTH (seg :: rest))
              (packet_length (seg :: rest))) as [Hlt|Hge]; cbn [andb].
  - destruct (gwbuf_length (seg :: rest) >=? packet_length (seg :: rest));
      [|reflexivity].
    assert (Hfirst : gwbuf_consume (seg :: rest)
                                   (GWBUF_LENGTH (seg :: rest)) = rest).
    { unfold gwbuf_consume. rewrite Hres.
      destruct (Z.geb_spec (Z.of_nat (length seg))
                  (Z.of_nat (length seg))); [reflexivity | lia]. }
    rewrite Hfirst.
    destruct rest as [|c x]; [destruct fuel; reflexivity|].
    inversion Hrest as [|? ? Hc Hx]; subst.
    apply IH.
    + pose proof (consume_measure_le (c :: x)
                    (packet_length (seg :: c :: x)
                     - GWBUF_LENGTH (seg :: c :: x))).
      unfold ingest_measure in *. cbn [concat length] in *.
      rewrite length_app in Hm. lia.
    + unfold gwbuf_consume.
      destruct (_ >=? _); cbn [length] in *; lia.
    + unfold gwbuf_consume.
      destruct (Z.geb_spec (packet_length (seg :: c :: x)
                            - GWBUF_LENGTH (seg :: c :: x))
                  (Z.of_nat (length c))); [exact Hx|].
      constructor; [|exact Hx].
      intros Hk. apply (f_equal (@length Z)) in Hk.
      rewrite length_skipn in Hk. cbn in Hk. lia.
  - destruct (Hkeep (packet_length (seg :: rest))) as [Hk2 Hkne].
    apply IH; [|exact Hk2 | exact Hkne].
    pose proof (consume_measure_lt (seg :: rest)
                  (packet_length (seg :: rest)) eq_refl).
    lia.
Qed.

(** Deliveries in which every packet is longer than 24 bytes and lies
    within one segment or is split between two consecutive ones: the
    loop only ever sees chains of at most two segments. *)
Lemma deliveries_defined (ds : list delivery) :
  forall prev : list Z,
    deliveries_ok prev ds ->
    feed_defined (single prev) (map chunk_of ds) = true.
Proof.
  induction ds as [|d ds IH]; intros prev Hok; [reflexivity|].
  destruct Hok as [Hd Hds].
  cbn [map feed_defined]. cbv zeta.
  assert (Hchain : delivery_chain (single prev) (chunk_of d)
                   = single prev ++ [chunk_of d]).
  { unfold delivery_chain, gwbuf_append.
    destruct prev; reflexivity. }
  rewrite Hchain.
  rewrite trace_delivery
    by (try exact Hd; unfold ingest_fuel, ingest_measure; lia).
  cbn [snd]. rewrite (IH _ Hds), andb_true_r.
  apply (two_segments_defined
           (S (ingest_measure (single prev ++ [chunk_of d])))); [lia| |].
  - destruct prev; cbn; lia.
  - destruct Hd as (Hne & _).
    destruct prev as [|b prev]; cbn [single app];
      repeat constructor; try exact Hne; discriminate.
Qed.

(** The deliveries, one after the other, are the loop run on each chain
    and the handling of what it hands over. *)
Lemma feed_segments_trace (segs : list (list Z)) :
  forall r : ROUTER_INSTANCE,
    feed_segments r segs = replay_trace r (feed_trace (residual r) segs).
Proof.
  induction segs as [|c segs IH]; intros r;
    cbn [feed_segments feed_trace replay_trace fold_left]; [reflexivity|].
  pose proof (handle_binlog_record_trace r [c]) as Ht. cbv zeta in Ht.
  fold (delivery_chain (residual r) c) in Ht.
  fold (feed_segments (blr_handle_binlog_record r [c]) segs).
  rewrite IH, Ht, deliver_as_residual. reflexivity.
Qed.

Lemma feed_segments_residual (segs : list (list Z)) :
  forall r : ROUTER_INSTANCE,
    residual (feed_segments r segs) = feed_rest (residual r) segs.
Proof.
  induction segs as [|c segs IH]; intros r;
    cbn [feed_segments feed_rest fold_left]; [reflexivity|].
  pose proof (handle_binlog_record_trace r [c]) as Ht. cbv zeta in Ht.
  fold (delivery_chain (residual r) c) in Ht.
  fold (feed_segments (blr_handle_binlog_record r [c]) segs).
  rewrite IH, Ht, deliver_as_residual. reflexivity.
Qed.

(** What the reassembly of the stream leaves is left alone by it, and
    bytes that arrive later do not change what was extracted before. *)
Lemma spec_reassemble_app (keep : Z) (f : nat) :
  forall (s t : list Z) (f2 f3 : nat),
    0 <= keep -> Forall is_byte (s ++ t) ->
    (length s <= f)%nat -> (length (s ++ t) <= f2)%nat ->
    (length (snd (spec_reassemble keep f s) ++ t) <= f3)%nat ->
    spec_reassemble keep f2 (s ++ t)
    = (fst (spec_reassemble keep f s)
         ++ fst (spec_reassemble keep f3
                   (snd (spec_reassemble keep f s) ++ t)),
       snd (spec_reassemble keep f3 (snd (spec_reassemble keep f s) ++ t))).
Proof.
  induction f as [|f IH]; intros s t f2 f3 Hk Hb H1 H2 H3.
  - destruct s; [|cbn in H1; lia]. cbn [spec_reassemble fst snd app] in *.
    rewrite (spec_reassemble_fuel keep f2 f3) by assumption.
    now destruct (spec_reassemble keep f3 t).
  - cbn [spec_reassemble] in *.
    assert (Hbs : Forall is_byte s) by (now apply Forall_app in Hb).
    destruct (Z.gtb_spec (Z.of_nat (length s)) keep) as [Hlong|Hshort].
    2: { cbn [fst snd app] in *.
         rewrite (spec_reassemble_fuel keep f2 f3) by assumption.
         now destruct (spec_reassemble keep f3 (s ++ t)). }
    assert (H0 : 0 <= le_value (firstn 3 s))
      by (apply le_value_nonneg; now apply Forall_firstn_bytes).
    destruct (Z.geb_spec (Z.of_nat (length s))
                (le_value (firstn 3 s) + 4)) as [Hall|Hpart].
    2: { cbn [fst snd app] in *.
         rewrite (spec_reassemble_fuel keep f2 f3) by assumption.
         now destruct (spec_reassemble keep f3 (s ++ t)). }
    cbn [fst snd] in *.
    set (len := le_value (firstn 3 s) + 4) in *.
    destruct f2 as [|f2]; [rewrite length_app in H2; lia|].
    cbn [spec_reassemble].
    rewrite length_app in *.
    destruct (Z.gtb_spec (Z.of_nat (length s + length t)) keep); [|lia].
    rewrite firstn_3_app by lia. fold len.
    destruct (Z.geb_spec (Z.of_nat (length s + length t)) len); [|lia].
    assert (Hsk : skipn (Z.to_nat len) (s ++ t)
                  = skipn (Z.to_nat len) s ++ t).
    { rewrite skipn_app.
      replace (Z.to_nat len - length s)%nat with 0%nat by lia.
      reflexivity. }
    assert (Hfi : firstn (Z.to_nat len) (s ++ t) = firstn (Z.to_nat len) s).
    { rewrite firstn_app.
      replace (Z.to_nat len - length s)%nat with 0%nat by lia.
      now rewrite firstn_O, app_nil_r. }
    rewrite Hsk, Hfi.
    rewrite (IH (skipn (Z.to_nat len) s) t f2 f3); try assumption.
    + reflexivity.
    + rewrite <- Hsk. now apply Forall_skipn_bytes.
    + rewrite length_skipn. lia.
    + rewrite length_app, length_skipn. lia.
    + rewrite length_app. lia.
Qed.

Lemma spec_reassemble_rest_length (keep : Z) (f : nat) :
  forall s : list Z,
    (length (snd (spec_reassemble keep f s)) <= length s)%nat.
Proof.
  induction f as [|f IH]; intros s; cbn [spec_reassemble]; [cbn; lia|].
  destruct (_ >? _); [|cbn; lia].
  destruct (_ >=? _); [|cbn; lia].
  cbn [snd]. etransitivity; [apply IH|]. rewrite length_skipn. lia.
Qed.

Lemma spec_reassemble_rest_bytes (keep : Z) (f : nat) :
  forall s : list Z,
    Forall is_byte s -> Forall is_byte (snd (spec_reassemble keep f s)).
Proof.
  induction f as [|f IH]; intros s Hb; cbn [spec_reassemble]; [exact Hb|].
  destruct (_ >? _); [|exact Hb].
  destruct (_ >=? _); [|exact Hb].
  cbn [snd]. apply IH. now apply Forall_skipn_bytes.
Qed.

Lemma stream_app (keep : Z) (s t : list Z) :
  0 <= keep -> Forall is_byte (s ++ t) ->
  stream_packets keep (s ++ t)
  = stream_packets keep s ++ stream_packets keep (stream_rest keep s ++ t)
  /\ stream_rest keep (s ++ t)
     = stream_rest keep (stream_rest keep s ++ t).
Proof.
  intros Hk Hb. unfold stream_packets, stream_rest.
  rewrite (spec_reassemble_app keep (length s) s t (length (s ++ t))
             (length (snd (spec_reassemble keep (length s) s) ++ t)))
    by (assumption || lia).
  split; reflexivity.
Qed.

(** The deliveries against the stream. *)
Lemma feed_refines (segs : list (list Z)) :
  forall res : GWBUF,
    Forall is_byte (concat res ++ concat segs) ->
    feed_defined res segs = true ->
    stream_packets 24 (concat res) = [] ->
    stream_rest 24 (concat res) = concat res ->
    map packet_at (handed (feed_trace res segs))
    = stream_packets 24 (concat res ++ concat segs)
    /\ concat (feed_rest res segs)
       = stream_rest 24 (concat res ++ concat segs).
Proof.
  induction segs as [|c segs IH]; intros res Hb Hdef Hp Hr.
  - cbn [feed_trace feed_rest handed map concat]. rewrite app_nil_r.
    split; [now rewrite Hp | now rewrite Hr].
  - cbn [feed_trace feed_defined feed_rest] in *.
    set (chain := delivery_chain res c) in *.
    apply andb_prop in Hdef. destruct Hdef as [Hdc Hdr].
    assert (Hchain : concat chain = concat res ++ c).
    { subst chain. unfold delivery_chain, gwbuf_append.
      destruct res; cbn [is_null concat app]; [now rewrite app_nil_r|].
      rewrite <- app_assoc, concat_app. cbn [concat].
      now rewrite app_nil_r. }
    cbn [concat] in Hb. rewrite app_assoc in Hb.
    assert (Hbc : Forall is_byte (concat chain))
      by (rewrite Hchain; now apply Forall_app in Hb).
    destruct (trace_refines (ingest_fuel chain) (ingest_fuel chain)
                (length (concat chain)) chain) as [Ht1 Ht2];
      try assumption; try lia.
    { unfold ingest_fuel, ingest_measure. lia. }
    fold (stream_packets 24 (concat chain)) in Ht1.
    fold (stream_rest 24 (concat chain)) in Ht2.
    set (tr := ingest_trace (ingest_fuel chain) chain) in *.
    destruct (stream_app 24 (concat chain) (concat segs)) as [Ha1 Ha2];
      [lia | rewrite Hchain; exact Hb |].
    destruct (IH (snd tr)) as [IH1 IH2].
    + rewrite Ht2. apply Forall_app. split.
      * unfold stream_rest. now apply spec_reassemble_rest_bytes.
      * now apply Forall_app in Hb.
    + exact Hdr.
    + rewrite Ht2.
      destruct (stream_app 24 (concat chain) []) as [Hn1 _];
        [lia | now rewrite app_nil_r|].
      rewrite !app_nil_r in Hn1.
      apply (f_equal (@length (list Z))) in Hn1.
      rewrite length_app in Hn1.
      destruct (stream_packets 24 (stream_rest 24 (concat chain)));
        [reflexivity | cbn in Hn1; lia].
    + rewrite Ht2.
      destruct (stream_app 24 (concat chain) []) as [_ Hn2];
        [lia | now rewrite app_nil_r|].
      rewrite !app_nil_r in Hn2. now rewrite <- Hn2.
    + cbn [handed map concat] in *. fold (handed (feed_trace (snd tr) segs)).
      rewrite map_app, Ht1, IH1, Ht2.
      cbn [concat]. rewrite app_assoc, <- Hchain.
      split; [now rewrite Ha1|].
      rewrite Ha2, <- Ht2. exact IH2.
Qed.

Lemma incomplete_stops (t : list Z) :
  incomplete t -> Z.of_nat (length t) < le_value (firstn 3 t) + 4.
Proof.
  intros (u & Hu & Hb & Hlen).
  rewrite length_app in Hlen.
  assert (Hpos : (0 < length u)%nat)
    by (destruct u; [contradiction | cbn; lia]).
  destruct (Nat.le_gt_cases 3 (length t)) as [H3|H3].
  - rewrite firstn_3_app in Hlen by exact H3. lia.
  - assert (Ht : firstn 3 t = t) by (apply firstn_all2; lia).
    rewrite Ht.
    assert (Hbt : Forall is_byte t).
    { rewrite firstn_app in Hb. apply Forall_app in Hb.
      rewrite Ht in Hb. apply Hb. }
    pose proof (le_value_nonneg t Hbt). lia.
Qed.

(** The reassembly of a stream of whole packets followed by a fragment:
    the packets that start more than [keep] bytes before the end. *)
Lemma stream_of_packets (keep : Z) (qs : list (list Z)) :
  forall (t : list Z) (f : nat),
    0 <= keep -> Forall mysql_packet qs -> incomplete t ->
    (length (concat qs ++ t) <= f)%nat ->
    exists j : nat,
      (j <= length qs)%nat
      /\ spec_reassemble keep f (concat qs ++ t)
         = (firstn j qs, concat (skipn j qs) ++ t)
      /\ (j = length qs
          \/ Z.of_nat (length (concat (skipn j qs) ++ t)) <= keep)
      /\ (forall i : nat, (i < j)%nat ->
            keep < Z.of_nat (length (concat (skipn i qs) ++ t))).
Proof.
  induction qs as [|q qs IH]; intros t f Hk Hqs Ht Hf.
  - exists 0%nat. cbn [concat app firstn skipn length] in *.
    split; [lia|]. split.
    + destruct f as [|f]; [reflexivity|]. cbn [spec_reassemble].
      destruct (_ >? _); [|reflexivity].
      pose proof (incomplete_stops t Ht).
      destruct (Z.geb_spec (Z.of_nat (length t))
                  (le_value (firstn 3 t) + 4)); [lia | reflexivity].
    + split; [now left | intros i Hi; lia].
  - inversion Hqs as [|? ? Hq Hrest]; subst.
    cbn [concat] in *. rewrite <- app_assoc in *.
    set (rest := concat qs ++ t) in *.
    destruct (Z.gtb_spec (Z.of_nat (length (q ++ rest))) keep)
      as [Hlong|Hshort].
    + destruct f as [|f]; [lia|].
      pose proof (mysql_packet_length q Hq) as H4.
      destruct Hq as [Hb Hlen].
      destruct (IH t f Hk Hrest Ht) as (j & Hj & Hsplit & Hstop & Hrun).
      { fold rest. rewrite length_app in Hf. lia. }
      exists (S j). cbn [length firstn skipn concat].
      split; [lia|]. split.
      * cbn [spec_reassemble].
        destruct (Z.gtb_spec (Z.of_nat (length (q ++ rest))) keep); [|lia].
        rewrite firstn_3_app by lia. rewrite <- Hlen.
        rewrite length_app.
        destruct (Z.geb_spec (Z.of_nat (length q + length rest))
                    (Z.of_nat (length q))); [|lia].
        rewrite Nat2Z.id.
        rewrite skipn_app, skipn_all, Nat.sub_diag, skipn_O.
        rewrite firstn_app, firstn_all, Nat.sub_diag, firstn_O, app_nil_r.
        cbn [app]. fold rest in Hsplit. rewrite Hsplit. reflexivity.
      * split.
        -- destruct Hstop as [->|Hstop]; [now left | now right].
        -- intros [|i] Hi.
           ++ cbn [skipn concat]. rewrite <- app_assoc. fold rest. lia.
           ++ cbn [skipn]. apply Hrun. lia.
    + exists 0%nat. cbn [firstn skipn concat].
      rewrite <- app_assoc. fold rest.
      split; [lia|]. split.
      * destruct f as [|f]; [reflexivity|]. cbn [spec_reassemble].
        destruct (Z.gtb_spec (Z.of_nat (length (q ++ rest))) keep);
          [lia | reflexivity].
      * split; [now right | intros i Hi; lia].
Qed.

(** C8, as the code has it.  Take a stream of bytes cut into delivery
    segments, and let every turn of the loop read what is there: the
    head segment is not empty, the three length bytes lie in the head
    segment and the one after it, and a packet that is copied ends in
    the segment after the head; every chain of at most two segments that
    are not empty is of this kind.  Then feeding the segments to
    [blr_handle_binlog_record] hands to the event handling, in order,
    exactly the packets that the reassembly of the specification finds
    in the concatenation when it stops as soon as 24 bytes or fewer are
    left, and the residual holds the bytes that are left.  For a stream
    of whole packets followed by a fragment, the reassembly of the
    specification finds all the packets and leaves the fragment; the
    one that stops at 24 bytes finds the packets that start more than 24
    bytes before the end of the stream, and leaves the other packets,
    which together with the fragment make at most 24 bytes, and the
    fragment: a residual of more than 24 bytes is a strict prefix of the
    next packet.  The same holds for one call on any residual and any
    chain delivered.  Every turn of every call reads what is there when
    the segments are not empty and every packet of the stream is longer
    than 24 bytes and lies within one segment or is split between two
    consecutive ones. *)
Theorem reassembly_of_streams :
  (forall (segs : list (list Z)) (r : ROUTER_INSTANCE),
     residual r = [] -> Forall is_byte (concat segs) ->
     feed_defined [] segs = true ->
     let r' := feed_segments r segs in
     let steps := feed_trace [] segs in
     r' = replay_trace r steps
     /\ map packet_at (handed steps) = stream_packets 24 (concat segs)
     /\ concat (residual r') = stream_rest 24 (concat segs))
  /\ (forall (r : ROUTER_INSTANCE) (pkt : GWBUF),
        let chain := if is_null (residual r) then pkt
                     else gwbuf_append (residual r) pkt in
        let tr := ingest_trace (ingest_fuel chain) chain in
        let r' := blr_handle_binlog_record r pkt in
        Forall is_byte (concat chain) ->
        ingest_defined (ingest_fuel chain) chain = true ->
        r' = deliver_as blr_handle_event r (fst tr) (snd tr)
        /\ map packet_at (fst tr) = stream_packets 24 (concat chain)
        /\ concat (residual r') = stream_rest 24 (concat chain))
  /\ (forall (qs : list (list Z)) (t : list Z),
        Forall mysql_packet qs -> incomplete t ->
        let s := concat qs ++ t in
        stream_packets 0 s = qs /\ stream_rest 0 s = t
        /\ exists j : nat,
             (j <= length qs)%nat
             /\ stream_packets 24 s = firstn j qs
             /\ stream_rest 24 s = concat (skipn j qs) ++ t
             /\ (j = length qs
                 \/ Z.of_nat (length (stream_rest 24 s)) <= 24)
             /\ (forall i : nat, (i < j)%nat ->
                   24 < Z.of_nat (length (concat (skipn i qs) ++ t))))
  /\ (forall (fuel : nat) (chain : GWBUF),
        (length chain <= 2)%nat -> Forall (fun seg => seg <> []) chain ->
        ingest_defined fuel chain = true)
  /\ (forall ds : list delivery,
        deliveries_ok [] ds -> feed_defined [] (map chunk_of ds) = true).
Proof.
  split; [|split; [|split; [|split]]].
  5: { intros ds Hok. exact (deliveries_defined ds [] Hok). }
  - intros segs r Hres Hb Hdef r' steps. subst r' steps.
    rewrite feed_segments_residual, Hres.
    destruct (feed_refines segs []) as [H1 H2];
      try assumption; try reflexivity.
    split; [rewrite feed_segments_trace, Hres; reflexivity|].
    split; [exact H1 | exact H2].
  - intros r pkt chain tr r' Hb Hdef. subst r'.
    pose proof (handle_binlog_record_trace r pkt) as Ht. cbv zeta in Ht.
    fold chain in Ht. fold tr in Ht.
    rewrite Ht, deliver_as_residual.
    destruct (trace_refines (ingest_fuel chain) (ingest_fuel chain)
                (length (concat chain)) chain) as [H1 H2];
      try assumption; try lia.
    { unfold ingest_fuel, ingest_measure. lia. }
    split; [reflexivity|]. split; [exact H1 | exact H2].
  - intros qs t Hqs Ht s. subst s.
    unfold stream_packets, stream_rest.
    destruct (stream_of_packets 0 qs t (length (concat qs ++ t)))
      as (j0 & Hj0 & Hs0 & Hstop0 & _); try assumption; try lia.
    destruct (stream_of_packets 24 qs t (length (concat qs ++ t)))
      as (j & Hj & Hs & Hstop & Hrun); try assumption; try lia.
    rewrite Hs0, Hs. cbn [fst snd].
    assert (Hall : j0 = length qs).
    { destruct Hstop0 as [H|H]; [exact H|].
      destruct (Nat.eq_dec j0 (length qs)) as [He|Hne]; [exact He|].
      assert (Hnth : exists q qs', skipn j0 qs = q :: qs').
      { destruct (skipn j0 qs) as [|q qs'] eqn:Hsk.
        - apply (f_equal (@length (list Z))) in Hsk.
          rewrite length_skipn in Hsk. cbn in Hsk. lia.
        - now exists q, qs'. }
      destruct Hnth as (q & qs' & Hsk).
      assert (Hq : mysql_packet q).
      { rewrite Forall_forall in Hqs. apply Hqs.
        rewrite <- (firstn_skipn j0 qs), Hsk.
        apply in_or_app. right. now left. }
      pose proof (mysql_packet_length q Hq).
      rewrite Hsk in H. cbn [concat] in H. rewrite !length_app in H.
      lia. }
    subst j0. rewrite firstn_all, skipn_all.
    split; [reflexivity|]. split; [reflexivity|].
    exists j. auto 10.
  - intros fuel chain H2 Hne.
    apply (two_segments_defined (S (ingest_measure chain)));
      [lia | exact H2 | exact Hne].
Qed.

(** * Further properties of the code *)

(** ** The codec beyond the round trip *)

Lemma encode_loop_length (fuel : nat) :
  forall v len : Z,
    (Z.to_nat ((len + 7) / 8) <= fuel)%nat ->
    length (encode_loop fuel v len) = Z.to_nat ((len + 7) / 8)
    /\ Forall is_byte (encode_loop fuel v len).
Proof.
  induction fuel as [|fuel IH]; intros v len Hf; cbn [encode_loop].
  - split; [cbn; lia | constructor].
  - destruct (Z.gtb_spec len 0) as [Hpos|Hneg].
    + assert (Hd : (len - 8 + 7) / 8 = (len + 7) / 8 - 1).
      { replace (len - 8 + 7) with (len + 7 + (-1) * 8) by lia.
        rewrite Z.div_add by lia. lia. }
      assert (H1 : 1 <= (len + 7) / 8)
        by (apply Z.div_le_lower_bound; lia).
      destruct (IH (Z.shiftr v 8) (len - 8)) as [Hl Hb];
        [rewrite Hd; lia|].
      split.
      * cbn [length]. rewrite Hl, Hd. lia.
      * constructor; [|exact Hb].
        rewrite land_255. unfold is_byte. apply Z.mod_pos_bound. lia.
    + assert (Hz : (len + 7) / 8 <= 0).
      { assert ((len + 7) / 8 < 1); [|lia].
        apply Z.div_lt_upper_bound; lia. }
      split; [cbn; lia | constructor].
Qed.

(** X1.  [encode_value] stores one byte for every started group of 8 bits
    of [len], each in the range of a byte, and nothing at all when [len]
    is zero or negative. *)
Theorem encode_value_size (v len : Z) :
  length (encode_value v len) = Z.to_nat ((len + 7) / 8)
  /\ Forall is_byte (encode_value v len)
  /\ (len <= 0 -> encode_value v len = []).
Proof.
  unfold encode_value.
  assert (Hf : (Z.to_nat ((len + 7) / 8) <= Z.to_nat len)%nat).
  { destruct (Z.le_gt_cases len 0) as [Hn|Hp].
    - assert ((len + 7) / 8 < 1) by (apply Z.div_lt_upper_bound; lia). lia.
    - assert ((len + 7) / 8 <= len); [|lia].
      apply Z.div_le_upper_bound; lia. }
  destruct (encode_loop_length (Z.to_nat len) (wrap32 v) len Hf) as [Hl Hb].
  split; [exact Hl|]. split; [exact Hb|].
  intros Hn.
  assert (Hz : (len + 7) / 8 < 1) by (apply Z.div_lt_upper_bound; lia).
  destruct (encode_loop (Z.to_nat len) (wrap32 v) len); [reflexivity|].
  cbn [length] in Hl. lia.
Qed.

(** X2.  A value that does not fit the width is cut to its low bits:
    reading back [w] bits of what [encode_value] stored for any [v] gives
    [v mod 2^w], at the widths 8, 16, 24 and 32. *)
Theorem encode_value_truncates (w v : Z) :
  In w [8; 16; 24; 32] ->
  forall rest : list Z,
    extract_field (encode_value v w ++ rest) w = v mod 2 ^ w.
Proof.
  intros Hw rest.
  assert (Hn : exists n : nat, (n <= 4)%nat /\ w = 8 * Z.of_nat n).
  { cbn in Hw. destruct Hw as [H|[H|[H|[H|[]]]]]; subst w;
      [exists 1%nat | exists 2%nat | exists 3%nat | exists 4%nat];
      split; reflexivity || lia. }
  destruct Hn as (n & Hn & ->).
  rewrite encode_value_le, extract_field_le_bytes.
  - now apply wrap32_mod_pow2.
  - exact Hn.
  - apply wrap32_range.
Qed.

(** X3.  A field of [n] bytes, up to four, read from a packet lies below
    [2^(8n)], and only these [n] bytes count: what follows them does not
    change the value. *)
Theorem extract_field_bounded (n : nat) (src : list Z) :
  (n <= 4)%nat -> (n <= length src)%nat -> Forall is_byte (firstn n src) ->
  0 <= extract_field src (8 * Z.of_nat n) < 2 ^ (8 * Z.of_nat n)
  /\ forall rest : list Z,
       extract_field (firstn n src ++ rest) (8 * Z.of_nat n)
       = extract_field src (8 * Z.of_nat n).
Proof.
  intros Hn Hl Hb.
  assert (Hlen : length (firstn n src) = n)
    by (rewrite length_firstn; lia).
  split.
  - rewrite extract_field_le by assumption.
    pose proof (le_value_bound _ Hb) as Hv. rewrite Hlen in Hv. exact Hv.
  - intros rest.
    assert (Hf : firstn n (firstn n src ++ rest) = firstn n src).
    { rewrite firstn_app, Hlen, Nat.sub_diag.
      rewrite firstn_firstn, Nat.min_id. cbn [firstn].
      now rewrite app_nil_r. }
    rewrite !extract_field_le; try assumption.
    + now rewrite Hf.
    + rewrite length_app. lia.
    + now rewrite Hf.
Qed.

(** ** The builders of the handshake packets *)

Lemma bytes_of_string_length (s : string) :
  length (bytes_of_string s) = String.length s.
Proof.
  unfold bytes_of_string. rewrite length_map.
  induction s as [|c s IH]; cbn; [reflexivity | now rewrite IH].
Qed.

Lemma skipn_prefix (p q : list Z) (n : nat) :
  length p = n -> skipn n (p ++ q) = q.
Proof.
  intros <-. rewrite skipn_app, skipn_all, Nat.sub_diag. reflexivity.
Qed.

(** X4.  For a query text whose length fits the 24-bit length field,
    [blr_make_query] gives one buffer of [strlen + 5] bytes: the payload
    length [strlen + 1], sequence id 0, the [COM_QUERY] byte and the text
    itself with no terminator; every store lies within the buffer, the
    length field reads back as [strlen + 1] and the packet does not look
    like an error packet. *)
Theorem query_packet_layout (query : string) :
  strlen query + 1 < 2 ^ 24 ->
  blr_make_query query
  = [le_bytes 3 (strlen query + 1) ++ [0] ++ [COM_QUERY]
       ++ bytes_of_string query]
  /\ Forall (in_bounds (Z.to_nat (strlen query + 5)))
            (blr_make_query_writes query)
  /\ gwbuf_length (blr_make_query query) = strlen query + 5
  /\ extract_field (GWBUF_DATA (blr_make_query query)) 24 = strlen query + 1
  /\ skipn 5 (GWBUF_DATA (blr_make_query query)) = bytes_of_string query
  /\ not_error (blr_make_query query).
Proof.
  intros Hlen.
  assert (Hs : 0 <= strlen query) by (unfold strlen; lia).
  assert (Hcopy : memcpy (bytes_of_string query) (strlen query)
                  = bytes_of_string query).
  { unfold memcpy, strlen. rewrite Nat2Z.id.
    apply firstn_all2. now rewrite bytes_of_string_length. }
  assert (Hsize : Z.to_nat (strlen query + 5)
                  = (3 + (1 + (1 + String.length query)))%nat)
    by (unfold strlen; lia).
  assert (Hpkt : blr_make_query query
      = [le_bytes 3 (strlen query + 1) ++ [0] ++ [COM_QUERY]
           ++ bytes_of_string query]).
  { unfold blr_make_query, blr_make_query_writes.
    rewrite fill_contiguous.
    - cbn [map snd concat].
      rewrite encode_value_24, Hcopy, wrap32_small, app_nil_r by lia.
      reflexivity.
    - cbn [contiguous fst snd].
      rewrite encode_value_24, le_bytes_length. cbn [length Nat.add].
      repeat split; reflexivity.
    - cbn [map snd concat].
      rewrite !length_app, encode_value_24, le_bytes_length, Hcopy,
        bytes_of_string_length, Hsize. cbn [length]. lia. }
  split; [exact Hpkt|].
  split.
  { unfold blr_make_query_writes.
    repeat (apply Forall_cons || apply Forall_nil);
      unfold in_bounds; cbn [fst snd];
      rewrite ?encode_value_24, ?le_bytes_length, ?Hcopy,
        ?bytes_of_string_length, Hsize; cbn [length]; lia. }
  rewrite Hpkt. unfold GWBUF_DATA, gwbuf_length. cbn [hd concat].
  split.
  { rewrite app_nil_r, !length_app, le_bytes_length,
      bytes_of_string_length. cbn [length]. unfold strlen. lia. }
  split.
  { change 24 with (8 * Z.of_nat 3).
    rewrite extract_field_le_bytes by lia.
    apply Z.mod_small. change (8 * Z.of_nat 3) with 24. lia. }
  split.
  { replace (le_bytes 3 (strlen query + 1) ++ [0] ++ [COM_QUERY]
               ++ bytes_of_string query)
      with ((le_bytes 3 (strlen query + 1) ++ [0] ++ [COM_QUERY])
              ++ bytes_of_string query)
      by (rewrite <- !app_assoc; reflexivity).
    apply skipn_prefix.
    rewrite !length_app, le_bytes_length. reflexivity. }
  unfold not_error, MYSQL_RESPONSE_ERR, GWBUF_DATA. cbn [hd].
  cbn [le_bytes app nth]. reflexivity.
Qed.

Lemma registration_packet (router : ROUTER_INSTANCE) :
  blr_make_registration router
  = [(le_bytes 3 18 ++ [0] ++ [COM_REGISTER_SLAVE])
       ++ le_bytes 4 (wrap32 (serverid router))
       ++ [0; 0; 0]
       ++ le_bytes 2 (wrap32 (port router))
       ++ le_bytes 4 0
       ++ le_bytes 4 (wrap32 (masterid router))].
Proof.
  unfold blr_make_registration, blr_make_registration_writes.
  rewrite fill_contiguous.
  - cbn [map snd concat].
    rewrite encode_value_24, !encode_value_32, encode_value_16.
    rewrite app_nil_r, <- !app_assoc. reflexivity.
  - cbn [contiguous fst snd].
    rewrite encode_value_24, !encode_value_32, encode_value_16,
      !le_bytes_length. cbn [length Nat.add]. repeat split; reflexivity.
  - cbn [map snd concat].
    rewrite !length_app, encode_value_24, !encode_value_32,
      encode_value_16, !le_bytes_length.
    reflexivity.
Qed.

(** X5.  [blr_make_registration] gives one buffer of 22 bytes for any
    router: payload length 18, sequence id 0, [COM_REGISTER_SLAVE], then
    the server id in 32 bits, three zero bytes, the port in 16 bits, four
    zero bytes and the master id in 32 bits.  Every store lies within the
    buffer, and the fields read back at offsets 5, 12 and 18 are the
    router's server id and master id modulo [2^32] and its port modulo
    [2^16]. *)
Theorem registration_packet_fields (router : ROUTER_INSTANCE) :
  let data := GWBUF_DATA (blr_make_registration router) in
  Forall (in_bounds (Z.to_nat (18 + 4))) (blr_make_registration_writes router)
  /\ gwbuf_length (blr_make_registration router) = 22
  /\ firstn 5 data = [18; 0; 0; 0; COM_REGISTER_SLAVE]
  /\ extract_field (skipn 5 data) 32 = serverid router mod 2 ^ 32
  /\ firstn 3 (skipn 9 data) = [0; 0; 0]
  /\ extract_field (skipn 12 data) 16 = port router mod 2 ^ 16
  /\ extract_field (skipn 14 data) 32 = 0
  /\ extract_field (skipn 18 data) 32 = masterid router mod 2 ^ 32
  /\ not_error (blr_make_registration router).
Proof.
  intros data. subst data. split.
  { unfold blr_make_registration_writes.
    repeat (apply Forall_cons || apply Forall_nil);
      unfold in_bounds; cbn [fst snd];
      rewrite ?encode_value_24, ?encode_value_32, ?encode_value_16,
        ?le_bytes_length;
      change (Z.to_nat (18 + 4)) with 22%nat; cbn [length]; lia. }
  rewrite registration_packet.
  unfold GWBUF_DATA, gwbuf_length. cbn [hd concat].
  split.
  { rewrite app_nil_r, !length_app, !le_bytes_length. reflexivity. }
  split; [reflexivity|].
  split.
  { rewrite skipn_prefix by reflexivity.
    change 32 with (8 * Z.of_nat 4) at 1.
    rewrite extract_field_le_bytes by (lia || apply wrap32_range).
    apply (wrap32_mod_pow2 _ 4). lia. }
  split.
  { rewrite app_assoc, skipn_prefix
      by (rewrite length_app, le_bytes_length; reflexivity).
    reflexivity. }
  split.
  { rewrite 2 app_assoc, skipn_prefix
      by (rewrite !length_app, le_bytes_length; reflexivity).
    change 16 with (8 * Z.of_nat 2) at 1.
    rewrite extract_field_le_bytes by (lia || apply wrap32_range).
    apply (wrap32_mod_pow2 _ 2). lia. }
  split.
  { rewrite 3 app_assoc, skipn_prefix
      by (rewrite !length_app, !le_bytes_length; reflexivity).
    change 32 with (8 * Z.of_nat 4) at 1.
    now rewrite extract_field_le_bytes by lia. }
  split.
  { rewrite 4 app_assoc, skipn_prefix
      by (rewrite !length_app, !le_bytes_length; reflexivity).
    rewrite <- (app_nil_r (le_bytes 4 (wrap32 (masterid router)))).
    change 32 with (8 * Z.of_nat 4) at 1.
    rewrite extract_field_le_bytes by (lia || apply wrap32_range).
    apply (wrap32_mod_pow2 _ 4). lia. }
  reflexivity.
Qed.

Lemma binlog_dump_packet (router : ROUTER_INSTANCE) :
  BINLOG_FNAMELEN = dump_name_width ->
  blr_make_binlog_dump router
  = [(le_bytes 3 0x1b ++ [0] ++ [COM_BINLOG_DUMP])
       ++ le_bytes 4 (wrap32 (binlog_position router))
       ++ le_bytes 2 0
       ++ le_bytes 4 (wrap32 (serverid router))
       ++ strncpy (binlog_name router) BINLOG_FNAMELEN].
Proof.
  intros Hw.
  unfold blr_make_binlog_dump, blr_make_binlog_dump_writes.
  rewrite fill_contiguous.
  - cbn [map snd concat].
    rewrite encode_value_24, !encode_value_32, encode_value_16.
    rewrite app_nil_r, <- !app_assoc. reflexivity.
  - cbn [contiguous fst snd].
    rewrite encode_value_24, !encode_value_32, encode_value_16,
      !le_bytes_length. cbn [length Nat.add]. repeat split; reflexivity.
  - cbn [map snd concat].
    rewrite !length_app, encode_value_24, !encode_value_32,
      encode_value_16, !le_bytes_length, strncpy_length, Hw.
    reflexivity.
Qed.

(** X6.  What a master reads in the binlog dump command, with the name
    field 16 bytes wide: the start position is the router's position
    modulo [2^32], so a position of [2^32] or more is requested cut to
    its low 32 bits; the flags are 0; the server id is the router's
    modulo [2^32]; and the name field holds the first 16 characters of
    the binlog name, followed by NULs only when the name is shorter. *)
Theorem binlog_dump_fields (router : ROUTER_INSTANCE) :
  BINLOG_FNAMELEN = dump_name_width ->
  let data := GWBUF_DATA (blr_make_binlog_dump router) in
  extract_field (skipn 5 data) 32 = binlog_position router mod 2 ^ 32
  /\ extract_field (skipn 9 data) 16 = 0
  /\ extract_field (skipn 11 data) 32 = serverid router mod 2 ^ 32
  /\ firstn (length (cstr (binlog_name router))) (skipn 15 data)
     = firstn 16 (cstr (binlog_name router))
  /\ ((16 <= length (cstr (binlog_name router)))%nat ->
      cstr (skipn 15 data) = firstn 16 (cstr (binlog_name router))
      /\ ~ In 0 (skipn 15 data)).
Proof.
  intros Hw data. subst data.
  rewrite (binlog_dump_packet router Hw).
  unfold GWBUF_DATA. cbn [hd].
  split.
  { rewrite skipn_prefix by reflexivity.
    change 32 with (8 * Z.of_nat 4) at 1.
    rewrite extract_field_le_bytes by (lia || apply wrap32_range).
    apply (wrap32_mod_pow2 _ 4). lia. }
  split.
  { rewrite app_assoc, skipn_prefix
      by (rewrite length_app, le_bytes_length; reflexivity).
    change 16 with (8 * Z.of_nat 2) at 1.
    now rewrite extract_field_le_bytes by lia. }
  split.
  { rewrite 2 app_assoc, skipn_prefix
      by (rewrite !length_app, !le_bytes_length; reflexivity).
    change 32 with (8 * Z.of_nat 4) at 1.
    rewrite extract_field_le_bytes by (lia || apply wrap32_range).
    apply (wrap32_mod_pow2 _ 4). lia. }
  rewrite 3 app_assoc, skipn_prefix
    by (rewrite !length_app, !le_bytes_length; reflexivity).
  rewrite Hw. change dump_name_width with 16%nat.
  split.
  - unfold strncpy. rewrite firstn_firstn.
    destruct (Nat.le_gt_cases (length (cstr (binlog_name router))) 16)
      as [Hs|Hl].
    + rewrite Nat.min_l by exact Hs.
      rewrite firstn_app, firstn_all, Nat.sub_diag, firstn_O.
      rewrite (firstn_all2 (n := 16)) by exact Hs.
      now rewrite app_nil_r.
    + rewrite Nat.min_r by lia.
      rewrite firstn_app.
      replace (16 - length (cstr (binlog_name router)))%nat with 0%nat
        by lia.
      now rewrite firstn_O, app_nil_r.
  - intros Hlong. unfold strncpy.
    rewrite firstn_app.
    replace (16 - length (cstr (binlog_name router)))%nat with 0%nat by lia.
    rewrite firstn_O, app_nil_r.
    assert (Hno : forall l : list Z, ~ In 0 (cstr l)).
    { induction l as [|c l IH]; cbn [cstr]; [tauto|].
      destruct (Z.eqb_spec c 0) as [->|Hc]; cbn; [tauto|].
      intros [H|H]; [congruence | tauto]. }
    assert (Hfix : forall l : list Z, ~ In 0 l -> cstr l = l).
    { induction l as [|c l IH]; cbn [cstr]; [reflexivity|].
      intros Hin. destruct (Z.eqb_spec c 0) as [->|Hc].
      - exfalso. apply Hin. now left.
      - f_equal. apply IH. intros H. apply Hin. now right. }
    assert (Hin : ~ In 0 (firstn 16 (cstr (binlog_name router)))).
    { intros H. apply (Hno (binlog_name router)).
      rewrite <- (firstn_skipn 16 (cstr (binlog_name router))).
      apply in_or_app. now left. }
    split; [now apply Hfix | exact Hin].
Qed.

(** ** The state machine: states, gate and queue *)

Ltac blrm_consts :=
  unfold BLRM_MAXSTATE, BLRM_BINLOGDUMP, BLRM_REGISTER, BLRM_LATIN1,
    BLRM_SUUID, BLRM_MUUID, BLRM_GTIDMODE, BLRM_CHKSUM2, BLRM_CHKSUM1,
    BLRM_HBPERIOD, BLRM_SERVERID, BLRM_TIMESTAMP, BLRM_AUTHENTICATED,
    BLRM_UNCONNECTED in *.

(** One turn of the [switch] keeps the state or moves it to the next one. *)
Lemma master_step_state (r : ROUTER_INSTANCE) (buf : GWBUF) :
  master_state (blr_master_step r buf) = master_state r
  \/ (BLRM_TIMESTAMP <= master_state r < BLRM_BINLOGDUMP
      /\ master_state (blr_master_step r buf) = master_state r + 1).
Proof.
  unfold blr_master_step. cbv zeta.
  repeat match goal with
         | |- context [master_state r =? ?b] =>
             destruct (Z.eqb_spec (master_state r) b)
         end;
    try (right;
         cbn [master_state send_to_master set_master set_master_state];
         blrm_consts; lia).
  - left. apply handle_binlog_record_frame.
  - left. reflexivity.
Qed.

Lemma master_loop_state (fuel : nat) :
  forall (r : ROUTER_INSTANCE) (buf : GWBUF),
    let st := master_state r in
    let st' := master_state (blr_master_loop fuel r buf) in
    st <= st'
    /\ (st <= BLRM_MAXSTATE -> st' <= BLRM_MAXSTATE)
    /\ (st = BLRM_BINLOGDUMP -> st' = BLRM_BINLOGDUMP).
Proof.
  induction fuel as [|fuel IH]; intros r buf; cbv zeta;
    cbn [blr_master_loop].
  - repeat split; auto; lia.
  - pose proof (master_step_state r buf) as Hs.
    destruct (queue (blr_master_step r buf)) as [|seg rest].
    + cbn [master_state set_active_logs].
      blrm_consts. lia.
    + specialize (IH (set_queue rest (blr_master_step r buf)) [seg]).
      cbv zeta in IH. cbn [master_state set_queue] in IH.
      blrm_consts. lia.
Qed.

(** X7.  Whatever a call of [blr_master_response] does, the handshake
    never goes backwards: the state after the call is at least the state
    before; a state within [BLRM_MAXSTATE] stays within it; and once
    [BLRM_BINLOGDUMP] is reached no response leaves it.  This holds on
    every path: gate busy, state out of range, error packet, and any
    number of queued buffers. *)
Theorem master_state_never_regresses (r : ROUTER_INSTANCE) (buf : GWBUF) :
  let st := master_state r in
  let st' := master_state (blr_master_response r buf) in
  st <= st'
  /\ (st <= BLRM_MAXSTATE -> st' <= BLRM_MAXSTATE)
  /\ (st = BLRM_BINLOGDUMP -> st' = BLRM_BINLOGDUMP).
Proof.
  cbv zeta. unfold blr_master_response.
  destruct (negb (active_logs r =? 0)).
  { cbn [master_state set_queue]. repeat split; auto; lia. }
  cbv zeta.
  destruct ((master_state (set_active_logs 1 r) <? 0)
            || (master_state (set_active_logs 1 r) >? BLRM_MAXSTATE)).
  { cbn. repeat split; auto; lia. }
  destruct (MYSQL_RESPONSE_ERR buf).
  { cbn. repeat split; auto; lia. }
  exact (master_loop_state _ (set_active_logs 1 r) buf).
Qed.

Lemma fold_dequeued_queue (q : list (list Z)) :
  forall r : ROUTER_INSTANCE,
    queue r = q -> queue (fold_left step_dequeued q r) = [].
Proof.
  induction q as [|seg q IH]; intros r Hq; cbn [fold_left].
  - exact Hq.
  - apply IH. unfold step_dequeued.
    rewrite (proj1 (master_step_gate _ _)). cbn [queue set_queue].
    now rewrite Hq.
Qed.

(** X8.  The serialisation gate is never left closed: a call that finds
    [active_logs] at 0 returns with it at 0, whether the response is
    dropped for a state out of range, dropped as an error packet or
    processed; and when it is processed the queue is empty on return.  A
    call that finds the gate closed changes the router only by appending
    its buffer to the queue. *)
Theorem gate_released (r : ROUTER_INSTANCE) (buf : GWBUF) :
  let r' := blr_master_response r buf in
  (active_logs r = 0 ->
     active_logs r' = 0
     /\ (0 <= master_state r <= BLRM_MAXSTATE -> not_error buf ->
         queue r' = []))
  /\ (active_logs r <> 0 ->
      r' = set_queue (queue r ++ buf) r /\ active_logs r' = active_logs r).
Proof.
  cbv zeta. split.
  - intros Hfree. split.
    + unfold blr_master_response. rewrite Hfree. cbn [Z.eqb negb]. cbv zeta.
      destruct ((master_state (set_active_logs 1 r) <? 0)
                || (master_state (set_active_logs 1 r) >? BLRM_MAXSTATE));
        [reflexivity|].
      destruct (MYSQL_RESPONSE_ERR buf); [reflexivity|].
      rewrite (master_loop_fold (queue r)) by (cbn; auto).
      reflexivity.
    + intros Hst Hok.
      rewrite master_response_enters_loop by assumption.
      rewrite (master_loop_fold (queue r)) by (cbn; auto).
      cbn [queue set_active_logs].
      apply fold_dequeued_queue.
      now rewrite (proj1 (master_step_gate _ _)).
  - intros Hbusy. unfold blr_master_response.
    destruct (Z.eqb_spec (active_logs r) 0) as [He|_]; [contradiction|].
    cbn [negb]. split; reflexivity.
Qed.

Lemma count_received_with_gate (a : Z) (q : GWBUF) (hdr : REP_HEADER)
    (r : ROUTER_INSTANCE) :
  count_received hdr (with_gate a q r) = with_gate a q (count_received hdr r).
Proof. unfold count_received. cbv zeta. split_ifs; reflexivity. Qed.

Lemma rotate_event_with_gate (a : Z) (q : GWBUF) (r : ROUTER_INSTANCE)
    (ptr : list Z) (hdr : REP_HEADER) :
  blr_rotate_event (with_gate a q r) ptr hdr
  = with_gate a q (blr_rotate_event r ptr hdr).
Proof.
  unfold blr_rotate_event. cbv zeta.
  change (binlog_name (with_gate a q r)) with (binlog_name r).
  split_ifs; reflexivity.
Qed.

Lemma write_binlog_record_with_gate (a : Z) (q : GWBUF)
    (r : ROUTER_INSTANCE) (hdr : REP_HEADER) (ptr : list Z) :
  blr_write_binlog_record (with_gate a q r) hdr ptr
  = with_gate a q (blr_write_binlog_record r hdr ptr).
Proof. reflexivity. Qed.

Lemma distribute_with_gate (a : Z) (q : GWBUF) (r : ROUTER_INSTANCE)
    (hdr : REP_HEADER) (ptr : list Z) :
  blr_distribute_binlog_record (with_gate a q r) hdr ptr
  = with_gate a q (blr_distribute_binlog_record r hdr ptr).
Proof. reflexivity. Qed.

Lemma set_stats_with_gate (a : Z) (q : GWBUF) (v : ROUTER_STATS)
    (r : ROUTER_INSTANCE) :
  set_stats v (with_gate a q r) = with_gate a q (set_stats v r).
Proof. reflexivity. Qed.

Lemma set_saved_master_with_gate (a : Z) (q : GWBUF) (v : MASTER_RESPONSES)
    (r : ROUTER_INSTANCE) :
  set_saved_master v (with_gate a q r) = with_gate a q (set_saved_master v r).
Proof. reflexivity. Qed.

Lemma stats_with_gate (a : Z) (q : GWBUF) (r : ROUTER_INSTANCE) :
  stats (with_gate a q r) = stats r.
Proof. reflexivity. Qed.

Lemma saved_master_with_gate (a : Z) (q : GWBUF) (r : ROUTER_INSTANCE) :
  saved_master (with_gate a q r) = saved_master r.
Proof. reflexivity. Qed.

Create Rewrite HintDb gate.

#[local] Hint Rewrite count_received_with_gate rotate_event_with_gate
  write_binlog_record_with_gate distribute_with_gate set_stats_with_gate
  set_saved_master_with_gate stats_with_gate saved_master_with_gate : gate.

(** The step does not look at the gate: it commutes with setting it. *)
Lemma handle_event_with_gate (a : Z) (q : GWBUF) (r : ROUTER_INSTANCE)
    (ptr : list Z) :
  blr_handle_event (with_gate a q r) ptr
  = with_gate a q (blr_handle_event r ptr).
Proof.
  unfold blr_handle_event. cbv zeta.
  split_ifs; autorewrite with gate; reflexivity.
Qed.

Lemma ingest_loop_with_gate (a : Z) (q : GWBUF) (fuel : nat) :
  forall (r : ROUTER_INSTANCE) (pkt : GWBUF),
    blr_ingest_loop fuel (with_gate a q r) pkt
    = (with_gate a q (fst (blr_ingest_loop fuel r pkt)),
       snd (blr_ingest_loop fuel r pkt)).
Proof.
  induction fuel as [|fuel IH]; intros r pkt; cbn [blr_ingest_loop].
  - reflexivity.
  - cbv zeta. split_ifs; try reflexivity;
      rewrite handle_event_with_gate; apply IH.
Qed.

Lemma handle_binlog_record_with_gate (a : Z) (q : GWBUF)
    (r : ROUTER_INSTANCE) (pkt : GWBUF) :
  blr_handle_binlog_record (with_gate a q r) pkt
  = with_gate a q (blr_handle_binlog_record r pkt).
Proof.
  unfold blr_handle_binlog_record. cbv zeta.
  change (residual (with_gate a q r)) with (residual r).
  destruct (is_null (residual r)).
  - rewrite ingest_loop_with_gate. cbn [fst snd].
    destruct (is_null (snd (blr_ingest_loop (ingest_fuel pkt) r pkt)));
      reflexivity.
  - change (set_residual [] (with_gate a q r))
      with (with_gate a q (set_residual [] r)).
    rewrite ingest_loop_with_gate. cbn [fst snd].
    match goal with
    | |- context [is_null ?x] => destruct (is_null x)
    end; reflexivity.
Qed.

Lemma master_step_with_gate (a : Z) (q : GWBUF) (r : ROUTER_INSTANCE)
    (buf : GWBUF) :
  blr_master_step (with_gate a q r) buf
  = with_gate a q (blr_master_step r buf).
Proof.
  unfold blr_master_step. cbv zeta.
  change (master_state (with_gate a q r)) with (master_state r).
  repeat match goal with
         | |- context [master_state r =? ?b] =>
             destruct (master_state r =? b)
         end;
    try reflexivity.
  apply handle_binlog_record_with_gate.
Qed.

Lemma with_gate_same (r : ROUTER_INSTANCE) :
  with_gate (active_logs r) (queue r) r = r.
Proof. destruct r; reflexivity. Qed.

Lemma with_gate_step (r : ROUTER_INSTANCE) (buf : GWBUF) :
  with_gate 0 [] (blr_master_step r buf)
  = blr_master_step (with_gate 0 [] r) buf.
Proof. now rewrite master_step_with_gate. Qed.

Lemma one_by_one_step (r : ROUTER_INSTANCE) (seg : list Z) :
  active_logs r = 0 -> queue r = [] ->
  0 <= master_state r <= BLRM_MAXSTATE -> not_error [seg] ->
  let r' := blr_master_response r [seg] in
  with_gate 0 [] r' = blr_master_step (with_gate 0 [] r) [seg]
  /\ active_logs r' = 0 /\ queue r' = []
  /\ 0 <= master_state r' <= BLRM_MAXSTATE.
Proof.
  intros Hfree Hq Hst Hok. cbv zeta.
  rewrite master_response_single by assumption.
  split.
  { change (with_gate 0 []
              (set_active_logs 0
                 (blr_master_step (set_active_logs 1 r) [seg])))
      with (with_gate 0 [] (blr_master_step (set_active_logs 1 r) [seg])).
    rewrite with_gate_step. reflexivity. }
  split; [reflexivity|].
  split.
  { cbn [queue set_active_logs].
    rewrite (proj1 (master_step_gate _ _)). exact Hq. }
  cbn [master_state set_active_logs].
  pose proof (master_step_state (set_active_logs 1 r) [seg]) as Hs.
  cbn [master_state set_active_logs] in Hs.
  blrm_consts. lia.
Qed.

Lemma dequeued_as_one_by_one (q : list (list Z)) :
  forall x y : ROUTER_INSTANCE,
    queue x = q -> with_gate 0 [] x = with_gate 0 [] y ->
    active_logs y = 0 -> queue y = [] ->
    0 <= master_state y <= BLRM_MAXSTATE ->
    Forall (fun seg => not_error [seg]) q ->
    with_gate 0 [] (fold_left step_dequeued q x)
    = with_gate 0 [] (one_by_one y q)
    /\ active_logs (one_by_one y q) = 0 /\ queue (one_by_one y q) = [].
Proof.
  induction q as [|seg q IH]; intros x y Hq Hxy Hfree Hyq Hst Hok;
    cbn [fold_left one_by_one].
  - auto.
  - inversion Hok as [|? ? Hseg Hrest]; subst.
    destruct (one_by_one_step y seg Hfree Hyq Hst Hseg)
      as (Hy & Hf' & Hq' & Hst').
    apply IH; try assumption.
    + unfold step_dequeued.
      rewrite (proj1 (master_step_gate _ _)). cbn [queue set_queue].
      now rewrite Hq.
    + rewrite Hy. unfold step_dequeued. rewrite with_gate_step.
      change (with_gate 0 [] (set_queue (tl (queue x)) x))
        with (with_gate 0 [] x).
      now rewrite Hxy.
Qed.

(** X9.  The queue is drained first in, first out, and with the same
    effect as separate calls.  When the gate is free, the state lies
    within [0 .. BLRM_MAXSTATE], the response that arrives is not an
    error packet and none of the buffers waiting in the queue has [0xff]
    at offset 4, the call leaves the router exactly as if the queue had
    been empty and the queued buffers had then arrived one call after
    the other, in queue order.  (An error response or a state out of
    range makes the call return before it looks at the queue, and a
    separate call would have dropped a buffer with [0xff] at offset
    4.) *)
Theorem queue_drained_in_order (r : ROUTER_INSTANCE) (buf : GWBUF) :
  active_logs r = 0 ->
  0 <= master_state r <= BLRM_MAXSTATE ->
  not_error buf ->
  Forall (fun seg => not_error [seg]) (queue r) ->
  blr_master_response r buf
  = one_by_one (blr_master_response (set_queue [] r) buf) (queue r).
Proof.
  intros Hfree Hst Hok Hq.
  rewrite master_response_enters_loop by assumption.
  rewrite (master_loop_fold (queue r)) by (cbn; auto).
  set (x := blr_master_step (set_active_logs 1 r) buf).
  set (y := blr_master_response (set_queue [] r) buf).
  assert (Hy : y = set_active_logs 0
                     (blr_master_step
                        (set_active_logs 1 (set_queue [] r)) buf)).
  { subst y. apply master_response_single; assumption || reflexivity. }
  assert (Hxq : queue x = queue r).
  { subst x. now rewrite (proj1 (master_step_gate _ _)). }
  assert (Hxy : with_gate 0 [] x = with_gate 0 [] y).
  { rewrite Hy. subst x.
    change (with_gate 0 []
              (set_active_logs 0
                 (blr_master_step
                    (set_active_logs 1 (set_queue [] r)) buf)))
      with (with_gate 0 []
              (blr_master_step (set_active_logs 1 (set_queue [] r)) buf)).
    rewrite !with_gate_step. reflexivity. }
  assert (Hyst : 0 <= master_state y <= BLRM_MAXSTATE).
  { rewrite Hy. cbn [master_state set_active_logs].
    pose proof (master_step_state (set_active_logs 1 (set_queue [] r)) buf)
      as Hs.
    cbn [master_state set_active_logs set_queue] in Hs.
    blrm_consts. lia. }
  assert (Hyq : queue y = []).
  { rewrite Hy. cbn [queue set_active_logs].
    now rewrite (proj1 (master_step_gate _ _)). }
  assert (Hyf : active_logs y = 0) by (rewrite Hy; reflexivity).
  destruct (dequeued_as_one_by_one (queue r) x y Hxq Hxy Hyf Hyq Hyst Hq)
    as (Hcore & Hf' & Hq').
  pose proof (fold_dequeued_queue (queue r) x Hxq) as Hxe.
  rewrite <- (with_gate_same (one_by_one y (queue r))), Hf', Hq', <- Hcore.
  unfold with_gate.
  rewrite <- Hxe at 1.
  generalize (fold_left step_dequeued (queue r) x) as z.
  intros z. destruct z; reflexivity.
Qed.

(** ** Event handling: statistics and what reaches the file *)

Ltac stats_fields :=
  cbn [stats n_binlogs n_rotates n_fakeevents n_binlog_errors events
       blfile slaves residual saved_master binlog_name binlog_position
       set_stats set_saved_master set_blfile set_binlog set_slaves
       set_residual count_binlog count_rotate count_fakeevent
       count_binlog_error count_event_type].

Lemma handle_event_counters (r : ROUTER_INSTANCE) (ptr : list Z) :
  let s := stats r in
  let s' := stats (blr_handle_event r ptr) in
  n_binlogs s' = n_binlogs s + (if ok_packet ptr then 1 else 0)
  /\ n_binlog_errors s'
     = n_binlog_errors s + (if ok_packet ptr then 0 else 1)
  /\ n_rotates s <= n_rotates s' <= n_rotates s + 1
  /\ n_fakeevents s <= n_fakeevents s' <= n_fakeevents s + 1.
Proof.
  cbv zeta. unfold ok_packet.
  change (nth 4 ptr 0) with (ok (blr_extract_header ptr)).
  unfold blr_handle_event, count_received, blr_rotate_event,
    blr_file_rotate, blr_distribute_binlog_record, blr_write_binlog_record.
  cbv zeta.
  destruct (ok (blr_extract_header ptr) =? 0);
    split_ifs; stats_fields; lia.
Qed.

Lemma fold_handle_event_counters (ptrs : list (list Z)) :
  forall r : ROUTER_INSTANCE,
    let s := stats r in
    let s' := stats (fold_left blr_handle_event ptrs r) in
    n_binlogs s' = n_binlogs s + Z.of_nat (length (filter ok_packet ptrs))
    /\ n_binlog_errors s'
       = n_binlog_errors s
         + Z.of_nat (length (filter (fun p => negb (ok_packet p)) ptrs)).
Proof.
  induction ptrs as [|p ptrs IH]; intros r; cbv zeta;
    cbn [fold_left filter].
  - cbn. lia.
  - specialize (IH (blr_handle_event r p)). cbv zeta in IH.
    destruct IH as [Hb He].
    destruct (handle_event_counters r p) as (Hb1 & He1 & _).
    rewrite Hb, He, Hb1, He1.
    destruct (ok_packet p); cbn [negb length]; lia.
Qed.

Lemma deliver_as_counters (r : ROUTER_INSTANCE) (ptrs : list (list Z))
    (rest : GWBUF) :
  let s := stats r in
  let s' := stats (deliver_as blr_handle_event r ptrs rest) in
  n_binlogs s' = n_binlogs s + Z.of_nat (length (filter ok_packet ptrs))
  /\ n_binlog_errors s'
     = n_binlog_errors s
       + Z.of_nat (length (filter (fun p => negb (ok_packet p)) ptrs)).
Proof.
  cbv zeta.
  assert (Hs : stats (deliver_as blr_handle_event r ptrs rest)
               = stats (fold_left blr_handle_event ptrs (clear_residual r))).
  { unfold deliver_as, blr_file_flush, store_residual.
    destruct (is_null rest); reflexivity. }
  assert (Hc : stats (clear_residual r) = stats r).
  { unfold clear_residual. destruct (is_null (residual r)); reflexivity. }
  rewrite Hs, <- Hc. apply fold_handle_event_counters.
Qed.

Lemma replay_counters (ds : list delivery) :
  forall (prev : list Z) (r : ROUTER_INSTANCE),
    let s := stats r in
    let s' := stats (replay prev ds r) in
    n_binlogs s'
    = n_binlogs s + Z.of_nat (length (filter ok_packet (all_ptrs prev ds)))
    /\ n_binlog_errors s'
       = n_binlog_errors s
         + Z.of_nat (length (filter (fun p => negb (ok_packet p))
                                    (all_ptrs prev ds))).
Proof.
  induction ds as [|d ds IH]; intros prev r; cbv zeta;
    cbn [replay all_ptrs].
  - cbn. lia.
  - specialize (IH (opening d)
                   (deliver_as blr_handle_event r (delivery_ptrs prev d)
                               (single (opening d)))).
    cbv zeta in IH. destruct IH as [Hb He].
    destruct (deliver_as_counters r (delivery_ptrs prev d)
                                  (single (opening d))) as [Hb1 He1].
    rewrite Hb, He, Hb1, He1, !filter_app, !length_app. lia.
Qed.

(** The OK byte of a packet longer than 24 bytes is the byte at offset 4
    of the pointer it starts at. *)
Lemma ok_packet_at (ptrs : list (list Z)) :
  Forall long_packet (map packet_at ptrs) ->
  map ok_packet (map packet_at ptrs) = map ok_packet ptrs.
Proof.
  induction ptrs as [|p ptrs IH]; cbn [map]; intros H; [reflexivity|].
  inversion H as [|? ? Hp Hrest]; subst.
  rewrite IH by exact Hrest. f_equal.
  destruct Hp as [_ Hlen].
  unfold ok_packet, packet_at in *.
  rewrite nth_firstn.
  rewrite length_firstn in Hlen.
  destruct (Nat.ltb_spec 4 (Z.to_nat (extract_field p 24 + 4)));
    [reflexivity | lia].
Qed.

Lemma filter_length_map {A B : Type} (f : B -> bool) (g h : A -> B)
    (l : list A) :
  map f (map g l) = map f (map h l) ->
  length (filter f (map g l)) = length (filter f (map h l)).
Proof.
  induction l as [|x l IH]; cbn [map filter]; intros H; [reflexivity|].
  injection H as Hx Hl. rewrite Hx.
  destruct (f (h x)); cbn [length]; rewrite IH by exact Hl; reflexivity.
Qed.

(** X10.  Every packet of the stream is counted exactly once.  With no
    residual at the start, for a stream of packets cut into delivery
    segments as [deliveries_ok] has it (no segment is empty, every
    packet is longer than 24 bytes, and every packet lies within one
    segment or is split between two consecutive ones, the stream ending
    with whole packets or with the opening bytes of one), after the
    segments are fed to [blr_handle_binlog_record] one call each the
    counter [n_binlogs] has grown by the number of completed packets
    whose OK byte is 0, [n_binlog_errors] by the number of the others,
    and the two together by the number of completed packets. *)
Theorem packets_counted_once (ds : list delivery) (r : ROUTER_INSTANCE) :
  residual r = [] -> deliveries_ok [] ds ->
  let r' := feed_segments r (map chunk_of ds) in
  let pkts := packets_of [] ds in
  n_binlogs (stats r')
  = n_binlogs (stats r) + Z.of_nat (length (filter ok_packet pkts))
  /\ n_binlog_errors (stats r')
     = n_binlog_errors (stats r)
       + Z.of_nat (length (filter (fun p => negb (ok_packet p)) pkts))
  /\ n_binlogs (stats r') + n_binlog_errors (stats r')
     = n_binlogs (stats r) + n_binlog_errors (stats r)
       + Z.of_nat (length pkts).
Proof.
  intros Hres Hok. cbv zeta.
  destruct (feed_replay ds [] r Hres Hok) as [Hfeed _].
  destruct (packet_at_all_ptrs ds [] Hok) as [Hat Hlong].
  destruct (replay_counters ds [] r) as [Hb He].
  rewrite Hfeed, Hb, He.
  assert (Hmap : map ok_packet (packets_of [] ds)
                 = map ok_packet (all_ptrs [] ds)).
  { rewrite <- Hat. apply ok_packet_at. now rewrite Hat. }
  assert (H1 : length (filter ok_packet (packets_of [] ds))
               = length (filter ok_packet (all_ptrs [] ds))).
  { rewrite <- Hat.
    rewrite <- (map_id (all_ptrs [] ds)) at 2.
    apply filter_length_map. rewrite map_id, Hat. exact Hmap. }
  assert (H2 : length (filter (fun p => negb (ok_packet p))
                              (packets_of [] ds))
               = length (filter (fun p => negb (ok_packet p))
                                (all_ptrs [] ds))).
  { rewrite <- Hat.
    rewrite <- (map_id (all_ptrs [] ds)) at 2.
    apply filter_length_map. rewrite map_id, Hat.
    rewrite <- (map_map ok_packet negb (packets_of [] ds)).
    rewrite <- (map_map ok_packet negb (all_ptrs [] ds)).
    now rewrite Hmap. }
  pose proof (filter_length ok_packet (packets_of [] ds)) as Hsum.
  rewrite H1, H2 in *. repeat split; lia.
Qed.

Lemma bump_length (l : list Z) : forall i : nat, length (bump l i) = length l.
Proof.
  induction l as [|x l IH]; intros [|i]; cbn [bump length];
    try reflexivity.
  now rewrite IH.
Qed.

Lemma bump_nth (l : list Z) :
  forall i j : nat,
    nth j (bump l i) 0
    = nth j l 0 + (if (j =? i)%nat && (j <? length l)%nat then 1 else 0).
Proof.
  induction l as [|x l IH]; intros i j.
  - cbn [length].
    replace (j <? 0)%nat with false by (symmetry; apply Nat.ltb_ge; lia).
    rewrite Bool.andb_false_r. destruct i, j; cbn; lia.
  - destruct i as [|i], j as [|j]; cbn [bump nth length].
    + cbn. lia.
    + cbn. lia.
    + cbn. lia.
    + rewrite IH. change (S j =? S i)%nat with (j =? i)%nat.
      change (S j <? S (length l))%nat with (j <? length l)%nat.
      reflexivity.
Qed.

(** X11.  The per-type statistics are indexed only by event types below
    [0x24] of packets whose OK byte is 0: such a packet adds one to the
    entry of its type and changes no other entry; any other packet leaves
    the table as it is; and the table never changes its length. *)
Theorem event_histogram (r : ROUTER_INSTANCE) (ptr : list Z) :
  let hdr := blr_extract_header ptr in
  let ev := events (stats r) in
  let ev' := events (stats (blr_handle_event r ptr)) in
  ev' = (if counted_type hdr then bump ev (Z.to_nat (event_type hdr))
         else ev)
  /\ length ev' = length ev
  /\ forall i : nat,
       nth i ev' 0
       = nth i ev 0
         + (if counted_type hdr
               && (i =? Z.to_nat (event_type hdr))%nat
               && (i <? length ev)%nat
            then 1 else 0).
Proof.
  cbv zeta.
  assert (Hev : events (stats (blr_handle_event r ptr))
                = if counted_type (blr_extract_header ptr)
                  then bump (events (stats r))
                            (Z.to_nat (event_type (blr_extract_header ptr)))
                  else events (stats r)).
  { unfold counted_type, blr_handle_event, count_received, blr_rotate_event,
      blr_file_rotate, blr_distribute_binlog_record,
      blr_write_binlog_record.
    cbv zeta.
    destruct (ok (blr_extract_header ptr) =? 0); cbn [andb];
      [|reflexivity].
    destruct (event_type (blr_extract_header ptr) >=? 0); cbn [andb];
      [destruct (event_type (blr_extract_header ptr) <? 0x24)|];
      split_ifs; reflexivity. }
  rewrite Hev. split; [reflexivity|].
  destruct (counted_type (blr_extract_header ptr)); cbn [andb].
  - split; [apply bump_length|]. intros i. apply bump_nth.
  - split; [reflexivity|]. intros i. lia.
Qed.

(** X12.  What reaches the binlog file and the slaves.  An event with OK
    byte 0 that is neither a fake format description event nor a
    heartbeat and whose flags differ from [LOG_EVENT_ARTIFICIAL_F] is
    written to the file once, before any rotation it causes, and is then
    offered to every slave.  Every other packet adds no write to the
    file and leaves all slaves as they are. *)
Theorem forwarded_events_only (r : ROUTER_INSTANCE) (ptr : list Z) :
  let hdr := blr_extract_header ptr in
  let raw := skipn 5 ptr in
  let r' := blr_handle_event r ptr in
  (forwarded hdr = true ->
     (blfile r' = blfile r ++ [FileWrite hdr raw]
      \/ (event_type hdr = ROTATE_EVENT
          /\ exists (file : list Z) (pos : Z),
               blfile r'
               = blfile r ++ [FileWrite hdr raw; FileRotate file pos]))
     /\ slaves r' = map (blr_distribute_to_slave hdr raw) (slaves r))
  /\ (forwarded hdr = false ->
        no_new_write (blfile r) (blfile r') /\ slaves r' = slaves r).
Proof.
  cbv zeta.
  unfold forwarded, blr_handle_event, count_received.
  cbv zeta.
  destruct (ok (blr_extract_header ptr) =? 0); cbn [andb].
  2: { split; [discriminate|]. intros _. split; [|reflexivity].
       intros h p Hin. exact Hin. }
  destruct ((event_type (blr_extract_header ptr) =? FORMAT_DESCRIPTION_EVENT)
            && (next_pos (blr_extract_header ptr) =? 0)); cbn [andb negb].
  { split; [discriminate|]. intros _.
    split_ifs; stats_fields; (split; [|reflexivity]);
      intros h p Hin; exact Hin. }
  destruct (event_type (blr_extract_header ptr) =? HEARTBEAT_EVENT);
    cbn [andb negb].
  { split; [discriminate|]. intros _.
    split_ifs; stats_fields; (split; [|reflexivity]);
      intros h p Hin; exact Hin. }
  destruct (flags (blr_extract_header ptr) =? LOG_EVENT_ARTIFICIAL_F);
    cbn [negb].
  - split; [discriminate|]. intros _.
    destruct (Z.eqb_spec (event_type (blr_extract_header ptr)) ROTATE_EVENT).
    + match goal with
      | |- context [blr_rotate_event ?x ?p ?h] =>
          destruct (rotate_event_frame x p h) as (_ & _ & Hsl & Hnw);
          rewrite Hsl
      end.
      split.
      * intros h p Hin. apply Hnw in Hin. revert Hin.
        split_ifs; stats_fields; auto.
      * split_ifs; reflexivity.
    + split_ifs; stats_fields; (split; [|reflexivity]);
        intros h p Hin; exact Hin.
  - split; [|discriminate]. intros _.
    unfold blr_distribute_binlog_record, blr_write_binlog_record.
    destruct (Z.eqb_spec (event_type (blr_extract_header ptr)) ROTATE_EVENT)
      as [Hrot|Hrot].
    + match goal with
      | |- context [blr_rotate_event ?x ?p ?h] =>
          destruct (rotate_event_cases x p h) as [[_ Hr]|[_ Hr]];
          rewrite Hr
      end.
      * unfold blr_file_rotate. stats_fields. split; [|split_ifs; reflexivity].
        right. split; [exact Hrot|].
        eexists _, _. split_ifs; stats_fields;
          rewrite <- app_assoc; reflexivity.
      * stats_fields. split; [|split_ifs; reflexivity].
        left. split_ifs; reflexivity.
    + stats_fields. split; [|split_ifs; reflexivity].
      left. split_ifs; reflexivity.
Qed.

(** ** The header of a packet sent to a slave *)

Lemma extract_loop_prefix (fuel : nat) :
  forall (n : nat) (a b : list Z) (bits rval shift : Z),
    bits <= 8 * Z.of_nat n -> firstn n a = firstn n b ->
    extract_loop fuel a bits rval shift = extract_loop fuel b bits rval shift.
Proof.
  induction fuel as [|fuel IH]; intros n a b bits rval shift Hb Hf;
    cbn [extract_loop]; [reflexivity|].
  destruct (Z.gtb_spec bits 0) as [Hpos|_]; [|reflexivity].
  destruct n as [|n]; [lia|].
  assert (Hhd : hd 0 a = hd 0 b /\ firstn n (tl a) = firstn n (tl b)).
  { destruct a as [|x a], b as [|y b]; cbn [firstn hd tl] in *;
      try discriminate.
    - split; [reflexivity | now rewrite !firstn_nil].
    - injection Hf as -> Hf. auto. }
  destruct Hhd as [-> Htl].
  apply (IH n); [lia | exact Htl].
Qed.

Lemma extract_field_prefix (n : nat) (a b : list Z) :
  firstn n a = firstn n b ->
  extract_field a (8 * Z.of_nat n) = extract_field b (8 * Z.of_nat n).
Proof.
  intros Hf. unfold extract_field.
  apply (extract_loop_prefix _ n); [lia | exact Hf].
Qed.

Lemma firstn_skipn_firstn (n k m : nat) (l : list Z) :
  (k + n <= m)%nat -> firstn n (skipn k (firstn m l)) = firstn n (skipn k l).
Proof.
  intros H. rewrite skipn_firstn_comm, firstn_firstn.
  f_equal. lia.
Qed.

Lemma extract_field_copy (n k m : nat) (l : list Z) :
  (k + n <= m)%nat ->
  extract_field (skipn k (firstn m l)) (8 * Z.of_nat n)
  = extract_field (skipn k l) (8 * Z.of_nat n).
Proof.
  intros H. apply extract_field_prefix. now apply firstn_skipn_firstn.
Qed.

Lemma skipn_prefix_plus (pre t : list Z) (k : nat) :
  length pre = 5%nat -> skipn (5 + k) (pre ++ t) = skipn k t.
Proof.
  intros Hl. rewrite skipn_app, Hl.
  rewrite skipn_all2 by lia.
  replace (5 + k - 5)%nat with k by lia. reflexivity.
Qed.

(** The header read from a packet, by the five bytes in front of the
    event and the event. *)
Lemma header_of_body (pre t : list Z) :
  length pre = 5%nat ->
  blr_extract_header (pre ++ t)
  = {| payload_len := extract_field (pre ++ t) 24;
       hdr_seqno := nth 3 pre 0;
       ok := nth 4 pre 0;
       timestamp := extract_field t 32;
       event_type := nth 4 t 0;
       hdr_serverid := extract_field (skipn 5 t) 32;
       event_size := extract_field (skipn 9 t) 32;
       next_pos := extract_field (skipn 13 t) 32;
       flags := extract_field (skipn 17 t) 16 |}.
Proof.
  intros Hl. unfold blr_extract_header.
  pose proof (skipn_prefix_plus pre t 0 Hl) as H0.
  pose proof (skipn_prefix_plus pre t 5 Hl) as H5.
  pose proof (skipn_prefix_plus pre t 9 Hl) as H9.
  pose proof (skipn_prefix_plus pre t 13 Hl) as H13.
  pose proof (skipn_prefix_plus pre t 17 Hl) as H17.
  cbn [Nat.add] in H0, H5, H9, H13, H17.
  rewrite H0, H5, H9, H13, H17. cbn [skipn].
  rewrite !app_nth1 by lia.
  rewrite (app_nth2 pre t 0) by lia. rewrite Hl.
  reflexivity.
Qed.

(** X13.  The header survives the fan-out.  When the event of a packet
    received from the master is at least 19 bytes long and fits the
    framing, the packet built for a slave parses, with the same
    [blr_extract_header], to the same timestamp, event type, server id,
    event size, next position and flags; its payload length is the event
    size plus one, its sequence number the slave's, its OK byte 0. *)
Theorem slave_packet_header (ptr : list Z) (s : ROUTER_SLAVE) :
  let hdr := blr_extract_header ptr in
  let raw := skipn 5 ptr in
  event_fits hdr raw -> 19 <= event_size hdr ->
  blr_extract_header (GWBUF_DATA (slave_packet hdr raw s))
  = {| payload_len := event_size hdr + 1;
       hdr_seqno := seqno s;
       ok := 0;
       timestamp := timestamp hdr;
       event_type := event_type hdr;
       hdr_serverid := hdr_serverid hdr;
       event_size := event_size hdr;
       next_pos := next_pos hdr;
       flags := flags hdr |}.
Proof.
  intros hdr raw Hfit H19.
  rewrite (slave_packet_layout hdr raw s Hfit).
  destruct Hfit as (H0 & H24 & Hlen).
  unfold GWBUF_DATA. cbn [hd].
  set (m := Z.to_nat (event_size hdr)).
  assert (Hm : (19 <= m)%nat) by (subst m; lia).
  assert (Hraw : (m <= length raw)%nat) by (subst m; lia).
  assert (Hptr : (24 <= length ptr)%nat).
  { subst raw. rewrite length_skipn in Hraw. lia. }
  replace (le_bytes 3 (event_size hdr + 1) ++ [seqno s] ++ [0]
             ++ firstn m raw)
    with ((le_bytes 3 (event_size hdr + 1) ++ [seqno s] ++ [0])
            ++ firstn m raw)
    by (rewrite <- !app_assoc; reflexivity).
  rewrite header_of_body by (rewrite !length_app, le_bytes_length; reflexivity).
  assert (Hsplit : blr_extract_header ptr
                   = blr_extract_header (firstn 5 ptr ++ raw))
    by (subst raw; now rewrite firstn_skipn).
  rewrite header_of_body in Hsplit by (rewrite length_firstn; lia).
  assert (Hfields :
            timestamp hdr = extract_field raw 32
            /\ event_type hdr = nth 4 raw 0
            /\ hdr_serverid hdr = extract_field (skipn 5 raw) 32
            /\ event_size hdr = extract_field (skipn 9 raw) 32
            /\ next_pos hdr = extract_field (skipn 13 raw) 32
            /\ flags hdr = extract_field (skipn 17 raw) 16).
  { subst hdr. rewrite Hsplit. cbn. auto 10. }
  destruct Hfields as (Ht & Hty & Hsid & Hsz & Hnp & Hfl).
  f_equal.
  - rewrite <- !app_assoc. change 24 with (8 * Z.of_nat 3).
    rewrite extract_field_le_bytes by lia.
    apply Z.mod_small. change (8 * Z.of_nat 3) with 24. lia.
  - rewrite Ht. change 32 with (8 * Z.of_nat 4).
    apply (extract_field_copy 4 0 m raw). lia.
  - rewrite Hty, nth_firstn.
    destruct (Nat.ltb_spec 4 m); [reflexivity | lia].
  - rewrite Hsid. change 32 with (8 * Z.of_nat 4).
    apply (extract_field_copy 4 5 m raw). lia.
  - rewrite Hsz. change 32 with (8 * Z.of_nat 4).
    apply (extract_field_copy 4 9 m raw). lia.
  - rewrite Hnp. change 32 with (8 * Z.of_nat 4).
    apply (extract_field_copy 4 13 m raw). lia.
  - rewrite Hfl. change 16 with (8 * Z.of_nat 2).
    apply (extract_field_copy 2 17 m raw). lia.
Qed.

(** ** A slave that keeps up with the stream *)

(** X14.  A slave in step stays in step.  Over a run of events in which
    each starts where the one before ends, a slave whose offset is the
    start of the first event is sent as many packets as the run has
    events, and afterwards its offset is the end of the last event.
    When moreover every event of the run fits its packet ([event_fits]:
    [event_size + 1] is below [2^24] and the raw event holds
    [event_size] bytes), the payloads after the OK byte of the packets
    sent are, in the order of the run, the bytes of the events. *)
Theorem in_step_slave_follows (evs : list (REP_HEADER * list Z)) :
  forall (router : ROUTER_INSTANCE) (i : nat) (s : ROUTER_SLAVE),
    slave_at router i = Some s ->
    chained (binlog_pos s) evs ->
    exists (s' : ROUTER_SLAVE) (sent : list GWBUF),
      slave_at (distribute_stream router evs) i = Some s'
      /\ dcb s' = dcb s ++ sent
      /\ length sent = length evs
      /\ binlog_pos s'
         = last (map (fun ev => next_pos (fst ev)) evs) (binlog_pos s)
      /\ (Forall (fun ev => event_fits (fst ev) (snd ev)) evs ->
          map (fun pkt => skipn 5 (GWBUF_DATA pkt)) sent
          = map (fun ev => memcpy (snd ev) (event_size (fst ev))) evs).
Proof.
  induction evs as [|[hdr ptr] evs IH]; intros router i s Hs Hch.
  - exists s, []. cbn. rewrite app_nil_r.
    repeat split; auto.
  - cbn [chained fst snd] in Hch. destruct Hch as [Hpos Hch].
    pose proof (slave_at_distribute router hdr ptr i s Hs) as Hs1.
    assert (Hstep : blr_distribute_to_slave hdr ptr s
                    = {| dcb := dcb_write (dcb s) (slave_packet hdr ptr s);
                         binlog_pos := next_pos hdr;
                         seqno := wrap8 (seqno s + 1);
                         rotations := if event_type hdr =? ROTATE_EVENT
                                      then rotations s ++ [ptr]
                                      else rotations s |}).
    { unfold blr_distribute_to_slave. rewrite <- Hpos.
      now rewrite Z.eqb_refl. }
    rewrite Hstep in Hs1.
    destruct (IH _ i _ Hs1 Hch) as (s' & sent & Hat & Hdcb & Hlen & Hend & Hpay).
    cbn [dcb binlog_pos] in Hdcb, Hend.
    exists s', (slave_packet hdr ptr s :: sent).
    split; [exact Hat|].
    split.
    { rewrite Hdcb. unfold dcb_write. now rewrite <- app_assoc. }
    split.
    { cbn [length]. now rewrite Hlen. }
    split.
    2: { intros Hfit.
      inversion Hfit as [|? ? Hev Hrest]; subst. cbn [fst snd] in Hev.
      cbn [map fst snd]. rewrite (Hpay Hrest). f_equal.
      rewrite (slave_packet_layout hdr ptr s Hev).
      unfold GWBUF_DATA, memcpy. cbn [hd].
      replace (le_bytes 3 (event_size hdr + 1) ++ [seqno s] ++ [0]
                 ++ firstn (Z.to_nat (event_size hdr)) ptr)
        with ((le_bytes 3 (event_size hdr + 1) ++ [seqno s] ++ [0])
                ++ firstn (Z.to_nat (event_size hdr)) ptr)
        by (rewrite <- !app_assoc; reflexivity).
      apply skipn_prefix.
      rewrite !length_app, le_bytes_length. reflexivity. }
    rewrite Hend. cbn [map fst].
    destruct evs as [|ev evs]; [reflexivity|].
    cbn [map last].
    generalize (next_pos (fst ev)) as x,
               (map (fun e : REP_HEADER * list Z => next_pos (fst e)) evs)
               as l.
    intros x l. revert x.
    induction l as [|y l IHl]; intros x; [reflexivity|].
    cbn [last] in *. apply IHl.
Qed.

(** ** What the ingest loop keeps and where it stops *)

Lemma consume_suffix (pkt : GWBUF) (n : Z) :
  exists c : list Z, concat pkt = c ++ concat (gwbuf_consume pkt n).
Proof.
  unfold gwbuf_consume. destruct pkt as [|seg rest].
  - exists []. reflexivity.
  - destruct (n >=? Z.of_nat (length seg)); cbn [concat].
    + exists seg. reflexivity.
    + exists (firstn (Z.to_nat n) seg).
      now rewrite app_assoc, firstn_skipn.
Qed.

Lemma trace_suffix (fuel : nat) :
  forall pkt : GWBUF,
    exists c : list Z, concat pkt = c ++ concat (snd (ingest_trace fuel pkt)).
Proof.
  induction fuel as [|fuel IH]; intros pkt; cbn [ingest_trace].
  - exists []. reflexivity.
  - cbv zeta. split_ifs; cbn [snd]; try (exists []; reflexivity).
    + destruct (consume_suffix pkt (GWBUF_LENGTH pkt)) as [c1 H1].
      destruct (consume_suffix (gwbuf_consume pkt (GWBUF_LENGTH pkt))
                  (packet_length pkt - GWBUF_LENGTH pkt)) as [c2 H2].
      destruct (IH (gwbuf_consume (gwbuf_consume pkt (GWBUF_LENGTH pkt))
                      (packet_length pkt - GWBUF_LENGTH pkt))) as [c3 H3].
      exists (c1 ++ c2 ++ c3).
      rewrite H1, H2, H3, <- !app_assoc. reflexivity.
    + destruct (consume_suffix pkt (packet_length pkt)) as [c1 H1].
      destruct (IH (gwbuf_consume pkt (packet_length pkt))) as [c2 H2].
      exists (c1 ++ c2). rewrite H1, H2, <- app_assoc. reflexivity.
Qed.

(** X15.  The residual is the tail of what was buffered.  After a call
    of [blr_handle_binlog_record] in which every turn of the loop reads
    what is there ([ingest_defined] on the residual followed by the
    delivery: no empty head segment, and the length bytes and the bytes
    copied from [pkt->next] are in it), whatever the bytes are, the
    bytes kept as residual are a suffix of the old residual followed by
    the new delivery: the ingest loop consumes from the front only and
    never reorders, repeats or makes up buffered bytes. *)
Theorem residual_is_tail (r : ROUTER_INSTANCE) (pkt : GWBUF) :
  let chain := if is_null (residual r) then pkt
               else gwbuf_append (residual r) pkt in
  ingest_defined (ingest_fuel chain) chain = true ->
  let r' := blr_handle_binlog_record r pkt in
  (exists consumed : list Z,
     concat (residual r) ++ concat pkt
     = consumed ++ concat (residual r'))
  /\ gwbuf_length (residual r')
     <= gwbuf_length (residual r) + gwbuf_length pkt.
Proof.
  cbv zeta. intros _.
  pose proof (handle_binlog_record_trace r pkt) as Ht. cbv zeta in Ht.
  rewrite Ht, deliver_as_residual.
  set (chain := if is_null (residual r) then pkt
                else gwbuf_append (residual r) pkt).
  assert (Hchain : concat chain = concat (residual r) ++ concat pkt).
  { subst chain. destruct (residual r) as [|seg rest]; cbn [is_null].
    - reflexivity.
    - unfold gwbuf_append. now rewrite concat_app. }
  destruct (trace_suffix (ingest_fuel chain) chain) as [c Hc].
  assert (Hex : concat (residual r) ++ concat pkt
                = c ++ concat (snd (ingest_trace (ingest_fuel chain) chain)))
    by (rewrite <- Hchain; exact Hc).
  split.
  - exists c. exact Hex.
  - unfold gwbuf_length.
    apply (f_equal (@length Z)) in Hex. rewrite !length_app in Hex. lia.
Qed.

Lemma ingest_loop_rejects (n : nat) :
  forall (fuel : nat) (r : ROUTER_INSTANCE) (pkt : GWBUF),
    (ingest_measure pkt < n)%nat -> (n <= fuel)%nat ->
    loop_rejects (snd (blr_ingest_loop fuel r pkt)) = true.
Proof.
  induction n as [|n IH]; intros fuel r pkt Hm Hf; [lia|].
  destruct fuel as [|fuel]; [lia|].
  cbn [blr_ingest_loop].
  destruct (is_null pkt) eqn:Hnull; cbn [negb andb].
  { cbn [snd]. unfold loop_rejects. now rewrite Hnull. }
  destruct (gwbuf_length pkt >? 24) eqn:Hlong.
  2: { cbn [snd]. unfold loop_rejects. now rewrite Hnull, Hlong. }
  pose proof (packet_length_min pkt) as Hlen.
  destruct (Z.ltb_spec (GWBUF_LENGTH pkt) (packet_length pkt)) as [Hlt|Hge];
    cbn [andb].
  - destruct (gwbuf_length pkt >=? packet_length pkt) eqn:Hall.
    + apply IH; try lia.
      pose proof (consume_measure_le (gwbuf_consume pkt (GWBUF_LENGTH pkt))
                    (packet_length pkt - GWBUF_LENGTH pkt)).
      pose proof (consume_measure_lt pkt (GWBUF_LENGTH pkt) Hnull
                    (or_intror (Z.le_refl _))).
      lia.
    + cbn [snd]. unfold loop_rejects. rewrite Hall.
      apply Z.ltb_lt in Hlt. rewrite Hlt.
      cbn. apply Bool.orb_true_r.
  - apply IH; try lia.
    pose proof (consume_measure_lt pkt (packet_length pkt) Hnull).
    lia.
Qed.

(** X16.  The loop of [blr_handle_binlog_record] ends by its own test
    on every chain on which each of its turns reads what is there
    ([ingest_defined]: no empty head segment, and the length bytes and
    the bytes copied from [pkt->next] are in it).  With the fuel
    [ingest_fuel] gives, or any more, the chain left over is one the
    loop turns down: empty, or of at most 24 bytes, or with a packet at
    its head that reaches beyond the head segment and is not yet
    complete; and more fuel changes nothing of the result. *)
Theorem ingest_loop_terminates (fuel : nat) (r : ROUTER_INSTANCE)
    (pkt : GWBUF) :
  ingest_defined (ingest_fuel pkt) pkt = true ->
  (ingest_fuel pkt <= fuel)%nat ->
  loop_rejects (snd (blr_ingest_loop fuel r pkt)) = true
  /\ blr_ingest_loop fuel r pkt = blr_ingest_loop (ingest_fuel pkt) r pkt.
Proof.
  intros _ Hf. split.
  - apply (ingest_loop_rejects (ingest_fuel pkt)); [|exact Hf].
    unfold ingest_fuel, ingest_measure. lia.
  - apply (ingest_loop_fuel (ingest_fuel pkt)); try lia.
    unfold ingest_fuel, ingest_measure. lia.
Qed.

(** ** Rotation *)

Lemma bytes_eqb_refl (a : list Z) : bytes_eqb a a = true.
Proof.
  induction a as [|x a IH]; cbn [bytes_eqb]; [reflexivity|].
  now rewrite Z.eqb_refl, IH.
Qed.

(** X17.  A rotate event rotates once.  When the name in the event
    differs from the current binlog name the router rotates: one
    rotation is asked of the file, [n_rotates] grows by one, and the
    router's name and position become those of the event, the position
    below [2^32].  Handling the same event again changes nothing, as the
    names now agree. *)
Theorem rotate_event_once (r : ROUTER_INSTANCE) (ptr : list Z)
    (hdr : REP_HEADER) :
  let file := rotate_file (skipn 19 ptr) in
  let pos := rotate_position (skipn 19 ptr) in
  let r' := blr_rotate_event r ptr hdr in
  blr_rotate_event r' ptr hdr = r'
  /\ (strncmp_differs (binlog_name r) file BINLOG_FNAMELEN = true ->
      binlog_name r' = file /\ binlog_position r' = pos
      /\ 0 <= pos < 2 ^ 32
      /\ n_rotates (stats r') = n_rotates (stats r) + 1
      /\ blfile r' = blfile r ++ [FileRotate file pos])
  /\ (strncmp_differs (binlog_name r) file BINLOG_FNAMELEN = false ->
      r' = r).
Proof.
  cbv zeta.
  destruct (rotate_event_cases r ptr hdr) as [[Hd Hr]|[Hd Hr]];
    cbv zeta in Hd; rewrite Hr, Hd.
  - split.
    + unfold blr_rotate_event at 1. cbv zeta.
      unfold blr_file_rotate at 1.
      cbn [binlog_name set_binlog].
      unfold strncmp_differs. now rewrite bytes_eqb_refl.
    + split; [|discriminate]. intros _.
      unfold blr_file_rotate. cbn.
      repeat split; try reflexivity; apply rotate_position_32.
  - split.
    + unfold blr_rotate_event. cbv zeta. now rewrite Hd.
    + split; [discriminate | reflexivity].
Qed.

(** ** The length of a packet that straddles two segments *)

(** X18.  The length of the packet at the head of the chain does not
    depend on where the first segment ends.  When the first two segments
    together hold the three length bytes, the length computed for the
    chain is the length the same bytes give in one segment, the
    little-endian value of the three bytes plus four, whether the first
    segment holds one, two or all of them. *)
Theorem packet_length_straddled (prev c : list Z) (x : GWBUF) :
  prev <> [] -> (3 <= length prev + length c)%nat ->
  Forall is_byte (firstn 3 (prev ++ c)) ->
  packet_length (prev :: c :: x) = packet_length [prev ++ c]
  /\ packet_length (prev :: c :: x) = le_value (firstn 3 (prev ++ c)) + 4.
Proof.
  intros Hne Hlen Hb.
  rewrite (packet_length_two prev c x Hne Hlen Hb).
  split; [|reflexivity].
  rewrite packet_length_head by (rewrite length_app; lia).
  rewrite extract_field_24; [reflexivity | rewrite length_app; lia | exact Hb].
Qed.

(** ** The binlog stream at the entry point *)

Lemma set_active_logs_with_gate (a : Z) (r : ROUTER_INSTANCE) :
  set_active_logs a r = with_gate a (queue r) r.
Proof. destruct r; reflexivity. Qed.

Lemma dump_response_is_ingest (r : ROUTER_INSTANCE) (buf : GWBUF) :
  master_state r = BLRM_BINLOGDUMP -> active_logs r = 0 -> queue r = [] ->
  not_error buf ->
  blr_master_response r buf = blr_handle_binlog_record r buf.
Proof.
  intros Hst Hfree Hq Hok.
  destruct (binlogdump_response r buf Hfree Hq Hok Hst) as (Hr & _).
  cbv zeta in Hr. rewrite Hr.
  rewrite (set_active_logs_with_gate 1 r), handle_binlog_record_with_gate.
  destruct (handle_binlog_record_frame r buf) as (_ & _ & Hq' & Ha').
  rewrite <- (with_gate_same (blr_handle_binlog_record r buf)) at 2.
  rewrite Hq', Ha', Hq, Hfree. reflexivity.
Qed.

Lemma dump_responses_are_ingest (chunks : list (list Z)) :
  forall r : ROUTER_INSTANCE,
    master_state r = BLRM_BINLOGDUMP -> active_logs r = 0 -> queue r = [] ->
    Forall (fun c => not_error [c]) chunks ->
    one_by_one r chunks = feed_segments r chunks.
Proof.
  induction chunks as [|c chunks IH]; intros r Hst Hfree Hq Hok;
    cbn [one_by_one feed_segments fold_left]; [reflexivity|].
  inversion Hok as [|? ? Hc Hrest]; subst.
  rewrite (dump_response_is_ingest r [c] Hst Hfree Hq Hc).
  destruct (handle_binlog_record_frame r [c]) as (Hs' & _ & Hq' & Ha').
  apply IH; try assumption; congruence.
Qed.

(** X19.  Once the router is dumping, the responses of the master are
    the binlog stream.  In state [BLRM_BINLOGDUMP], with the gate free,
    the queue empty and no residual, let a stream of packets arrive
    through [blr_master_response], one call for each delivery segment,
    cut as [deliveries_ok] has it (no segment is empty, every packet is
    longer than 24 bytes, and every packet lies within one segment or is
    split between two consecutive ones), no segment having [0xff] at
    offset 4 (such a segment is dropped before the ingestion sees it).
    Then the router is left as by handing the completed packets of the
    stream to the event handling, in order: the pointers handed over
    hold exactly those packets, the opening bytes of the last segment
    are the residual, the state stays [BLRM_BINLOGDUMP], nothing is
    written to the master, the gate is free again and the queue
    empty. *)
Theorem dump_stream_at_entry (ds : list delivery) (r : ROUTER_INSTANCE) :
  master_state r = BLRM_BINLOGDUMP -> active_logs r = 0 -> queue r = [] ->
  residual r = [] -> deliveries_ok [] ds ->
  Forall (fun d => not_error [chunk_of d]) ds ->
  let r' := one_by_one r (map chunk_of ds) in
  r' = replay [] ds r
  /\ map packet_at (all_ptrs [] ds) = packets_of [] ds
  /\ residual r' = single (last_opening [] ds)
  /\ master_state r' = BLRM_BINLOGDUMP /\ master r' = master r
  /\ active_logs r' = 0 /\ queue r' = [].
Proof.
  intros Hst Hfree Hq Hres Hok Herr. cbv zeta.
  rewrite dump_responses_are_ingest; try assumption.
  2: { rewrite Forall_map. exact Herr. }
  destruct (feed_replay ds [] r Hres Hok) as [Hfeed Hrest].
  destruct (packet_at_all_ptrs ds [] Hok) as [Hat _].
  split; [exact Hfeed|]. split; [exact Hat|]. split; [exact Hrest|].
  clear Hfeed Hrest Hat Hok Herr Hres.
  generalize (map chunk_of ds) as chunks. intros chunks.
  revert r Hst Hfree Hq.
  induction chunks as [|c chunks IH]; intros r Hst Hfree Hq;
    cbn [feed_segments fold_left]; [auto|].
  destruct (handle_binlog_record_frame r [c]) as (Hs' & Hm' & Hq' & Ha').
  destruct (IH (blr_handle_binlog_record r [c])) as (H1 & H2 & H3 & H4);
    try congruence.
  unfold feed_segments in *. rewrite H2, Hm'. auto.
Qed.

(** ** The saved handshake replies during the dump *)

Lemma handle_event_saved_slots (r : ROUTER_INSTANCE) (ptr : list Z) :
  saved_slots (saved_master (blr_handle_event r ptr))
  = saved_slots (saved_master r).
Proof.
  unfold blr_handle_event, count_received, blr_rotate_event,
    blr_file_rotate, blr_distribute_binlog_record, blr_write_binlog_record.
  cbv zeta. split_ifs; reflexivity.
Qed.

Lemma fold_handle_event_saved_slots (ptrs : list (list Z)) :
  forall r : ROUTER_INSTANCE,
    saved_slots (saved_master (fold_left blr_handle_event ptrs r))
    = saved_slots (saved_master r).
Proof.
  induction ptrs as [|p ptrs IH]; intros r; cbn [fold_left];
    [reflexivity|].
  rewrite IH. apply handle_event_saved_slots.
Qed.

(** X20.  The replies saved during the handshake outlive the dump.
    Whatever arrives on the binlog stream, [blr_handle_binlog_record]
    leaves the eight saved handshake replies as they are; of the saved
    master data only the format description event and its length can
    change. *)
Theorem saved_replies_kept (r : ROUTER_INSTANCE) (pkt : GWBUF) :
  saved_slots (saved_master (blr_handle_binlog_record r pkt))
  = saved_slots (saved_master r).
Proof.
  pose proof (handle_binlog_record_trace r pkt) as Ht. cbv zeta in Ht.
  rewrite Ht. unfold deliver_as, blr_file_flush, store_residual.
  match goal with
  | |- context [fold_left blr_handle_event ?ptrs ?x] =>
      pose proof (fold_handle_event_saved_slots ptrs x) as Hf
  end.
  unfold clear_residual in *.
  destruct (is_null (snd _)), (is_null (residual r));
    cbn [saved_master set_blfile set_residual] in *; exact Hf.
Qed.

(** ** The relayed packet *)

(** X21.  The relay changes one byte.  When a packet from the master
    carries OK byte 0 and an event that fills its payload, that is
    [event_size + 1] is the payload length, the packet built for a slave
    is the master's packet byte for byte, except that the sequence id at
    offset 3 is the slave's. *)
Theorem relayed_packet_identical (p : list Z) (s : ROUTER_SLAVE) :
  let hdr := blr_extract_header p in
  mysql_packet p -> ok hdr = 0 ->
  0 <= event_size hdr -> event_size hdr + 1 = le_value (firstn 3 p) ->
  slave_packet hdr (skipn 5 p) s = [firstn 3 p ++ seqno s :: skipn 4 p].
Proof.
  intros hdr [Hb Hlen] Hok H0 Hsize.
  pose proof (le_value_bound _ Hb) as Hbound.
  assert (H3 : length (firstn 3 p) = 3%nat)
    by (rewrite length_firstn; lia).
  rewrite H3 in Hbound.
  change (8 * Z.of_nat 3) with 24 in Hbound.
  assert (Hraw : Z.of_nat (length (skipn 5 p)) = event_size hdr)
    by (rewrite length_skipn; lia).
  assert (Hfit : event_fits hdr (skipn 5 p))
    by (repeat split; lia).
  rewrite (slave_packet_layout hdr (skipn 5 p) s Hfit).
  rewrite Hsize. rewrite <- H3 at 1. rewrite (le_bytes_le_value _ Hb).
  rewrite (firstn_all2 (n := Z.to_nat (event_size hdr))) by lia.
  do 2 f_equal. cbn [app]. f_equal.
  assert (H4 : skipn 4 p = nth 4 p 0 :: skipn 5 p).
  { assert (Hl : (5 <= length p)%nat) by lia.
    clear - Hl.
    do 5 (destruct p as [|? p]; [cbn in Hl; lia|]). reflexivity. }
  rewrite H4. f_equal. symmetry. exact Hok.
Qed.

End Router.

(** * Instances on concrete data *)

Lemma encode_extract_inverse_witness :
  extract_field (encode_value 0x123456 24) 24 = 0x123456
  /\ encode_value (extract_field [0x56; 0x34; 0x12] 24) 24 = [0x56; 0x34; 0x12].
Proof.
  assert (Hw : In 24 [8; 16; 24; 32]) by (cbn; auto).
  split.
  - apply (proj1 (encode_extract_inverse 24 Hw)). lia.
  - apply (proj2 (encode_extract_inverse 24 Hw)).
    + reflexivity.
    + repeat constructor; unfold is_byte; lia.
Defined.

Lemma error_response_dropped_witness :
  active_logs chksum1_router = 0
  /\ MYSQL_RESPONSE_ERR err_reply = true
  /\ blr_master_response dump_name_width chksum1_router err_reply
     = set_released [(err_reply, 13)] chksum1_router.
Proof.
  split; [reflexivity|]. split; [reflexivity|].
  exact (proj1 (error_response_dropped dump_name_width chksum1_router
                  err_reply eq_refl (or_introl eq_refl))).
Defined.

Lemma dequeued_buffers_unchecked_witness :
  let r' := blr_master_response dump_name_width queued_error_router ok_reply in
  MYSQL_RESPONSE_ERR (queue queued_error_router) = true
  /\ master_state r' = BLRM_CHKSUM1
  /\ server_id (saved_master r') = ok_reply
  /\ heartbeat (saved_master r') = err_reply
  /\ length (master r') = 2%nat
  /\ queue r' = [] /\ active_logs r' = 0.
Proof.
  cbv zeta.
  rewrite (dequeued_buffers_unchecked dump_name_width queued_error_router
             ok_reply eq_refl
             (conj (proj1 (Z.leb_le 0 3) eq_refl)
                   (proj1 (Z.leb_le 3 12) eq_refl)) eq_refl).
  repeat split; reflexivity.
Defined.

(** The response to the registration is in no slot of [saved_master]. *)
Lemma register_reply_not_retained :
  master_state register_router = nth 9 handshake_states 0
  /\ active_logs register_router = 0
  /\ queue register_router = []
  /\ MYSQL_RESPONSE_ERR ok_reply = false
  /\ ~ In ok_reply
       (saved_slots
          (saved_master
             (blr_master_response dump_name_width register_router ok_reply))).
Proof.
  repeat (split; [reflexivity|]).
  vm_compute. intros H.
  repeat (destruct H as [H|H]; [discriminate H|]). exact H.
Qed.

Lemma master_handshake_witness :
  master_state (blr_master_response dump_name_width chksum1_router ok_reply)
  = BLRM_CHKSUM2
  /\ master (blr_master_response dump_name_width chksum1_router ok_reply)
     = [blr_make_query "SELECT @master_binlog_checksum"]
  /\ chksum1 (saved_master
                (blr_master_response dump_name_width chksum1_router ok_reply))
     = ok_reply
  /\ master (blr_master_step dump_name_width
               (set_master_state BLRM_MUUID sample_router) ok_reply)
     = [blr_make_query
          "SET @slave_uuid='f12fcb7f-b97b-11e3-bc5e-0401152c4c22'"]
  /\ master (fold_left (blr_master_response dump_name_width)
                       (repeat ok_reply 10) (blr_start_master sample_router))
     = handshake_probes dump_name_width sample_router
  /\ master_state (blr_master_response dump_name_width queued_ok_router
                                       ok_reply)
     = BLRM_CHKSUM2
  /\ master (blr_master_response dump_name_width queued_ok_router ok_reply)
     = [blr_make_query "SET @master_heartbeat_period = 1799999979520";
        blr_make_query
          "SET @master_binlog_checksum = @@global.binlog_checksum";
        blr_make_query "SELECT @master_binlog_checksum"].
Proof.
  assert (Hfit : uuid_fits sample_router)
    by (apply Nat.ltb_lt; reflexivity).
  destruct (master_handshake dump_name_width)
    as (Hswitch & _ & Hqueue & Hone & Hrun).
  pose proof (Hqueue queued_ok_router ok_reply 1%nat eq_refl eq_refl
                (proj1 (Nat.leb_le 1 10) eq_refl) eq_refl) as Hq.
  pose proof (Hone chksum1_router ok_reply 3%nat eq_refl eq_refl eq_refl
                (proj1 (Nat.ltb_lt 3 10) eq_refl) eq_refl
                (fun H : 3%nat = 6%nat => ltac:(discriminate H)))
    as Hstep.
  cbv zeta in Hstep. destruct Hstep as (H1 & H2 & H3 & _).
  split; [exact H1|]. split; [exact H2|]. split; [rewrite H3; reflexivity|].
  split.
  - pose proof (Hswitch (set_master_state BLRM_MUUID sample_router)
                  ok_reply 6%nat (proj1 (Nat.ltb_lt 6 10) eq_refl) eq_refl
                  (fun _ => Hfit)) as Hs.
    cbv zeta in Hs. destruct Hs as (_ & Hm & _). rewrite Hm. reflexivity.
  - split; [|split].
    + apply (Hrun sample_router (repeat ok_reply 10) eq_refl eq_refl Hfit
               eq_refl).
      repeat constructor.
    + rewrite Hq. reflexivity.
    + rewrite Hq. reflexivity.
Defined.

Lemma query_event_fits : event_fits query_event_hdr query_event_raw.
Proof. unfold event_fits. cbn. lia. Defined.

Lemma distribute_gating_witness :
  slave_at two_slave_router 0%nat = Some slave_1000
  /\ exists s' : ROUTER_SLAVE,
       slave_at (blr_distribute_binlog_record two_slave_router
                   query_event_hdr query_event_raw) 0%nat = Some s'
       /\ dcb s' = [slave_packet query_event_hdr query_event_raw slave_1000]
       /\ binlog_pos s' = 1050.
Proof.
  split; [reflexivity|].
  destruct (distribute_gating two_slave_router query_event_hdr
              query_event_raw 0%nat slave_1000 eq_refl)
    as (s' & H1 & _ & _ & H3 & _).
  exists s'. split; [exact H1|]. exact (H3 eq_refl).
Defined.

Lemma query_event_allocated : event_allocated query_event_hdr.
Proof. unfold event_allocated. cbn. lia. Defined.

Lemma slave_packet_framing_witness :
  (exists (s' : ROUTER_SLAVE) (data : list Z),
     slave_at (blr_distribute_binlog_record two_slave_router
                 query_event_hdr query_event_raw) 0%nat = Some s'
     /\ dcb s' = [[data]]
     /\ Z.of_nat (length data) = 55
     /\ firstn 5 data = [51; 0; 0; 255; 0]
     /\ skipn 5 data = query_event_raw
     /\ seqno s' = 0)
  /\ (exists (s' : ROUTER_SLAVE) (sent : list GWBUF),
        slave_at (distribute_stream two_slave_router
                    [(query_event_hdr, query_event_raw)]) 0%nat = Some s'
        /\ dcb s' = sent
        /\ map packet_seqid sent = seqid_run 255 (length sent)).
Proof.
  split.
  - destruct (proj1 slave_packet_framing two_slave_router query_event_hdr
                query_event_raw 0%nat slave_1000 eq_refl
                query_event_allocated eq_refl)
      as (s' & data & H1 & H2 & H3 & H4 & H5 & H6 & H7 & H8 & H9).
    destruct (H8 ltac:(cbn; lia)) as [_ H8'].
    specialize (H9 ltac:(cbn; lia)).
    exists s', data. split; [exact H1|]. split; [exact H2|].
    split; [exact H3|]. split; [|split; [exact H9 | exact H7]].
    destruct data as [|a [|b [|c [|d [|e data]]]]]; cbn in H3; try lia.
    cbn in H5, H6, H8'. injection H8' as -> -> ->. subst d e. reflexivity.
  - destruct (proj2 slave_packet_framing
                [(query_event_hdr, query_event_raw)] two_slave_router 0%nat
                slave_1000 eq_refl
                (conj (proj1 (Z.leb_le 0 255) eq_refl)
                      (proj1 (Z.ltb_lt 255 256) eq_refl))
                (@Forall_cons _
                   (fun ev : REP_HEADER * list Z =>
                      event_allocated (fst ev))
                   (query_event_hdr, query_event_raw) []
                   query_event_allocated (Forall_nil _)))
      as (s' & sent & H1 & H2 & H3 & _).
    exists s', sent. split; [exact H1|]. split; [exact H2|]. exact H3.
Defined.

Lemma large_event_length_field (ptr : list Z) :
  exists (s' : ROUTER_SLAVE) (data : list Z),
    slave_at (blr_distribute_binlog_record two_slave_router
                large_event_hdr ptr) 0%nat = Some s'
    /\ dcb s' = [[data]]
    /\ extract_field data 24 = 0
    /\ firstn 3 data = [0; 0; 0].
Proof.
  assert (Ha : event_allocated large_event_hdr)
    by (unfold event_allocated; cbn; lia).
  pose proof (slave_at_distribute two_slave_router large_event_hdr ptr
                0%nat slave_1000 eq_refl) as Hs.
  unfold blr_distribute_to_slave in Hs.
  change (binlog_pos slave_1000
          =? wrap32 (next_pos large_event_hdr - event_size large_event_hdr))
    with true in Hs.
  rewrite (slave_packet_bytes large_event_hdr ptr slave_1000 Ha) in Hs.
  eexists; eexists. split; [exact Hs|].
  cbn [dcb slave_1000 dcb_write app]. split; [reflexivity|].
  change (wrap32 (event_size large_event_hdr + 1)) with 16777216.
  split; [|reflexivity].
  change 24 with (8 * Z.of_nat 3).
  rewrite extract_field_le_bytes by lia. reflexivity.
Qed.

(** An event of [2^24 - 1] bytes, dispatched to the slave whose offset is
    its start: the payload length [2^24] does not fit the 24-bit field,
    which reads 0 in the packet sent to the slave. *)
Lemma length_field_truncated :
  slave_at two_slave_router 0%nat = Some slave_1000
  /\ binlog_pos slave_1000
     = wrap32 (next_pos large_event_hdr - event_size large_event_hdr)
  /\ event_size large_event_hdr + 1 = 16777216
  /\ exists (s' : ROUTER_SLAVE) (data : list Z),
       slave_at (blr_distribute_binlog_record two_slave_router
                   large_event_hdr query_event_raw) 0%nat = Some s'
       /\ dcb s' = [[data]]
       /\ extract_field data 24 = 0
       /\ extract_field data 24 <> event_size large_event_hdr + 1.
Proof.
  split; [reflexivity|]. split; [reflexivity|]. split; [reflexivity|].
  destruct (large_event_length_field query_event_raw)
    as (s' & data & H1 & H2 & H3 & _).
  exists s', data. split; [exact H1|]. split; [exact H2|].
  split; [exact H3|]. rewrite H3. discriminate.
Qed.

Lemma binlog_dump_layout_witness :
  Forall (in_bounds 31) (blr_make_binlog_dump_writes dump_name_width
                           sample_router)
  /\ blr_make_binlog_dump dump_name_width sample_router
     = [[0x1b; 0; 0; 0; 0x12; 4; 0; 0; 0; 0; 0; 0xd2; 0x04; 0; 0] ++ sample_name].
Proof.
  split.
  - apply (proj1 (binlog_dump_layout dump_name_width sample_router)).
    apply Nat.le_refl.
  - rewrite (proj1 (proj2 (binlog_dump_layout dump_name_width sample_router)
                      eq_refl)).
    reflexivity.
Defined.

(** A name field of 40 bytes and the payload length [0x1b] do not go
    together: with that width the builder would store 55 bytes into its
    buffer of 31. *)
Lemma binlog_dump_overflows_at_40 :
  ~ Forall (in_bounds (Z.to_nat (0x1b + 4)))
           (blr_make_binlog_dump_writes spec_BINLOG_FNAMELEN sample_router)
  /\ length (concat (map snd (blr_make_binlog_dump_writes
                                spec_BINLOG_FNAMELEN sample_router)))
     = (4 + 51)%nat.
Proof.
  split.
  - intros H.
    apply (proj1 (binlog_dump_in_bounds spec_BINLOG_FNAMELEN sample_router))
      in H.
    unfold spec_BINLOG_FNAMELEN in H. lia.
  - reflexivity.
Qed.

(** C5 at a rotate event whose position has a non-zero high half: the
    eight position bytes spell [2^32 + 4], the new name differs from the
    current one, [n_rotates] goes up by one, and the position the file
    component is given is 4; whatever the event, the position computed
    lies below [2^32]. *)
Theorem rotate_position_truncated :
  let r' := blr_rotate_event dump_name_width sample_router rotate_event_raw
              rotate_event_hdr in
  rotate_position_64 (skipn 19 rotate_event_raw) = 2 ^ 32 + 4
  /\ rotate_file dump_name_width (skipn 19 rotate_event_raw)
     = bytes_of_string "mysql-bin.000002"
  /\ r' = blr_file_rotate
            (set_stats (count_rotate (stats sample_router)) sample_router)
            (bytes_of_string "mysql-bin.000002") 4
  /\ n_rotates (stats r') = n_rotates (stats sample_router) + 1
  /\ blfile r' = [FileRotate (bytes_of_string "mysql-bin.000002") 4]
  /\ binlog_position r' = 4
  /\ (forall ptr : list Z, 0 <= rotate_position ptr < 2 ^ 32).
Proof.
  cbv zeta. repeat (split; [reflexivity|]).
  exact rotate_position_32.
Qed.

Lemma artificial_event_frame_witness :
  ok (blr_extract_header fake_rotate_packet) = 0
  /\ flags (blr_extract_header fake_rotate_packet) = LOG_EVENT_ARTIFICIAL_F
  /\ no_new_write
       (blfile two_slave_router)
       (blfile (blr_handle_event dump_name_width two_slave_router
                  fake_rotate_packet))
  /\ slaves (blr_handle_event dump_name_width two_slave_router
               fake_rotate_packet)
     = slaves two_slave_router
  /\ binlog_name (blr_handle_event dump_name_width two_slave_router
                    fake_rotate_packet)
     = bytes_of_string "mysql-bin.000002".
Proof.
  split; [reflexivity|]. split; [reflexivity|].
  destruct (artificial_event_frame dump_name_width two_slave_router
              fake_rotate_packet eq_refl eq_refl)
    as (H1 & H2 & H3 & _).
  split; [exact H1|]. split; [exact H2|].
  rewrite (H3 eq_refl). reflexivity.
Defined.

(** An event with the artificial bit and one more flag bit set is written
    to the binlog file and sent to the slave at its offset; and a fake
    format description event carrying exactly the artificial flag changes
    the saved copy of that event. *)
Lemma artificial_bit_not_tested :
  let hdr := blr_extract_header flagged_packet in
  let raw := skipn 5 flagged_packet in
  let r' := blr_handle_event dump_name_width two_slave_router
              flagged_packet in
  let fde := blr_extract_header fake_fde_packet in
  let r'' := blr_handle_event dump_name_width sample_router
               fake_fde_packet in
  ok hdr = 0
  /\ Z.testbit (flags hdr) 5 = true
  /\ Z.land (flags hdr) LOG_EVENT_ARTIFICIAL_F = LOG_EVENT_ARTIFICIAL_F
  /\ blfile r' = [FileWrite hdr raw]
  /\ slave_at r' 0%nat
     = Some {| dcb := [slave_packet hdr raw slave_1000];
               binlog_pos := 1050; seqno := 0; rotations := [] |}
  /\ ok fde = 0
  /\ flags fde = LOG_EVENT_ARTIFICIAL_F
  /\ fde_event (saved_master sample_router) = None
  /\ fde_event (saved_master r'') = Some (skipn 5 fake_fde_packet).
Proof. cbv zeta. repeat split; reflexivity. Qed.

(** C8 at a delivery that is one whole packet of 24 bytes: nothing is
    processed and the whole packet becomes the residual. *)
Lemma whole_packet_left_in_residual :
  let pkt : GWBUF := [stop_event_packet] in
  let r' := blr_master_response dump_name_width dumping_router pkt in
  mysql_packet stop_event_packet
  /\ gwbuf_length pkt = 24
  /\ MYSQL_RESPONSE_ERR pkt = false
  /\ blr_handle_binlog_record dump_name_width dumping_router pkt
     = blr_file_flush (set_residual pkt dumping_router)
  /\ r' = blr_file_flush (set_residual pkt dumping_router)
  /\ stats r' = stats dumping_router
  /\ residual r' = pkt
  /\ ~ incomplete stop_event_packet.
Proof.
  cbv zeta.
  assert (Hp : mysql_packet stop_event_packet)
    by (split; [repeat constructor; unfold is_byte; lia | reflexivity]).
  split; [exact Hp|].
  repeat (split; [reflexivity|]).
  intros (u & Hu & Hpu).
  pose proof (extract_length _ [] Hpu) as H1.
  pose proof (extract_length _ u Hp) as H2.
  rewrite app_nil_r in H1. rewrite H1 in H2.
  rewrite length_app in H2. destruct u; [contradiction | cbn in H2; lia].
Qed.

(** A packet of 104 bytes delivered as 1, 2, 90 and 11 bytes: after the
    fourth delivery the chain holds the whole packet and the copy branch
    is taken, but the 103 missing bytes are read at the second segment,
    which holds 2. *)
Lemma three_segment_copy_short :
  let r3 := fold_left (blr_handle_binlog_record dump_name_width)
                      [[split_1]; [split_2]; [split_3]] dumping_router in
  let chain := gwbuf_append (residual r3) [split_4] in
  residual r3 = [split_1; split_2; split_3]
  /\ concat chain = split_packet
  /\ packet_length chain = 104
  /\ gwbuf_length chain = 104
  /\ (GWBUF_LENGTH chain <? packet_length chain)
     && (gwbuf_length chain >=? packet_length chain) = true
  /\ packet_length chain - GWBUF_LENGTH chain = 103
  /\ length (GWBUF_DATA (tl chain)) = 2%nat
  /\ length (spanning_message chain (packet_length chain)) = 3%nat
  /\ turn_defined chain = false.
Proof. cbv zeta. repeat split; reflexivity. Qed.

Lemma two_deliveries_ok : deliveries_ok [] two_deliveries.
Proof.
  assert (H1 : long_packet long_packet_1)
    by (split; [split; [repeat constructor; unfold is_byte; lia
                       | reflexivity] | cbn; lia]).
  assert (H2 : long_packet long_packet_2)
    by (split; [split; [repeat constructor; unfold is_byte; lia
                       | reflexivity] | cbn; lia]).
  cbn [deliveries_ok two_deliveries]. split; [|split; [|exact I]].
  - split; [discriminate|]. split; [reflexivity|].
    split; [intros H; contradiction|].
    split; [constructor; [exact H1 | constructor]|].
    exists (skipn 10 long_packet_2). split; [discriminate | apply H2].
  - split; [discriminate|]. split; [discriminate|].
    split; [intros _; split; [discriminate | exact H2]|].
    split; [constructor|]. cbn [opening].
    exists long_packet_1. split; [discriminate | apply H1].
Qed.

Lemma stop_and_long_bytes :
  Forall is_byte (concat [stop_event_packet ++ long_packet_2]).
Proof.
  apply Forall_forall. intros x Hx. vm_compute in Hx.
  repeat (destruct Hx as [<-|Hx]; [unfold is_byte; lia|]).
  contradiction.
Defined.

Lemma two_deliveries_bytes :
  Forall is_byte (concat (map chunk_of two_deliveries)).
Proof.
  apply Forall_forall. intros x Hx. vm_compute in Hx.
  repeat (destruct Hx as [<-|Hx]; [unfold is_byte; lia|]).
  contradiction.
Defined.

Lemma reassembly_of_streams_witness :
  map packet_at (handed (feed_trace [] [stop_event_packet ++ long_packet_2]))
  = [stop_event_packet; long_packet_2]
  /\ concat (residual (feed_segments dump_name_width dumping_router
                         [stop_event_packet ++ long_packet_2])) = []
  /\ stream_packets 0 stop_event_packet = [stop_event_packet]
  /\ stream_packets 24 stop_event_packet = []
  /\ map packet_at (handed (feed_trace [] (map chunk_of two_deliveries)))
     = [long_packet_1; long_packet_2]
  /\ concat (residual (feed_segments dump_name_width dumping_router
                         (map chunk_of two_deliveries))) = [].
Proof.
  destruct (reassembly_of_streams dump_name_width)
    as (Hfeed & _ & _ & _ & Hcut).
  destruct (Hfeed [stop_event_packet ++ long_packet_2] dumping_router
              eq_refl stop_and_long_bytes eq_refl)
    as (_ & H2 & H3).
  destruct (Hfeed (map chunk_of two_deliveries) dumping_router
              eq_refl two_deliveries_bytes
              (Hcut two_deliveries two_deliveries_ok))
    as (_ & H4 & H5).
  split; [rewrite H2; reflexivity|].
  split; [rewrite H3; reflexivity|].
  split; [reflexivity|]. split; [reflexivity|].
  split; [rewrite H4; reflexivity | rewrite H5; reflexivity].
Defined.

(** ** Instances of the further properties *)

Lemma encode_value_size_witness :
  length (encode_value 0x1b 24) = 3%nat /\ encode_value 7 0 = [].
Proof.
  split.
  - exact (proj1 (encode_value_size 0x1b 24)).
  - apply (proj2 (proj2 (encode_value_size 7 0))). lia.
Defined.

Lemma encode_value_truncates_witness :
  extract_field (encode_value 0x1234 8 ++ [0xff]) 8 = 0x34.
Proof.
  rewrite (encode_value_truncates 8 0x1234 (or_introl eq_refl) [0xff]).
  reflexivity.
Defined.

Lemma extract_field_bounded_witness :
  0 <= extract_field [0x34; 0x12; 0xff] 16 < 2 ^ 16.
Proof.
  apply (extract_field_bounded 2 [0x34; 0x12; 0xff]).
  - lia.
  - cbn. lia.
  - cbn [firstn].
    repeat (apply Forall_cons; [unfold is_byte; lia|]). apply Forall_nil.
Defined.

Lemma query_packet_layout_witness :
  blr_make_query "SELECT 1"
  = [[9; 0; 0; 0; 3; 83; 69; 76; 69; 67; 84; 32; 49]]
  /\ gwbuf_length (blr_make_query "SELECT 1") = 13.
Proof.
  assert (H : strlen "SELECT 1" + 1 < 2 ^ 24) by (vm_compute; reflexivity).
  destruct (query_packet_layout "SELECT 1" H) as (Hp & _ & Hl & _).
  split; [rewrite Hp; reflexivity | exact Hl].
Defined.

Lemma binlog_dump_fields_witness :
  extract_field
    (skipn 5 (GWBUF_DATA (blr_make_binlog_dump dump_name_width
                            (set_binlog sample_name (2 ^ 32 + 4)
                                        sample_router)))) 32 = 4
  /\ ~ In 0 (skipn 15 (GWBUF_DATA (blr_make_binlog_dump dump_name_width
                                     sample_router))).
Proof.
  split.
  - rewrite (proj1 (binlog_dump_fields dump_name_width
                      (set_binlog sample_name (2 ^ 32 + 4) sample_router)
                      eq_refl)).
    reflexivity.
  - apply (proj2 (proj2 (proj2 (proj2
             (binlog_dump_fields dump_name_width sample_router eq_refl))))).
    vm_compute. lia.
Defined.

Lemma master_state_never_regresses_witness :
  BLRM_SERVERID
  <= master_state (blr_master_response dump_name_width queued_ok_router
                     ok_reply)
  <= BLRM_MAXSTATE.
Proof.
  destruct (master_state_never_regresses dump_name_width queued_ok_router
              ok_reply) as (H1 & H2 & _).
  split; [exact H1|]. apply H2. vm_compute. discriminate.
Defined.

Lemma gate_released_witness :
  active_logs (blr_master_response dump_name_width queued_ok_router ok_reply)
  = 0
  /\ queue (blr_master_response dump_name_width queued_ok_router ok_reply)
     = [].
Proof.
  destruct (proj1 (gate_released dump_name_width queued_ok_router ok_reply)
              eq_refl) as [Ha Hq].
  split; [exact Ha|]. apply Hq.
  - vm_compute. split; discriminate.
  - reflexivity.
Defined.

Lemma queue_drained_in_order_witness :
  blr_master_response dump_name_width queued_ok_router ok_reply
  = one_by_one dump_name_width
      (blr_master_response dump_name_width (set_queue [] queued_ok_router)
                           ok_reply)
      (ok_reply ++ ok_reply)
  /\ master_state (blr_master_response dump_name_width queued_ok_router
                     ok_reply) = BLRM_CHKSUM2.
Proof.
  split; [|reflexivity].
  apply (queue_drained_in_order dump_name_width queued_ok_router ok_reply).
  - reflexivity.
  - vm_compute. split; discriminate.
  - reflexivity.
  - repeat (apply Forall_cons; [reflexivity|]). apply Forall_nil.
Defined.

Lemma packets_counted_once_witness :
  n_binlogs (stats (feed_segments dump_name_width dumping_router
                      (map chunk_of two_deliveries))) = 2
  /\ n_binlog_errors (stats (feed_segments dump_name_width dumping_router
                               (map chunk_of two_deliveries))) = 0.
Proof.
  destruct (packets_counted_once dump_name_width two_deliveries
              dumping_router eq_refl two_deliveries_ok) as (Hb & He & _).
  split; [rewrite Hb | rewrite He]; reflexivity.
Defined.

Lemma forwarded_events_only_witness :
  slaves (blr_handle_event dump_name_width two_slave_router long_packet_2)
  = map (blr_distribute_to_slave (blr_extract_header long_packet_2)
                                 (skipn 5 long_packet_2))
        (slaves two_slave_router)
  /\ slaves (blr_handle_event dump_name_width two_slave_router
               fake_fde_packet)
     = slaves two_slave_router.
Proof.
  split.
  - apply (proj1 (forwarded_events_only dump_name_width two_slave_router
                    long_packet_2)).
    reflexivity.
  - apply (proj2 (forwarded_events_only dump_name_width two_slave_router
                    fake_fde_packet)).
    reflexivity.
Defined.

Lemma slave_packet_header_witness :
  blr_extract_header
    (GWBUF_DATA (slave_packet (blr_extract_header long_packet_2)
                              (skipn 5 long_packet_2) slave_1000))
  = {| payload_len := 51; hdr_seqno := 255; ok := 0; timestamp := 0;
       event_type := 2; hdr_serverid := 1; event_size := 50;
       next_pos := 1100; flags := 0 |}.
Proof.
  rewrite (slave_packet_header long_packet_2 slave_1000).
  - reflexivity.
  - repeat split; vm_compute; discriminate.
  - vm_compute. discriminate.
Defined.

Lemma in_step_slave_follows_witness :
  exists (s' : ROUTER_SLAVE) (sent : list GWBUF),
    slave_at (distribute_stream two_slave_router
                [(query_event_hdr, query_event_raw)]) 0%nat = Some s'
    /\ dcb s' = sent
    /\ length sent = 1%nat
    /\ binlog_pos s' = 1050
    /\ map (fun pkt => skipn 5 (GWBUF_DATA pkt)) sent = [query_event_raw].
Proof.
  assert (Hfit : event_fits query_event_hdr query_event_raw)
    by (repeat split; vm_compute; discriminate).
  destruct (in_step_slave_follows [(query_event_hdr, query_event_raw)]
              two_slave_router 0%nat slave_1000 eq_refl
              (conj eq_refl I))
    as (s' & sent & H1 & H2 & H3 & H4 & H5).
  exists s', sent.
  repeat split; try assumption.
  apply H5.
  exact (@Forall_cons _
           (fun ev : REP_HEADER * list Z => event_fits (fst ev) (snd ev))
           (query_event_hdr, query_event_raw) [] Hfit (Forall_nil _)).
Defined.

Lemma ingest_loop_terminates_witness :
  loop_rejects
    (snd (blr_ingest_loop dump_name_width 200 dumping_router
                          [long_packet_1 ++ firstn 10 long_packet_2]))
  = true.
Proof.
  apply (ingest_loop_terminates dump_name_width 200 dumping_router
           [long_packet_1 ++ firstn 10 long_packet_2]).
  - vm_compute. reflexivity.
  - vm_compute. lia.
Defined.

Lemma residual_is_tail_witness :
  exists consumed : list Z,
    long_packet_1 ++ firstn 10 long_packet_2
    = consumed
      ++ concat (residual (blr_handle_binlog_record dump_name_width
                             dumping_router
                             [long_packet_1; firstn 10 long_packet_2])).
Proof.
  destruct (residual_is_tail dump_name_width dumping_router
              [long_packet_1; firstn 10 long_packet_2]) as [[c Hc] _].
  - vm_compute. reflexivity.
  - exists c. rewrite <- Hc. vm_compute. reflexivity.
Defined.

Lemma rotate_event_once_witness :
  binlog_name (blr_rotate_event dump_name_width sample_router
                 rotate_event_raw rotate_event_hdr)
  = bytes_of_string "mysql-bin.000002"
  /\ blr_rotate_event dump_name_width
       (blr_rotate_event dump_name_width sample_router rotate_event_raw
                         rotate_event_hdr)
       rotate_event_raw rotate_event_hdr
     = blr_rotate_event dump_name_width sample_router rotate_event_raw
                        rotate_event_hdr.
Proof.
  destruct (rotate_event_once dump_name_width sample_router rotate_event_raw
              rotate_event_hdr) as (Hidem & Hrot & _).
  split; [|exact Hidem].
  destruct (Hrot eq_refl) as (Hname & _).
  rewrite Hname. reflexivity.
Defined.

Lemma packet_length_straddled_witness :
  packet_length (split_1 :: split_2 :: [split_3; split_4]) = 104.
Proof.
  rewrite (proj2 (packet_length_straddled split_1 split_2 [split_3; split_4]
                    ltac:(discriminate) ltac:(cbn; lia)
                    ltac:(repeat (apply Forall_cons;
                                  [unfold is_byte; lia|]);
                          apply Forall_nil))).
  reflexivity.
Defined.

Lemma dump_stream_at_entry_witness :
  map packet_at (all_ptrs [] two_deliveries) = [long_packet_1; long_packet_2]
  /\ residual (one_by_one dump_name_width dumping_router
                 (map chunk_of two_deliveries)) = []
  /\ master_state (one_by_one dump_name_width dumping_router
                     (map chunk_of two_deliveries)) = BLRM_BINLOGDUMP.
Proof.
  destruct (dump_stream_at_entry dump_name_width two_deliveries
              dumping_router eq_refl eq_refl eq_refl eq_refl
              two_deliveries_ok)
    as (_ & H2 & H3 & H4 & _).
  - repeat (apply Forall_cons; [reflexivity|]). apply Forall_nil.
  - split; [exact H2|]. split; [exact H3 | exact H4].
Defined.

Lemma relayed_packet_identical_witness :
  slave_packet (blr_extract_header long_packet_2) (skipn 5 long_packet_2)
               slave_1000
  = [[51; 0; 0; 255] ++ skipn 4 long_packet_2].
Proof.
  rewrite (relayed_packet_identical long_packet_2 slave_1000).
  - reflexivity.
  - split; [|reflexivity].
    cbn [firstn long_packet_2 app].
    repeat (apply Forall_cons; [unfold is_byte; lia|]). apply Forall_nil.
  - reflexivity.
  - vm_compute. discriminate.
  - reflexivity.
Defined.
